(** * gobmp: the BMP decoder of reader.go, embedded and verified

    The embedding follows reader.go function by function.  The decoder struct
    is a record that every stage receives and returns; Go's [error] results
    and run-time panics (index out of range, nil dereference, a refused
    allocation) are outcomes of a small state-and-error monad.

    Platform and library assumptions, used throughout:
    - Go's [int] is the 64-bit two's-complement integer of the usual targets;
      header arithmetic carries its wrap-around ([wrap_int]).  Loop counters
      and pixel offsets are bounded by the length of an allocated slice and
      are left as plain integers.
    - The [io.Reader] is an in-memory byte source: the decoder field [r] is
      the unread remainder, and [ReadFull] behaves as io.ReadFull does on
      such a source (io.EOF when nothing is left, io.ErrUnexpectedEOF when
      too little is left, everything available being consumed).
    - image.Rect, image.NewPaletted and image.NewNRGBA are the functions of
      Go's standard library: the pixel slice is zero-filled, the stride is
      the row width in bytes, and the constructors panic when the byte
      count overflows [int].
    - [make] is the runtime's makeslice with its size check: it panics
      (len out of range) when the length is negative or the slice would take
      more than [maxAlloc] bytes, 2^48 on linux/amd64 and the other targets
      with a 48-bit address space.  An allocation that passes this check is
      taken to succeed: running out of memory is not modelled. *)

From Stdlib Require Import ZArith String List Lia DecimalString.
From coqutil Require Import Byte.
From stdpp Require Import base list.

Local Open Scope string_scope.
Local Open Scope list_scope.
Local Open Scope Z_scope.

#[local] Arguments String.append : simpl never.

(** ** Machine integers *)

Definition wrap_int (z : Z) : Z := (z + 2 ^ 63) mod 2 ^ 64 - 2 ^ 63.
Definition uint32 (z : Z) : Z := z mod 2 ^ 32.
Definition int32 (z : Z) : Z := (z + 2 ^ 31) mod 2 ^ 32 - 2 ^ 31.
Definition uint8 (z : Z) : byte := byte.of_Z z.

Abbreviation u8 := byte.unsigned.

(** fmt's [%d] verb. *)
Definition fmt_d (z : Z) : string := NilZero.string_of_int (Z.to_int z).

(** ** Errors and outcomes *)

Inductive error : Type :=
| UnsupportedError (s : string)
| FormatError (s : string)
| EOF
| ErrUnexpectedEOF.

Definition Error (e : error) : string :=
  match e with
  | UnsupportedError s => String.append "bmp: unsupported feature: " s
  | FormatError s => String.append "bmp: invalid format: " s
  | EOF => "EOF"
  | ErrUnexpectedEOF => "unexpected EOF"
  end.

Inductive result (A : Type) : Type :=
| Ok (a : A)
| Fail (e : error)
| Panic.

Arguments Ok {A} a.
Arguments Fail {A} e.
Arguments Panic {A}.

Definition rbind {A B} (x : result A) (k : A -> result B) : result B :=
  match x with
  | Ok a => k a
  | Fail e => Fail e
  | Panic => Panic
  end.

Notation "'let?' x ':=' m 'in' k" := (rbind m (fun x => k))
  (at level 10, x name, m at level 100, k at level 200).

(** ** Slices *)

(** [l[i]] *)
Definition index {A} (l : list A) (i : Z) : result A :=
  if i <? 0 then Panic
  else match l !! Z.to_nat i with
       | Some x => Ok x
       | None => Panic
       end.

(** [l[i] = v] *)
Definition store {A} (l : list A) (i : Z) (v : A) : result (list A) :=
  if (0 <=? i) && (i <? Z.of_nat (length l))
  then Ok (<[Z.to_nat i := v]> l)
  else Panic.

(** [l[lo:hi]] *)
Definition slice {A} (l : list A) (lo hi : Z) : result (list A) :=
  if (0 <=? lo) && (lo <=? hi) && (hi <=? Z.of_nat (length l))
  then Ok (take (Z.to_nat (hi - lo)) (drop (Z.to_nat lo) l))
  else Panic.

(** The runtime's allocation limit, [maxAlloc] of runtime/malloc.go, on
    linux/amd64. *)
Definition maxAlloc : Z := 2 ^ 48.

(** [make([]T, n)] with [zero] the zero value of [T] and [size] its size in
    bytes: makeslice panics (len out of range) when [n] is negative or
    [n * size] exceeds [maxAlloc]. *)
Definition make {A} (size : Z) (zero : A) (n : Z) : result (list A) :=
  if (n <? 0) || (maxAlloc <? n * size) then Panic
  else Ok (replicate (Z.to_nat n) zero).

Definition zero_byte : byte := Byte.x00.

(** ** Go's image and image/color types *)

Record RGBA : Type := mkRGBA { R : byte; G : byte; B : byte; A : byte }.

(** A [color.Color] interface value: nil or, in this package, a [color.RGBA]. *)
Definition Color : Type := option RGBA.

Record Rectangle : Type := mkRect { MinX : Z; MinY : Z; MaxX : Z; MaxY : Z }.

Definition Rect (x0 y0 x1 y1 : Z) : Rectangle :=
  let '(x0, x1) := if x0 >? x1 then (x1, x0) else (x0, x1) in
  let '(y0, y1) := if y0 >? y1 then (y1, y0) else (y0, y1) in
  mkRect x0 y0 x1 y1.

Definition Dx (rc : Rectangle) : Z := MaxX rc - MinX rc.
Definition Dy (rc : Rectangle) : Z := MaxY rc - MinY rc.

Module Paletted.
Record t : Type := mk
  { Pix : list byte; Stride : Z; Rect : Rectangle; Palette : list Color }.
Definition with_Pix (p : list byte) (img : t) : t :=
  mk p (Stride img) (Rect img) (Palette img).
End Paletted.

Module NRGBA.
Record t : Type := mk { Pix : list byte; Stride : Z; Rect : Rectangle }.
Definition with_Pix (p : list byte) (img : t) : t :=
  mk p (Stride img) (Rect img).
End NRGBA.

(** image's pixelBufferLength: the byte count, or a panic when a factor is
    negative or the product does not fit [int]. *)
Definition pixelBufferLength (bytesPerPixel : Z) (rc : Rectangle) : result Z :=
  let total := bytesPerPixel * Dx rc * Dy rc in
  if (Dx rc <? 0) || (Dy rc <? 0) || (2 ^ 63 <=? total) then Panic else Ok total.

Definition NewPaletted (rc : Rectangle) (p : list Color) : result Paletted.t :=
  let? n := pixelBufferLength 1 rc in
  let? pix := make 1 zero_byte n in
  Ok (Paletted.mk pix (1 * Dx rc) rc p).

Definition NewNRGBA (rc : Rectangle) : result NRGBA.t :=
  let? n := pixelBufferLength 4 rc in
  let? pix := make 1 zero_byte n in
  Ok (NRGBA.mk pix (4 * Dx rc) rc).

(** What [Decode] returns: an [image.Image] holding one of the two pointers. *)
Inductive Image : Type :=
| ImgPaletted (p : option Paletted.t)
| ImgNRGBA (p : option NRGBA.t).

(** [color.Model] values that [DecodeConfig] returns. *)
Inductive ColorModel : Type :=
| PaletteModel (p : list Color)
| NRGBAModel.

Record Config : Type := mkConfig
  { ColorModel_ : ColorModel; Width : Z; Height : Z }.

(** ** Compression codes *)

Definition bI_RGB : Z := 0.
Definition bI_RLE8 : Z := 1.
Definition bI_RLE4 : Z := 2.
Definition bI_BITFIELDS : Z := 3.

(** ** The decoder struct *)

Record decoder : Type := mkDecoder
  { r : list byte;
    img_Paletted : option Paletted.t;
    img_NRGBA : option NRGBA.t;
    bfOffBits : Z;
    headerSize : Z;
    width : Z;
    height : Z;
    bitCount : Z;
    biCompression : Z;
    srcPalNumEntries : Z;
    srcPalBytesPerEntry : Z;
    srcPalSizeInBytes : Z;
    dstPalNumEntries : Z;
    dstHasPalette : bool;
    dstPalette : list Color;
    hasBitfieldsSegment : bool;
    bitFieldsSize : Z;
    isTopDown : bool }.

(** [new(decoder)] followed by [d.r = r]. *)
Definition new_decoder (input : list byte) : decoder :=
  mkDecoder input None None 0 0 0 0 0 0 0 0 0 0 false [] false 0 false.

(** Field assignments [d.f = v]. *)

Definition set_r (v : list byte) (d : decoder) : decoder :=
  mkDecoder v (img_Paletted d) (img_NRGBA d) (bfOffBits d) (headerSize d)
    (width d) (height d) (bitCount d) (biCompression d) (srcPalNumEntries d)
    (srcPalBytesPerEntry d) (srcPalSizeInBytes d) (dstPalNumEntries d)
    (dstHasPalette d) (dstPalette d) (hasBitfieldsSegment d) (bitFieldsSize
    d) (isTopDown d).

Definition set_img_Paletted (v : option Paletted.t) (d : decoder) : decoder :=
  mkDecoder (r d) v (img_NRGBA d) (bfOffBits d) (headerSize d) (width d)
    (height d) (bitCount d) (biCompression d) (srcPalNumEntries d)
    (srcPalBytesPerEntry d) (srcPalSizeInBytes d) (dstPalNumEntries d)
    (dstHasPalette d) (dstPalette d) (hasBitfieldsSegment d) (bitFieldsSize
    d) (isTopDown d).

Definition set_img_NRGBA (v : option NRGBA.t) (d : decoder) : decoder :=
  mkDecoder (r d) (img_Paletted d) v (bfOffBits d) (headerSize d) (width d)
    (height d) (bitCount d) (biCompression d) (srcPalNumEntries d)
    (srcPalBytesPerEntry d) (srcPalSizeInBytes d) (dstPalNumEntries d)
    (dstHasPalette d) (dstPalette d) (hasBitfieldsSegment d) (bitFieldsSize
    d) (isTopDown d).

Definition set_bfOffBits (v : Z) (d : decoder) : decoder :=
  mkDecoder (r d) (img_Paletted d) (img_NRGBA d) v (headerSize d) (width d)
    (height d) (bitCount d) (biCompression d) (srcPalNumEntries d)
    (srcPalBytesPerEntry d) (srcPalSizeInBytes d) (dstPalNumEntries d)
    (dstHasPalette d) (dstPalette d) (hasBitfieldsSegment d) (bitFieldsSize
    d) (isTopDown d).

Definition set_headerSize (v : Z) (d : decoder) : decoder :=
  mkDecoder (r d) (img_Paletted d) (img_NRGBA d) (bfOffBits d) v (width d)
    (height d) (bitCount d) (biCompression d) (srcPalNumEntries d)
    (srcPalBytesPerEntry d) (srcPalSizeInBytes d) (dstPalNumEntries d)
    (dstHasPalette d) (dstPalette d) (hasBitfieldsSegment d) (bitFieldsSize
    d) (isTopDown d).

Definition set_width (v : Z) (d : decoder) : decoder :=
  mkDecoder (r d) (img_Paletted d) (img_NRGBA d) (bfOffBits d) (headerSize
    d) v (height d) (bitCount d) (biCompression d) (srcPalNumEntries d)
    (srcPalBytesPerEntry d) (srcPalSizeInBytes d) (dstPalNumEntries d)
    (dstHasPalette d) (dstPalette d) (hasBitfieldsSegment d) (bitFieldsSize
    d) (isTopDown d).

Definition set_height (v : Z) (d : decoder) : decoder :=
  mkDecoder (r d) (img_Paletted d) (img_NRGBA d) (bfOffBits d) (headerSize
    d) (width d) v (bitCount d) (biCompression d) (srcPalNumEntries d)
    (srcPalBytesPerEntry d) (srcPalSizeInBytes d) (dstPalNumEntries d)
    (dstHasPalette d) (dstPalette d) (hasBitfieldsSegment d) (bitFieldsSize
    d) (isTopDown d).

Definition set_bitCount (v : Z) (d : decoder) : decoder :=
  mkDecoder (r d) (img_Paletted d) (img_NRGBA d) (bfOffBits d) (headerSize
    d) (width d) (height d) v (biCompression d) (srcPalNumEntries d)
    (srcPalBytesPerEntry d) (srcPalSizeInBytes d) (dstPalNumEntries d)
    (dstHasPalette d) (dstPalette d) (hasBitfieldsSegment d) (bitFieldsSize
    d) (isTopDown d).

Definition set_biCompression (v : Z) (d : decoder) : decoder :=
  mkDecoder (r d) (img_Paletted d) (img_NRGBA d) (bfOffBits d) (headerSize
    d) (width d) (height d) (bitCount d) v (srcPalNumEntries d)
    (srcPalBytesPerEntry d) (srcPalSizeInBytes d) (dstPalNumEntries d)
    (dstHasPalette d) (dstPalette d) (hasBitfieldsSegment d) (bitFieldsSize
    d) (isTopDown d).

Definition set_srcPalNumEntries (v : Z) (d : decoder) : decoder :=
  mkDecoder (r d) (img_Paletted d) (img_NRGBA d) (bfOffBits d) (headerSize
    d) (width d) (height d) (bitCount d) (biCompression d) v
    (srcPalBytesPerEntry d) (srcPalSizeInBytes d) (dstPalNumEntries d)
    (dstHasPalette d) (dstPalette d) (hasBitfieldsSegment d) (bitFieldsSize
    d) (isTopDown d).

Definition set_srcPalBytesPerEntry (v : Z) (d : decoder) : decoder :=
  mkDecoder (r d) (img_Paletted d) (img_NRGBA d) (bfOffBits d) (headerSize
    d) (width d) (height d) (bitCount d) (biCompression d) (srcPalNumEntries
    d) v (srcPalSizeInBytes d) (dstPalNumEntries d) (dstHasPalette d)
    (dstPalette d) (hasBitfieldsSegment d) (bitFieldsSize d) (isTopDown d).

Definition set_srcPalSizeInBytes (v : Z) (d : decoder) : decoder :=
  mkDecoder (r d) (img_Paletted d) (img_NRGBA d) (bfOffBits d) (headerSize
    d) (width d) (height d) (bitCount d) (biCompression d) (srcPalNumEntries
    d) (srcPalBytesPerEntry d) v (dstPalNumEntries d) (dstHasPalette d)
    (dstPalette d) (hasBitfieldsSegment d) (bitFieldsSize d) (isTopDown d).

Definition set_dstPalNumEntries (v : Z) (d : decoder) : decoder :=
  mkDecoder (r d) (img_Paletted d) (img_NRGBA d) (bfOffBits d) (headerSize
    d) (width d) (height d) (bitCount d) (biCompression d) (srcPalNumEntries
    d) (srcPalBytesPerEntry d) (srcPalSizeInBytes d) v (dstHasPalette d)
    (dstPalette d) (hasBitfieldsSegment d) (bitFieldsSize d) (isTopDown d).

Definition set_dstHasPalette (v : bool) (d : decoder) : decoder :=
  mkDecoder (r d) (img_Paletted d) (img_NRGBA d) (bfOffBits d) (headerSize
    d) (width d) (height d) (bitCount d) (biCompression d) (srcPalNumEntries
    d) (srcPalBytesPerEntry d) (srcPalSizeInBytes d) (dstPalNumEntries d) v
    (dstPalette d) (hasBitfieldsSegment d) (bitFieldsSize d) (isTopDown d).

Definition set_dstPalette (v : list Color) (d : decoder) : decoder :=
  mkDecoder (r d) (img_Paletted d) (img_NRGBA d) (bfOffBits d) (headerSize
    d) (width d) (height d) (bitCount d) (biCompression d) (srcPalNumEntries
    d) (srcPalBytesPerEntry d) (srcPalSizeInBytes d) (dstPalNumEntries d)
    (dstHasPalette d) v (hasBitfieldsSegment d) (bitFieldsSize d) (isTopDown
    d).

Definition set_hasBitfieldsSegment (v : bool) (d : decoder) : decoder :=
  mkDecoder (r d) (img_Paletted d) (img_NRGBA d) (bfOffBits d) (headerSize
    d) (width d) (height d) (bitCount d) (biCompression d) (srcPalNumEntries
    d) (srcPalBytesPerEntry d) (srcPalSizeInBytes d) (dstPalNumEntries d)
    (dstHasPalette d) (dstPalette d) v (bitFieldsSize d) (isTopDown d).

Definition set_bitFieldsSize (v : Z) (d : decoder) : decoder :=
  mkDecoder (r d) (img_Paletted d) (img_NRGBA d) (bfOffBits d) (headerSize
    d) (width d) (height d) (bitCount d) (biCompression d) (srcPalNumEntries
    d) (srcPalBytesPerEntry d) (srcPalSizeInBytes d) (dstPalNumEntries d)
    (dstHasPalette d) (dstPalette d) (hasBitfieldsSegment d) v (isTopDown
    d).

Definition set_isTopDown (v : bool) (d : decoder) : decoder :=
  mkDecoder (r d) (img_Paletted d) (img_NRGBA d) (bfOffBits d) (headerSize
    d) (width d) (height d) (bitCount d) (biCompression d) (srcPalNumEntries
    d) (srcPalBytesPerEntry d) (srcPalSizeInBytes d) (dstPalNumEntries d)
    (dstHasPalette d) (dstPalette d) (hasBitfieldsSegment d) (bitFieldsSize
    d) v.

(** ** The decoder monad: a stage reads and assigns fields of [*decoder] and
    returns a value, an [error], or panics. *)

Definition M (A : Type) : Type := decoder -> result A * decoder.

Definition ret {A} (a : A) : M A := fun d => (Ok a, d).

Definition bind {A B} (m : M A) (k : A -> M B) : M B :=
  fun d =>
    match m d with
    | (Ok a, d') => k a d'
    | (Fail e, d') => (Fail e, d')
    | (Panic, d') => (Panic, d')
    end.

Notation "'let*' x ':=' m 'in' k" := (bind m (fun x => k))
  (at level 10, x name, m at level 100, k at level 200).

Notation "m ';;' k" := (bind m (fun _ => k))
  (at level 100, k at level 200, right associativity).

(** [return err] *)
Definition fail {A} (e : error) : M A := fun d => (Fail e, d).

(** a pure operation that may panic *)
Definition lift {A} (x : result A) : M A := fun d => (x, d).

(** read a field *)
Definition gets {A} (f : decoder -> A) : M A := fun d => (Ok (f d), d).

(** assign a field *)
Definition assign (f : decoder -> decoder) : M unit := fun d => (Ok tt, f d).

(** dereference a pointer field *)
Definition deref {A} (f : decoder -> option A) : M A :=
  fun d => match f d with Some x => (Ok x, d) | None => (Panic, d) end.

(** [for i := 0; i < bound; i++ { body }], where [bound] is a decoder field
    that no loop body of this file assigns: it is read once. *)
Fixpoint iterate (k : nat) (i : Z) (body : Z -> M unit) : M unit :=
  match k with
  | O => ret tt
  | S k' => body i ;; iterate k' (i + 1) body
  end.

Definition for_lt (bound : decoder -> Z) (body : Z -> M unit) : M unit :=
  fun d => iterate (Z.to_nat (bound d)) 0 body d.

Definition len {A} (l : list A) : Z := Z.of_nat (length l).

(** [io.ReadFull(d.r, buf)] with [len(buf) = n]: the bytes that fill [buf]. *)
Definition ReadFull (n : Z) : M (list byte) :=
  fun d =>
    if n <=? 0 then (Ok [], d)
    else if len (r d) =? 0 then (Fail EOF, d)
    else if len (r d) <? n then (Fail ErrUnexpectedEOF, set_r [] d)
    else (Ok (take (Z.to_nat n) (r d)), set_r (drop (Z.to_nat n) (r d)) d).

(** [int] arithmetic of the header stage, with its wrap-around. *)
Definition int_add (a b : Z) : Z := wrap_int (a + b).
Definition int_sub (a b : Z) : Z := wrap_int (a - b).
Definition int_mul (a b : Z) : Z := wrap_int (a * b).
Definition int_neg (a : Z) : Z := wrap_int (- a).

(** ** reader.go *)

Definition getWORD (b : list byte) : result Z :=
  let? b0 := index b 0 in
  let? b1 := index b 1 in
  Ok (Z.lor (u8 b0) (uint32 (Z.shiftl (u8 b1) 8))).

Definition getDWORD (b : list byte) : result Z :=
  let? b0 := index b 0 in
  let? b1 := index b 1 in
  let? b2 := index b 2 in
  let? b3 := index b 3 in
  Ok (Z.lor (Z.lor (Z.lor (u8 b0) (uint32 (Z.shiftl (u8 b1) 8)))
                   (uint32 (Z.shiftl (u8 b2) 16)))
            (uint32 (Z.shiftl (u8 b3) 24))).

(** [d.img_Paletted.Pix[off] = v], [off] computed from the image. *)
Definition store_Paletted (off : Paletted.t -> Z) (v : byte) : M unit :=
  let* img := deref img_Paletted in
  let* pix := lift (store (Paletted.Pix img) (off img) v) in
  assign (set_img_Paletted (Some (Paletted.with_Pix pix img))).

(** [d.img_NRGBA.Pix[off] = v] *)
Definition store_NRGBA (off : NRGBA.t -> Z) (v : byte) : M unit :=
  let* img := deref img_NRGBA in
  let* pix := lift (store (NRGBA.Pix img) (off img) v) in
  assign (set_img_NRGBA (Some (NRGBA.with_Pix pix img))).

Definition decodeRow_1 (buf : list byte) (j : Z) : M unit :=
  for_lt width (fun i =>
    let* x := lift (index buf (Z.quot i 8)) in
    let v :=
      if Z.land (u8 x) (u8 (uint8 (Z.shiftl 1 (7 - Z.rem i 8)))) =? 0
      then uint8 0 else uint8 1 in
    let* n := gets dstPalNumEntries in
    if u8 v >=? n then fail (FormatError "palette index out of range")
    else store_Paletted (fun img => j * Paletted.Stride img + i) v).

Definition decodeRow_4 (buf : list byte) (j : Z) : M unit :=
  for_lt width (fun i =>
    let* v :=
      if Z.land i 1 =? 0
      then let* x := lift (index buf (Z.quot i 2)) in
           ret (uint8 (Z.shiftr (u8 x) 4))
      else let* x := lift (index buf (Z.quot i 2)) in
           ret (uint8 (Z.land (u8 x) 15)) in
    let* n := gets dstPalNumEntries in
    if u8 v >=? n then fail (FormatError "palette index out of range")
    else store_Paletted (fun img => j * Paletted.Stride img + i) v).

Definition decodeRow_8 (buf : list byte) (j : Z) : M unit :=
  for_lt width (fun i =>
    let* v := lift (index buf i) in
    let* n := gets dstPalNumEntries in
    if u8 v >=? n then fail (FormatError "palette index out of range")
    else store_Paletted (fun img => j * Paletted.Stride img + i) v).

Definition decodeRow_24 (buf : list byte) (j : Z) : M unit :=
  for_lt width (fun i =>
    let* b := lift (index buf (i * 3 + 0)) in
    let* g := lift (index buf (i * 3 + 1)) in
    let* r := lift (index buf (i * 3 + 2)) in
    store_NRGBA (fun img => j * NRGBA.Stride img + i * 4 + 0) r ;;
    store_NRGBA (fun img => j * NRGBA.Stride img + i * 4 + 1) g ;;
    store_NRGBA (fun img => j * NRGBA.Stride img + i * 4 + 2) b ;;
    store_NRGBA (fun img => j * NRGBA.Stride img + i * 4 + 3) (uint8 255)).

Definition decodeRowFuncType : Type := list byte -> Z -> M unit.

Definition readBits : M unit :=
  let* w := gets width in
  let* bc := gets bitCount in
  let srcRowStride := int_mul (Z.quot (int_add (int_mul w bc) 31) 32) 4 in
  let* buf := lift (make 1 zero_byte srcRowStride) in
  let decodeRowFunc : option decodeRowFuncType :=
    if bc =? 1 then Some decodeRow_1
    else if bc =? 4 then Some decodeRow_4
    else if bc =? 8 then Some decodeRow_8
    else if bc =? 24 then Some decodeRow_24
    else None in
  match decodeRowFunc with
  | None => ret tt
  | Some decodeRowFunc =>
      for_lt height (fun srcRow =>
        let* topDown := gets isTopDown in
        let* h := gets height in
        let dstRow := if topDown then srcRow else h - srcRow - 1 in
        let* buf := ReadFull (len buf) in
        decodeRowFunc buf dstRow)
  end.

(** [for n > 0 { ... n -= bytesToRead }]: every round takes at least one
    byte off [n], so [n] rounds of fuel are never used up. *)
Fixpoint skipBytes_loop (fuel : nat) (n : Z) : M unit :=
  match fuel with
  | O => ret tt
  | S fuel' =>
      if n >? 0 then
        let bytesToRead := 1024 in
        let bytesToRead := if bytesToRead >? n then n else bytesToRead in
        ReadFull bytesToRead ;;
        skipBytes_loop fuel' (n - bytesToRead)
      else ret tt
  end.

Definition skipBytes (n : Z) : M unit := skipBytes_loop (Z.to_nat n) n.

Definition readGap : M unit :=
  let* hs := gets headerSize in
  let* bfs := gets bitFieldsSize in
  let* ps := gets srcPalSizeInBytes in
  let currentOffset := int_add (int_add (int_add 14 hs) bfs) ps in
  let* off := gets bfOffBits in
  if currentOffset =? off then ret tt
  else if currentOffset >? off then fail (FormatError "bad bfOffBits field")
  else
    let gapSize := int_sub off currentOffset in
    skipBytes gapSize.

Definition decodeInfoHeaderFuncType : Type := list byte -> bool -> M unit.

Definition decodeInfoHeader40 (h : list byte) (configOnly : bool) : M unit :=
  let* s := lift (slice h 4 8) in
  let* x := lift (getDWORD s) in
  assign (set_width (int32 x)) ;;
  let* w := gets width in
  if w <? 1 then fail (FormatError (String.append "bad width " (fmt_d w)))
  else
  let* s := lift (slice h 8 12) in
  let* x := lift (getDWORD s) in
  assign (set_height (int32 x)) ;;
  let* ht := gets height in
  (if ht <? 0
   then assign (set_isTopDown true) ;; assign (set_height (int_neg ht))
   else ret tt) ;;
  let* ht := gets height in
  if ht <? 1 then fail (FormatError (String.append "bad height " (fmt_d ht)))
  else
  let* s := lift (slice h 14 16) in
  let* x := lift (getWORD s) in
  assign (set_bitCount x) ;;
  if configOnly then ret tt
  else
  let* s := lift (slice h 16 20) in
  let* x := lift (getDWORD s) in
  assign (set_biCompression x) ;;
  let* c := gets biCompression in
  if negb (c =? bI_RGB) && negb (c =? bI_RLE4) &&
     negb (c =? bI_RLE8) && negb (c =? bI_BITFIELDS)
  then fail (UnsupportedError
               (String.append "compression or image type " (fmt_d c)))
  else
  let* hs := gets headerSize in
  (if (c =? bI_BITFIELDS) && (hs =? 40)
   then assign (set_hasBitfieldsSegment true) ;; assign (set_bitFieldsSize 12)
   else ret tt) ;;
  let* s := lift (slice h 32 36) in
  let* biClrUsed := lift (getDWORD s) in
  if biClrUsed >? 10000
  then fail (FormatError (String.append "bad palette size " (fmt_d biClrUsed)))
  else
  assign (set_srcPalBytesPerEntry 4) ;;
  let* bc := gets bitCount in
  if (bc >=? 1) && (bc <=? 8) then
    if biClrUsed =? 0
    then assign (set_srcPalNumEntries (wrap_int (Z.shiftl 1 bc)))
    else assign (set_srcPalNumEntries biClrUsed)
  else assign (set_srcPalNumEntries biClrUsed).

Definition readInfoHeader (decodeFn : decodeInfoHeaderFuncType)
    (configOnly : bool) : M unit :=
  let* hs := gets headerSize in
  let* h := lift (make 1 zero_byte hs) in
  let* rest := lift (slice h 4 (len h)) in
  let* bs := ReadFull (len rest) in
  let h := take 4 h ++ bs in
  decodeFn h configOnly ;;
  let* bc := gets bitCount in
  if (bc >=? 1) && (bc <=? 8) then assign (set_dstHasPalette true)
  else ret tt.

Definition readPalette : M unit :=
  let* sz := gets srcPalSizeInBytes in
  let* buf := lift (make 1 zero_byte sz) in
  let* buf := ReadFull (len buf) in
  let* hasPal := gets dstHasPalette in
  if negb hasPal then assign (set_dstPalNumEntries 0)
  else
  let* n := gets srcPalNumEntries in
  assign (set_dstPalNumEntries n) ;;
  let* n := gets dstPalNumEntries in
  (if n >? 256 then assign (set_dstPalNumEntries 256) else ret tt) ;;
  let* n := gets dstPalNumEntries in
  let* pal := lift (make 16 (None : Color) n) in
  assign (set_dstPalette pal) ;;
  for_lt dstPalNumEntries (fun i =>
    let* per := gets srcPalBytesPerEntry in
    let* b := lift (index buf (i * per + 0)) in
    let* g := lift (index buf (i * per + 1)) in
    let* r := lift (index buf (i * per + 2)) in
    let* pal := gets dstPalette in
    let* pal := lift (store pal i (Some (mkRGBA r g b (uint8 255)))) in
    assign (set_dstPalette pal)).

Definition decodeFileHeader (b : list byte) : M unit :=
  let* b0 := lift (index b 0) in
  let* b1 := lift (index b 1) in
  if negb (u8 b0 =? 66) || negb (u8 b1 =? 77)
  then fail (FormatError "not a BMP file")
  else
  let* s := lift (slice b 10 14) in
  let* x := lift (getDWORD s) in
  assign (set_bfOffBits x).

Definition readHeaders (configOnly : bool) : M unit :=
  let* fh := ReadFull 18 in
  let* b := lift (slice fh 0 14) in
  decodeFileHeader b ;;
  let* s := lift (slice fh 14 18) in
  let* hs := lift (getDWORD s) in
  assign (set_headerSize hs) ;;
  (if hs =? 40 then readInfoHeader decodeInfoHeader40 configOnly
   else fail (UnsupportedError
                (String.append "BMP version (header size "
                   (String.append (fmt_d hs) ")")))) ;;
  let* n := gets srcPalNumEntries in
  let* per := gets srcPalBytesPerEntry in
  assign (set_srcPalSizeInBytes (int_mul n per)).

Definition DecodeConfig_body : M Config :=
  readHeaders true ;;
  let* w := gets width in
  let* h := gets height in
  let* hasPal := gets dstHasPalette in
  if hasPal then ret (mkConfig (PaletteModel []) w h)
  else ret (mkConfig NRGBAModel w h).

Definition Decode_body : M Image :=
  readHeaders false ;;
  let* c := gets biCompression in
  if negb (c =? bI_RGB)
  then fail (UnsupportedError
               (String.append "compression or image type " (fmt_d c)))
  else
  let* bc := gets bitCount in
  if negb ((bc =? 1) || (bc =? 4) || (bc =? 8) || (bc =? 24))
  then fail (UnsupportedError (String.append "bit count " (fmt_d bc)))
  else
  let* n := gets srcPalNumEntries in
  (if n >? 0 then readPalette else ret tt) ;;
  let* hasPal := gets dstHasPalette in
  let* w := gets width in
  let* h := gets height in
  (if hasPal
   then let* pal := gets dstPalette in
        let* img := lift (NewPaletted (Rect 0 0 w h) pal) in
        assign (set_img_Paletted (Some img))
   else let* img := lift (NewNRGBA (Rect 0 0 w h)) in
        assign (set_img_NRGBA (Some img))) ;;
  readGap ;;
  readBits ;;
  let* hasPal := gets dstHasPalette in
  if hasPal
  then let* p := gets img_Paletted in ret (ImgPaletted p)
  else let* p := gets img_NRGBA in ret (ImgNRGBA p).

(** The two entry points on an in-memory byte source: the outcome and the
    bytes left unread. *)
Definition DecodeConfig (input : list byte) : result Config * list byte :=
  let '(x, d) := DecodeConfig_body (new_decoder input) in (x, r d).

Definition Decode (input : list byte) : result Image * list byte :=
  let '(x, d) := Decode_body (new_decoder input) in (x, r d).

(** ** Fields of the input, by offset

    The value of the byte at an offset and of the little-endian 16- and
    32-bit fields starting there; the statements below name the header
    fields of the file layout with them. *)

Definition byte_at (l : list byte) (off : Z) : Z :=
  match l !! Z.to_nat off with
  | Some b => u8 b
  | None => 0
  end.

Definition le16_at (l : list byte) (off : Z) : Z :=
  byte_at l off + 2 ^ 8 * byte_at l (off + 1).

Definition le32_at (l : list byte) (off : Z) : Z :=
  byte_at l off + 2 ^ 8 * byte_at l (off + 1)
  + 2 ^ 16 * byte_at l (off + 2) + 2 ^ 24 * byte_at l (off + 3).

(** a 32-bit field read as a signed integer *)
Definition signed32 (z : Z) : Z := if z <? 2 ^ 31 then z else z - 2 ^ 32.

(** ** The header stage in closed form

    The header fields by their offsets in the file, and the outcome of
    [readHeaders] on a fresh decoder written as one case analysis over them;
    [readHeaders_char] proves that the code computes exactly this. *)

Definition has_signature (input : list byte) : bool :=
  (byte_at input 0 =? 66) && (byte_at input 1 =? 77).
Definition hdr_bfOffBits (input : list byte) : Z := le32_at input 10.
Definition hdr_size (input : list byte) : Z := le32_at input 14.
Definition hdr_width (input : list byte) : Z := signed32 (le32_at input 18).
Definition hdr_height (input : list byte) : Z := signed32 (le32_at input 22).
Definition hdr_bitCount (input : list byte) : Z := le16_at input 28.
Definition hdr_compression (input : list byte) : Z := le32_at input 30.
Definition hdr_clrUsed (input : list byte) : Z := le32_at input 46.

Definition is_paletted (bc : Z) : bool := (bc >=? 1) && (bc <=? 8).

Definition palette_count (bc clr : Z) : Z :=
  if is_paletted bc then (if clr =? 0 then 2 ^ bc else clr) else clr.

Definition config_state (input : list byte) : decoder :=
  mkDecoder (drop 54 input) None None (hdr_bfOffBits input) 40
    (hdr_width input) (Z.abs (hdr_height input)) (hdr_bitCount input)
    0 0 0 0 0 (is_paletted (hdr_bitCount input)) [] false 0
    (hdr_height input <? 0).

Definition header_state (input : list byte) : decoder :=
  let n := palette_count (hdr_bitCount input) (hdr_clrUsed input) in
  mkDecoder (drop 54 input) None None (hdr_bfOffBits input) 40
    (hdr_width input) (Z.abs (hdr_height input)) (hdr_bitCount input)
    (hdr_compression input) n 4 (n * 4) 0
    (is_paletted (hdr_bitCount input)) []
    (hdr_compression input =? 3)
    (if hdr_compression input =? 3 then 12 else 0)
    (hdr_height input <? 0).

Definition header_parse (configOnly : bool) (input : list byte)
  : error * list byte + decoder :=
  if len input =? 0 then inl (EOF, [])
  else if len input <? 18 then inl (ErrUnexpectedEOF, [])
  else if negb (has_signature input)
  then inl (FormatError "not a BMP file", drop 18 input)
  else if negb (hdr_size input =? 40)
  then inl (UnsupportedError
              (String.append "BMP version (header size "
                 (String.append (fmt_d (hdr_size input)) ")")),
            drop 18 input)
  else if len input =? 18 then inl (EOF, [])
  else if len input <? 54 then inl (ErrUnexpectedEOF, [])
  else if hdr_width input <? 1
  then inl (FormatError (String.append "bad width " (fmt_d (hdr_width input))),
            drop 54 input)
  else if hdr_height input =? 0
  then inl (FormatError (String.append "bad height " (fmt_d 0)), drop 54 input)
  else if configOnly then inr (config_state input)
  else if hdr_compression input >? 3
  then inl (UnsupportedError
              (String.append "compression or image type "
                 (fmt_d (hdr_compression input))),
            drop 54 input)
  else if hdr_clrUsed input >? 10000
  then inl (FormatError
              (String.append "bad palette size " (fmt_d (hdr_clrUsed input))),
            drop 54 input)
  else inr (header_state input).

(** A stage outcome [x] is the one described by [y]: on success the whole
    decoder state, on failure the error and the unread bytes. *)
Definition agrees (x : result unit * decoder)
    (y : error * list byte + decoder) : Prop :=
  match y with
  | inl (e, rest) => fst x = Fail e /\ r (snd x) = rest
  | inr d => x = (Ok tt, d)
  end.

(** [decodeInfoHeader40] on a header buffer [h] of 40 bytes, as one case
    analysis over its fields. *)
Definition infoHeader40_result (h : list byte) (configOnly : bool)
    (d : decoder) : result unit * decoder :=
  let w := signed32 (le32_at h 4) in
  let ht := signed32 (le32_at h 8) in
  let bc := le16_at h 14 in
  let comp := le32_at h 16 in
  let clr := le32_at h 32 in
  let d1 := set_width w d in
  if w <? 1
  then (Fail (FormatError (String.append "bad width " (fmt_d w))), d1)
  else
  let d2 := if ht <? 0
            then set_height (- ht) (set_isTopDown true (set_height ht d1))
            else set_height ht d1 in
  if ht =? 0
  then (Fail (FormatError (String.append "bad height " (fmt_d 0))), d2)
  else
  let d3 := set_bitCount bc d2 in
  if configOnly then (Ok tt, d3)
  else
  let d4 := set_biCompression comp d3 in
  if comp >? 3
  then (Fail (UnsupportedError
                (String.append "compression or image type " (fmt_d comp))),
        d4)
  else
  let d5 := if (comp =? 3) && (headerSize d =? 40)
            then set_bitFieldsSize 12 (set_hasBitfieldsSegment true d4)
            else d4 in
  if clr >? 10000
  then (Fail (FormatError (String.append "bad palette size " (fmt_d clr))),
        d5)
  else (Ok tt, set_srcPalNumEntries (palette_count bc clr)
                 (set_srcPalBytesPerEntry 4 d5)).

(** ** The stages of [Decode] after the headers

    [Decode_body] is [readHeaders false] followed by [Decode_checks]; each
    definition below is the remainder of the body of [Decode] from one stage
    on ([Decode_body_stages]). *)

Definition Decode_return : M Image :=
  let* hasPal := gets dstHasPalette in
  if hasPal
  then let* p := gets img_Paletted in ret (ImgPaletted p)
  else let* p := gets img_NRGBA in ret (ImgNRGBA p).

Definition Decode_bits : M Image := readBits ;; Decode_return.

Definition Decode_gap : M Image := readGap ;; Decode_bits.

Definition Decode_alloc : M Image :=
  let* hasPal := gets dstHasPalette in
  let* w := gets width in
  let* h := gets height in
  (if hasPal
   then let* pal := gets dstPalette in
        let* img := lift (NewPaletted (Rect 0 0 w h) pal) in
        assign (set_img_Paletted (Some img))
   else let* img := lift (NewNRGBA (Rect 0 0 w h)) in
        assign (set_img_NRGBA (Some img))) ;;
  Decode_gap.

Definition Decode_palette : M Image :=
  let* n := gets srcPalNumEntries in
  (if n >? 0 then readPalette else ret tt) ;;
  Decode_alloc.

Definition Decode_checks : M Image :=
  let* c := gets biCompression in
  if negb (c =? bI_RGB)
  then fail (UnsupportedError
               (String.append "compression or image type " (fmt_d c)))
  else
  let* bc := gets bitCount in
  if negb ((bc =? 1) || (bc =? 4) || (bc =? 8) || (bc =? 24))
  then fail (UnsupportedError (String.append "bit count " (fmt_d bc)))
  else Decode_palette.

Definition Config_return : M Config :=
  let* w := gets width in
  let* h := gets height in
  let* hasPal := gets dstHasPalette in
  if hasPal then ret (mkConfig (PaletteModel []) w h)
  else ret (mkConfig NRGBAModel w h).

(** the outcome of an entry point: the result and the unread bytes *)
Definition observe {A} (x : result A * decoder) : result A * list byte :=
  (fst x, r (snd x)).

(** ** Sample files

    Byte vectors on which the statements below are evaluated. *)

Definition bytes_of (l : list Z) : list byte := map uint8 l.

Definition le16_bytes (z : Z) : list Z := [z mod 256; (z / 256) mod 256].

Definition le32_bytes (z : Z) : list Z :=
  [z mod 256; (z / 256) mod 256; (z / 65536) mod 256; (z / 16777216) mod 256].

(** the 54 header bytes of a file with the given pixel-data offset, width,
    height, bit depth, compression and colors-used fields *)
Definition sample_header (off w h bc comp clr : Z) : list Z :=
  [66; 77] ++ le32_bytes 0 ++ le32_bytes 0 ++ le32_bytes off
  ++ le32_bytes 40 ++ le32_bytes w ++ le32_bytes h ++ le16_bytes 1
  ++ le16_bytes bc ++ le32_bytes comp ++ le32_bytes 0 ++ le32_bytes 0
  ++ le32_bytes 0 ++ le32_bytes clr ++ le32_bytes 0.

(** twenty bytes that start with "XX" *)
Definition xx_file : list byte :=
  bytes_of [88; 88; 0; 0; 0; 0; 0; 0; 0; 0; 0; 0; 0; 0; 0; 0; 0; 0; 1; 2].

(** the two bytes "XX" alone *)
Definition xx_short : list byte := bytes_of [88; 88].

(** a 1x1, 24-bit, uncompressed file, and the same file with other bytes in
    its file-size and reserved fields *)
Definition rgb_1x1 : list byte :=
  bytes_of (sample_header 54 1 1 24 0 0 ++ [1; 2; 3; 0]).

Definition rgb_1x1_sized : list byte :=
  bytes_of ([66; 77; 58; 0; 0; 0; 7; 7; 7; 7]
            ++ drop 10 (sample_header 54 1 1 24 0 0) ++ [1; 2; 3; 0]).

(** an 8-bit, 1x1 file whose header declares compression 2 *)
Definition rle_8bit : list byte :=
  bytes_of (sample_header 1078 1 1 8 2 0).

(** a 1-bit, 3x2 file with colors-used 0: two palette entries, four bytes of
    gap, two rows *)
Definition mono_3x2 : list byte :=
  bytes_of (sample_header 66 3 2 1 0 0
            ++ [10; 20; 30; 0; 40; 50; 60; 7; 0; 0; 0; 0]
            ++ [160; 0; 0; 0; 64; 0; 0; 0]).

(** an 8-bit header that declares 10001 colors *)
Definition big_palette : list byte :=
  bytes_of (sample_header 54 1 1 8 0 10001).

(** ** The palette, gap and allocation stages in closed form *)

(** the byte at an offset (zero past the end) *)
Definition get_byte (l : list byte) (off : Z) : byte :=
  default zero_byte (l !! Z.to_nat off).

(** destination entry [i] of a palette stored in [buf] as (B, G, R, reserved)
    quadruples *)
Definition palette_entry (buf : list byte) (i : nat) : Color :=
  Some (mkRGBA (get_byte buf (Z.of_nat i * 4 + 2))
               (get_byte buf (Z.of_nat i * 4 + 1))
               (get_byte buf (Z.of_nat i * 4 + 0))
               (uint8 255)).

Definition build_palette (buf : list byte) (n : nat) : list Color :=
  map (palette_entry buf) (seq 0 n).

(** the body of the loop of [readPalette] *)
Definition palette_body (buf : list byte) (i : Z) : M unit :=
  let* per := gets srcPalBytesPerEntry in
  let* b := lift (index buf (i * per + 0)) in
  let* g := lift (index buf (i * per + 1)) in
  let* r := lift (index buf (i * per + 2)) in
  let* pal := gets dstPalette in
  let* pal := lift (store pal i (Some (mkRGBA r g b (uint8 255)))) in
  assign (set_dstPalette pal).

(** the decoder after a successful [readPalette] *)
Definition palette_state (d : decoder) : decoder :=
  let n := srcPalNumEntries d in
  let buf := take (Z.to_nat (n * 4)) (r d) in
  let d1 := set_r (drop (Z.to_nat (n * 4)) (r d)) d in
  if dstHasPalette d
  then set_dstPalette (build_palette buf (Z.to_nat (Z.min n 256)))
         (set_dstPalNumEntries (Z.min n 256) d1)
  else set_dstPalNumEntries 0 d1.

(** the decoder after the images are allocated *)
Definition alloc_state (d : decoder) : decoder :=
  let w := width d in
  let h := height d in
  if dstHasPalette d
  then set_img_Paletted
         (Some (Paletted.mk (replicate (Z.to_nat (w * h)) zero_byte) w
                  (mkRect 0 0 w h) (dstPalette d))) d
  else set_img_NRGBA
         (Some (NRGBA.mk (replicate (Z.to_nat (4 * w * h)) zero_byte) (4 * w)
                  (mkRect 0 0 w h))) d.

(** the offset that [readGap] computes *)
Definition computed_offset (d : decoder) : Z :=
  14 + headerSize d + bitFieldsSize d + srcPalSizeInBytes d.

(** a 1x1, 24-bit file that declares its pixel data at offset 53, inside
    the headers *)
Definition early_offset : list byte :=
  bytes_of (sample_header 53 1 1 24 0 0 ++ [1; 2; 3; 0]).

(** a 1x1, 24-bit file that declares its pixel data at offset 66 and ends
    six bytes after the headers *)
Definition short_gap : list byte :=
  bytes_of (sample_header 66 1 1 24 0 0 ++ [0; 0; 0; 0; 0; 0]).

(** the decoders of [mono_3x2] and of [short_gap] when [readGap] starts *)
Definition mono_3x2_at_gap : decoder :=
  alloc_state (palette_state (header_state mono_3x2)).

Definition short_gap_at_gap : decoder :=
  alloc_state (header_state short_gap).

(** ** Rows

    [put_index j i v] is the tail shared by the three paletted row
    decoders: the range check of the index [v] and its store at row [j],
    column [i]. *)
Definition put_index (j i : Z) (v : byte) : M unit :=
  let* n := gets dstPalNumEntries in
  if u8 v >=? n then fail (FormatError "palette index out of range")
  else store_Paletted (fun img => j * Paletted.Stride img + i) v.

(** [put_pixel j i r g b]: the four stores of [decodeRow_24]. *)
Definition put_pixel (j i : Z) (r g b : byte) : M unit :=
  store_NRGBA (fun img => j * NRGBA.Stride img + i * 4 + 0) r ;;
  store_NRGBA (fun img => j * NRGBA.Stride img + i * 4 + 1) g ;;
  store_NRGBA (fun img => j * NRGBA.Stride img + i * 4 + 2) b ;;
  store_NRGBA (fun img => j * NRGBA.Stride img + i * 4 + 3) (uint8 255).

(** a decoder whose paletted (direct-color) image has the pixel bytes [pix] *)
Definition pstate (s : Z) (rc : Rectangle) (pal : list Color) (d0 : decoder)
    (pix : list byte) : decoder :=
  set_img_Paletted (Some (Paletted.mk pix s rc pal)) d0.

Definition nstate (s : Z) (rc : Rectangle) (d0 : decoder)
    (pix : list byte) : decoder :=
  set_img_NRGBA (Some (NRGBA.mk pix s rc)) d0.

(** [pix] with the cells from offset [off] on replaced by [vals] *)
Definition write_row (pix : list byte) (off : Z) (vals : list byte)
  : list byte :=
  take (Z.to_nat off) pix ++ vals
  ++ drop (Z.to_nat off + length vals) pix.

(** The palette index of pixel [i] of a source row, by bit depth: one bit,
    most significant first; one nibble, high nibble first; one byte. *)
Definition pixel_1 (buf : list byte) (i : Z) : Z :=
  (byte_at buf (i / 8) / 2 ^ (7 - i mod 8)) mod 2.

Definition pixel_4 (buf : list byte) (i : Z) : Z :=
  if Z.even i then byte_at buf (i / 2) / 16 else byte_at buf (i / 2) mod 16.

Definition pixel_8 (buf : list byte) (i : Z) : Z := byte_at buf i.

Definition pixel_index (bc : Z) (buf : list byte) (i : Z) : Z :=
  if bc =? 1 then pixel_1 buf i
  else if bc =? 4 then pixel_4 buf i
  else pixel_8 buf i.

(** the output cells of one source row: [w] palette indices, or [w] pixels
    of four bytes (R, G, B, 255) from source triples (B, G, R) *)
Definition decode_row_pal (bc : Z) (w : nat) (buf : list byte) : list byte :=
  map (fun i => uint8 (pixel_index bc buf (Z.of_nat i))) (seq 0 w).

Definition rgba_of (buf : list byte) (i : nat) : list byte :=
  [get_byte buf (Z.of_nat i * 3 + 2); get_byte buf (Z.of_nat i * 3 + 1);
   get_byte buf (Z.of_nat i * 3 + 0); uint8 255].

Definition decode_row_24 (w : nat) (buf : list byte) : list byte :=
  flat_map (rgba_of buf) (seq 0 w).

(** every index of the row is below the palette length [np] *)
Definition row_valid (bc : Z) (w : nat) (np : Z) (buf : list byte) : bool :=
  forallb (fun i => pixel_index bc buf (Z.of_nat i) <? np) (seq 0 w).

(** the byte length of a source row *)
Definition row_stride (w bc : Z) : Z := (w * bc + 31) / 32 * 4.

(** the loop bodies of the three paletted row decoders *)
Definition decodeRow_1_body (buf : list byte) (j i : Z) : M unit :=
  let* x := lift (index buf (Z.quot i 8)) in
  put_index j i
    (if Z.land (u8 x) (u8 (uint8 (Z.shiftl 1 (7 - Z.rem i 8)))) =? 0
     then uint8 0 else uint8 1).

Definition decodeRow_4_body (buf : list byte) (j i : Z) : M unit :=
  let* v :=
    if Z.land i 1 =? 0
    then let* x := lift (index buf (Z.quot i 2)) in
         ret (uint8 (Z.shiftr (u8 x) 4))
    else let* x := lift (index buf (Z.quot i 2)) in
         ret (uint8 (Z.land (u8 x) 15)) in
  put_index j i v.

Definition decodeRow_8_body (buf : list byte) (j i : Z) : M unit :=
  let* v := lift (index buf i) in
  put_index j i v.

Definition decodeRow_24_body (buf : list byte) (j i : Z) : M unit :=
  let* b := lift (index buf (i * 3 + 0)) in
  let* g := lift (index buf (i * 3 + 1)) in
  let* r := lift (index buf (i * 3 + 2)) in
  put_pixel j i r g b.

(** the row decoder that [readBits] selects for a supported bit depth *)
Definition decodeRow_for (bc : Z) : decodeRowFuncType :=
  if bc =? 1 then decodeRow_1
  else if bc =? 4 then decodeRow_4
  else if bc =? 8 then decodeRow_8
  else decodeRow_24.

(** the decoder at the row loop: the paletted (direct-color) image holds
    the pixel bytes [pix], the reader the bytes [data] *)
Definition pst_of (rc : Rectangle) (pal : list Color) (d0 : decoder)
    (pix data : list byte) : decoder :=
  pstate (width d0) rc pal (set_r data d0) pix.

Definition nst_of (rc : Rectangle) (d0 : decoder)
    (pix data : list byte) : decoder :=
  nstate (4 * width d0) rc (set_r data d0) pix.

(** ** The row loop

    [readBits_body] is the body of the loop of [readBits]; [dst_row] the
    output row of a source row; [src_row] the bytes of source row [k] in the
    pixel data; [rows_fold] the pixel bytes after [m] rows, starting at
    source row [s], have been decoded into [pix]. *)
Definition readBits_body (stride : Z) (decodeRowFunc : decodeRowFuncType)
    (srcRow : Z) : M unit :=
  let* topDown := gets isTopDown in
  let* h := gets height in
  let dstRow := if topDown then srcRow else h - srcRow - 1 in
  let* buf := ReadFull stride in
  decodeRowFunc buf dstRow.

Definition dst_row (td : bool) (h k : Z) : Z := if td then k else h - k - 1.

Definition src_row (stride : Z) (data : list byte) (k : nat) : list byte :=
  take (Z.to_nat stride) (drop (k * Z.to_nat stride) data).

Fixpoint rows_fold (decode : list byte -> list byte) (td : bool)
    (h cells stride : Z) (m s : nat) (pix data : list byte) : list byte :=
  match m with
  | O => pix
  | S m' =>
      rows_fold decode td h cells stride m' (S s)
        (write_row pix (dst_row td h (Z.of_nat s) * cells)
           (decode (take (Z.to_nat stride) data)))
        (drop (Z.to_nat stride) data)
  end.

(** ** [Decode] up to the row loop *)

Definition after_palette (d : decoder) : decoder :=
  if srcPalNumEntries d >? 0 then palette_state d else d.

(** the pixel buffer fits an allocation: what [image.NewPaletted] and
    [image.NewNRGBA] require, one byte for a pixel of a paletted image and
    four for a pixel of an NRGBA one *)
Definition fits (d : decoder) : Prop :=
  if dstHasPalette d then width d * height d <= maxAlloc
  else 4 * width d * height d <= maxAlloc.

(** the decoder when [readBits] starts *)
Definition pixel_state (input : list byte) : decoder :=
  set_r (drop (Z.to_nat (hdr_bfOffBits input)) input)
    (alloc_state (after_palette (header_state input))).

(** the conditions under which [Decode], past its header checks, gets to
    [readBits]: the declared offset lies at or after the palette and within
    the file, and the pixel buffer is within the allocation limit *)
Definition reach_bits (input : list byte) : Prop :=
  54 + palette_count (hdr_bitCount input) (hdr_clrUsed input) * 4
  <= hdr_bfOffBits input
  /\ hdr_bfOffBits input <= len input
  /\ fits (header_state input).

(** ** The decoded image, from the bytes of the file *)

Definition img_width (input : list byte) : Z := hdr_width input.
Definition img_height (input : list byte) : Z := Z.abs (hdr_height input).
Definition top_down (input : list byte) : bool := hdr_height input <? 0.

Definition img_rect (input : list byte) : Rectangle :=
  mkRect 0 0 (img_width input) (img_height input).

(** the number of source palette entries and of destination entries *)
Definition src_palette_count (input : list byte) : Z :=
  palette_count (hdr_bitCount input) (hdr_clrUsed input).

Definition dest_palette_len (input : list byte) : Z :=
  Z.min (src_palette_count input) 256.

(** the destination palette, from the palette bytes at offset 54 *)
Definition dest_palette (input : list byte) : list Color :=
  build_palette (take (Z.to_nat (src_palette_count input * 4)) (drop 54 input))
    (Z.to_nat (dest_palette_len input)).

(** the pixel data: the bytes from the declared offset on; its stride and
    its rows *)
Definition pixel_data (input : list byte) : list byte :=
  drop (Z.to_nat (hdr_bfOffBits input)) input.

Definition file_stride (input : list byte) : Z :=
  row_stride (img_width input) (hdr_bitCount input).

Definition file_row (input : list byte) (k : nat) : list byte :=
  src_row (file_stride input) (pixel_data input) k.

(** the pixel bytes of the decoded image *)
Definition decoded_pix (input : list byte) : list byte :=
  let w := img_width input in
  let h := img_height input in
  if is_paletted (hdr_bitCount input)
  then rows_fold (decode_row_pal (hdr_bitCount input) (Z.to_nat w))
         (top_down input) h w (file_stride input) (Z.to_nat h) 0
         (replicate (Z.to_nat (w * h)) zero_byte) (pixel_data input)
  else rows_fold (decode_row_24 (Z.to_nat w))
         (top_down input) h (4 * w) (file_stride input) (Z.to_nat h) 0
         (replicate (Z.to_nat (4 * w * h)) zero_byte) (pixel_data input).

Definition decoded_image (input : list byte) : Image :=
  if is_paletted (hdr_bitCount input)
  then ImgPaletted
         (Some (Paletted.mk (decoded_pix input) (img_width input)
                  (img_rect input) (dest_palette input)))
  else ImgNRGBA
         (Some (NRGBA.mk (decoded_pix input) (4 * img_width input)
                  (img_rect input))).

(** every row is in the file, and every palette index is in range *)
Definition rows_present (input : list byte) : Prop :=
  img_height input * file_stride input <= len (pixel_data input).

Definition rows_valid (input : list byte) : Prop :=
  is_paletted (hdr_bitCount input) = true ->
  forall k, (k < Z.to_nat (img_height input))%nat ->
    row_valid (hdr_bitCount input) (Z.to_nat (img_width input))
      (dest_palette_len input) (file_row input k) = true.

Definition supported_depth (bc : Z) : Prop :=
  bc = 1 \/ bc = 4 \/ bc = 8 \/ bc = 24.

(** the files that [Decode] decodes *)
Definition decodable (input : list byte) : Prop :=
  header_parse false input = inr (header_state input) /\
  hdr_compression input = 0 /\
  supported_depth (hdr_bitCount input) /\
  reach_bits input /\ rows_present input /\ rows_valid input.

(** ** Observations on results *)

(** [img.Bounds()] *)
Definition Bounds (img : Image) : option Rectangle :=
  match img with
  | ImgPaletted (Some p) => Some (Paletted.Rect p)
  | ImgNRGBA (Some p) => Some (NRGBA.Rect p)
  | _ => None
  end.

Definition is_paletted_image (img : Image) : bool :=
  match img with
  | ImgPaletted _ => true
  | ImgNRGBA _ => false
  end.

Definition is_palette_model (m : ColorModel) : bool :=
  match m with
  | PaletteModel _ => true
  | NRGBAModel => false
  end.

(** the pixel bytes and the stride of an image, and its output row [j] *)
Definition image_pix (img : Image) : list byte :=
  match img with
  | ImgPaletted (Some p) => Paletted.Pix p
  | ImgNRGBA (Some p) => NRGBA.Pix p
  | _ => []
  end.

Definition image_stride (img : Image) : Z :=
  match img with
  | ImgPaletted (Some p) => Paletted.Stride p
  | ImgNRGBA (Some p) => NRGBA.Stride p
  | _ => 0
  end.

Definition output_row (img : Image) (j : Z) : list byte :=
  take (Z.to_nat (image_stride img))
    (drop (Z.to_nat (j * image_stride img)) (image_pix img)).

(** the output cells that source row [k] of the file decodes to *)
Definition decode_file_row (input : list byte) (k : nat) : list byte :=
  if is_paletted (hdr_bitCount input)
  then decode_row_pal (hdr_bitCount input) (Z.to_nat (img_width input))
         (file_row input k)
  else decode_row_24 (Z.to_nat (img_width input)) (file_row input k).

(** a 1x1 file of height 0, one of width -5, and their well-formed 2x2
    direct-color siblings stored bottom-up and top-down *)
Definition zero_height : list byte :=
  bytes_of (sample_header 54 1 0 8 0 0).

Definition negative_width : list byte :=
  bytes_of (sample_header 54 (2 ^ 32 - 5) 1 8 0 0).

(** a file laid out as a prefix (headers, palette and gap), the pixel rows
    in file order, and trailing bytes *)
Definition file_of_rows (pre : list byte) (rows : list (list byte))
    (tail : list byte) : list byte :=
  pre ++ concat rows ++ tail.

Definition rgb_2x2_header (h : Z) : list byte :=
  bytes_of (sample_header 54 2 h 24 0 0).

Definition rgb_2x2_rows : list (list byte) :=
  [bytes_of [1; 2; 3; 4; 5; 6; 0; 0]; bytes_of [7; 8; 9; 10; 11; 12; 0; 0]].

Definition rgb_2x2 : list byte :=
  file_of_rows (rgb_2x2_header 2) rgb_2x2_rows (bytes_of [99]).

Definition rgb_2x2_top_down : list byte :=
  file_of_rows (rgb_2x2_header (2 ^ 32 - 2)) (rev rgb_2x2_rows)
    (bytes_of [99]).

(** a 1-bit, 1x1 file that declares one color and stores index 1 *)
Definition index_out_of_range : list byte :=
  bytes_of (sample_header 58 1 1 1 0 1 ++ [1; 2; 3; 4; 128; 0; 0; 0]).

(** ** More sample files *)

(** an 18-byte file header followed by the 12-byte header of the older
    format: header size 12 *)
Definition core_header_file : list byte :=
  bytes_of ([66; 77] ++ le32_bytes 0 ++ le32_bytes 0 ++ le32_bytes 26
            ++ le32_bytes 12 ++ [1; 0; 1; 0; 1; 0; 24; 0]).

(** a well-formed 1x1 header that declares 16 bits per pixel *)
Definition rgb16_1x1 : list byte :=
  bytes_of (sample_header 54 1 1 16 0 0 ++ [1; 2; 0; 0]).

(** ** Bytes that hold pixels

    The number of bytes at the start of a source row that hold its pixels;
    the rest of the row, up to [row_stride], is padding. *)
Definition row_data_bytes (w bc : Z) : Z := (w * bc + 7) / 8.

(** The offsets of a file that [Decode] reads without using them: the
    fourth byte of every palette entry it keeps, the palette entries past
    the 256th (for 24 bits, the whole palette), the gap before the pixel
    data, and the padding at the end of every row. *)
Definition unused_offset (input : list byte) (p : Z) : bool :=
  let off := hdr_bfOffBits input in
  let kept := if is_paletted (hdr_bitCount input)
              then dest_palette_len input else 0 in
  ((54 <=? p) && (p <? off)
   && ((54 + kept * 4 <=? p) || ((p - 54) mod 4 =? 3)))
  || ((off <=? p) && (p <? off + img_height input * file_stride input)
      && (row_data_bytes (img_width input) (hdr_bitCount input)
          <=? (p - off) mod file_stride input)).

(** [mono_3x2] with other bytes at unused offsets *)
Definition mono_3x2_noise : list byte :=
  bytes_of (sample_header 66 3 2 1 0 0
            ++ [10; 20; 30; 200; 40; 50; 60; 201; 9; 8; 7; 6]
            ++ [160; 1; 2; 3; 64; 4; 5; 6]).

(** the file offset at which source row [k] starts *)
Definition row_offset (input : list byte) (k : nat) : Z :=
  hdr_bfOffBits input + Z.of_nat k * file_stride input.

(** the output row that source row [k] is decoded into *)
Definition out_row (input : list byte) (k : nat) : Z :=
  dst_row (top_down input) (img_height input) (Z.of_nat k).

(** a 24-bit header that declares 2147483647 x 2147483648 pixels *)
Definition huge_rgb : list byte :=
  bytes_of (sample_header 54 (2 ^ 31 - 1) (2 ^ 31) 24 0 0).

(** an 8-bit header that declares 2147483647 x 2147483647 pixels, followed
    by its palette of 256 entries: 1078 bytes *)
Definition huge_gray : list byte :=
  bytes_of (sample_header 1078 (2 ^ 31 - 1) (2 ^ 31 - 1) 8 0 0)
  ++ replicate 1024 zero_byte.

(** [mono_3x2] cut after its first row, and with its pixel data declared at
    offset 60, inside the palette *)
Definition mono_3x2_one_row : list byte := take 70 mono_3x2.

Definition mono_3x2_early : list byte :=
  bytes_of (sample_header 60 3 2 1 0 0
            ++ [10; 20; 30; 0; 40; 50; 60; 7; 0; 0; 0; 0]
            ++ [160; 0; 0; 0; 64; 0; 0; 0]).

(** [mono_3x2] with other bytes in the header fields that the decoder does
    not use: file size, reserved, planes, image size, resolution, important
    colors *)
Definition mono_3x2_other_header : list byte :=
  bytes_of ([66; 77; 1; 2; 3; 4; 5; 6; 7; 8] ++ le32_bytes 66
            ++ le32_bytes 40 ++ le32_bytes 3 ++ le32_bytes 2 ++ [9; 9]
            ++ le16_bytes 1 ++ le32_bytes 0
            ++ [11; 12; 13; 14; 15; 16; 17; 18; 19; 20; 21; 22]
            ++ le32_bytes 0 ++ [23; 24; 25; 26]
            ++ [10; 20; 30; 0; 40; 50; 60; 7; 0; 0; 0; 0]
            ++ [160; 0; 0; 0; 64; 0; 0; 0]).

(** ** The registered format

    [init] registers the decoder with Go's image package under the magic
    string "BM????" followed by four zero bytes.  [match_magic] is that
    package's [match]: the magic and the bytes have the same length and
    agree wherever the magic is not '?'; [sniff] is its test of one
    registered format: it peeks as many bytes as the magic has. *)
Definition bmp_magic : list byte :=
  bytes_of [66; 77; 63; 63; 63; 63; 0; 0; 0; 0].

Fixpoint match_magic (magic b : list byte) : bool :=
  match magic, b with
  | [], [] => true
  | m :: magic', c :: b' =>
      negb (negb (u8 m =? u8 c) && negb (u8 m =? 63)) && match_magic magic' b'
  | _, _ => false
  end.

Definition sniff (magic input : list byte) : bool :=
  (length magic <=? length input)%nat
  && match_magic magic (take (length magic) input).

(** an 8-bit, 1x1 header like that of [rle_8bit] with another offset,
    compression and colors-used count, followed by three bytes *)
Definition rle_8bit_other : list byte :=
  bytes_of (sample_header 0 1 1 8 0 77 ++ [1; 2; 3]).

(** * Lemmas *)

(** ** Integers and bytes *)

Lemma land_shiftl_low a b n :
  0 <= n -> 0 <= a < 2 ^ n -> Z.land a (Z.shiftl b n) = 0.
Proof.
  intros Hn Ha. apply Z.bits_inj'. intros i Hi.
  rewrite Z.land_spec, Z.bits_0.
  destruct (Z.lt_ge_cases i n) as [Hlt|Hge].
  - rewrite (Z.shiftl_spec_low b n i Hlt). apply andb_false_r.
  - destruct (Z.eq_dec a 0) as [->|Hne]; [now rewrite Z.bits_0|].
    assert (Hlog : Z.log2 a < n) by (apply Z.log2_lt_pow2; lia).
    rewrite (Z.bits_above_log2 a i) by lia. reflexivity.
Qed.

Lemma lor_mul_pow2_add a b n :
  0 <= n -> 0 <= a < 2 ^ n -> Z.lor a (b * 2 ^ n) = a + b * 2 ^ n.
Proof.
  intros Hn Ha. rewrite <- Z.shiftl_mul_pow2 by lia.
  symmetry. apply Z.add_nocarry_lor, land_shiftl_low; lia.
Qed.

Lemma u8_range (b : byte) : 0 <= u8 b < 256.
Proof. apply byte.unsigned_range. Qed.

Lemma wrap_int_small z : - 2 ^ 63 <= z < 2 ^ 63 -> wrap_int z = z.
Proof. intros H. unfold wrap_int. rewrite Z.mod_small; lia. Qed.

Lemma int32_signed32 z : 0 <= z < 2 ^ 32 -> int32 z = signed32 z.
Proof.
  intros H. unfold int32, signed32. destruct (z <? 2 ^ 31) eqn:E.
  - rewrite Z.mod_small; lia.
  - replace (z + 2 ^ 31) with (z - 2 ^ 31 + 1 * 2 ^ 32) by lia.
    rewrite Z.mod_add by lia. rewrite Z.mod_small; lia.
Qed.

Lemma signed32_range z : 0 <= z < 2 ^ 32 -> - 2 ^ 31 <= signed32 z < 2 ^ 31.
Proof. intros H. unfold signed32. destruct (z <? 2 ^ 31) eqn:E; lia. Qed.

(** ** Slices *)

Lemma index_lookup {A} (l : list A) (i : Z) x :
  0 <= i -> l !! Z.to_nat i = Some x -> index l i = Ok x.
Proof.
  intros Hi Hl. unfold index. destruct (i <? 0) eqn:E; [lia|]. now rewrite Hl.
Qed.

Lemma index_in_range {A} (l : list A) (i : Z) :
  0 <= i < len l -> exists x, l !! Z.to_nat i = Some x /\ index l i = Ok x.
Proof.
  intros Hi. unfold len in Hi.
  destruct (l !! Z.to_nat i) as [x|] eqn:E.
  - exists x. split; [reflexivity|]. apply index_lookup; [lia|exact E].
  - apply lookup_ge_None in E. lia.
Qed.

Lemma index_byte (l : list byte) (i : Z) :
  0 <= i < len l -> exists x, index l i = Ok x /\ u8 x = byte_at l i.
Proof.
  intros Hi. destruct (index_in_range l i Hi) as (x & Hx & Hix).
  exists x. split; [exact Hix|]. unfold byte_at. now rewrite Hx.
Qed.

Lemma slice_ok {A} (l : list A) lo hi :
  0 <= lo -> lo <= hi -> hi <= len l ->
  slice l lo hi = Ok (take (Z.to_nat (hi - lo)) (drop (Z.to_nat lo) l)).
Proof.
  intros H1 H2 H3. unfold slice. unfold len in H3.
  destruct (0 <=? lo) eqn:E1; [|lia].
  destruct (lo <=? hi) eqn:E2; [|lia].
  destruct (hi <=? Z.of_nat (length l)) eqn:E3; [|lia]. reflexivity.
Qed.

Lemma byte_at_range l off : 0 <= byte_at l off < 256.
Proof.
  unfold byte_at. destruct (l !! Z.to_nat off); [apply u8_range|lia].
Qed.

Lemma le16_at_range l off : 0 <= le16_at l off < 2 ^ 16.
Proof.
  unfold le16_at.
  pose proof (byte_at_range l off). pose proof (byte_at_range l (off + 1)).
  lia.
Qed.

Lemma le32_at_range l off : 0 <= le32_at l off < 2 ^ 32.
Proof.
  unfold le32_at.
  pose proof (byte_at_range l off). pose proof (byte_at_range l (off + 1)).
  pose proof (byte_at_range l (off + 2)).
  pose proof (byte_at_range l (off + 3)). lia.
Qed.

Lemma byte_at_take l n off :
  0 <= off < Z.of_nat n -> byte_at (take n l) off = byte_at l off.
Proof.
  intros H. unfold byte_at. rewrite lookup_take_lt by lia. reflexivity.
Qed.

Lemma byte_at_drop l n off :
  0 <= off -> byte_at (drop n l) off = byte_at l (Z.of_nat n + off).
Proof.
  intros H. unfold byte_at. rewrite lookup_drop.
  replace (Z.to_nat (Z.of_nat n + off)) with (n + Z.to_nat off)%nat by lia.
  reflexivity.
Qed.

Lemma byte_at_app_r l1 l2 off :
  len l1 <= off -> byte_at (l1 ++ l2) off = byte_at l2 (off - len l1).
Proof.
  intros H. unfold byte_at, len in *.
  rewrite lookup_app_r by lia.
  replace (Z.to_nat (off - Z.of_nat (length l1)))
    with (Z.to_nat off - length l1)%nat by lia.
  reflexivity.
Qed.

Lemma getWORD_le16 (l : list byte) :
  2 <= len l -> getWORD l = Ok (le16_at l 0).
Proof.
  intros Hl. unfold getWORD.
  destruct (index_byte l 0) as (x0 & -> & H0); [lia|].
  destruct (index_byte l 1) as (x1 & -> & H1); [lia|].
  cbn [rbind]. f_equal. unfold le16_at, uint32. change (0 + 1) with 1.
  rewrite <- H0, <- H1.
  pose proof (u8_range x0). pose proof (u8_range x1).
  rewrite Z.shiftl_mul_pow2 by lia.
  rewrite (Z.mod_small (_ * 2 ^ 8)) by lia.
  rewrite (lor_mul_pow2_add _ _ 8) by lia. lia.
Qed.

Lemma getDWORD_le32 (l : list byte) :
  4 <= len l -> getDWORD l = Ok (le32_at l 0).
Proof.
  intros Hl. unfold getDWORD.
  destruct (index_byte l 0) as (x0 & -> & H0); [lia|].
  destruct (index_byte l 1) as (x1 & -> & H1); [lia|].
  destruct (index_byte l 2) as (x2 & -> & H2); [lia|].
  destruct (index_byte l 3) as (x3 & -> & H3); [lia|].
  cbn [rbind]. f_equal. unfold le32_at, uint32.
  change (0 + 1) with 1. change (0 + 2) with 2. change (0 + 3) with 3.
  rewrite <- H0, <- H1, <- H2, <- H3.
  pose proof (u8_range x0). pose proof (u8_range x1).
  pose proof (u8_range x2). pose proof (u8_range x3).
  rewrite !Z.shiftl_mul_pow2 by lia.
  rewrite (Z.mod_small (_ * 2 ^ 8)) by lia.
  rewrite (Z.mod_small (_ * 2 ^ 16)) by lia.
  rewrite (Z.mod_small (_ * 2 ^ 24)) by lia.
  rewrite (lor_mul_pow2_add _ _ 8) by lia.
  rewrite (lor_mul_pow2_add _ _ 16) by lia.
  rewrite (lor_mul_pow2_add _ _ 24) by lia. lia.
Qed.

Lemma byte_at_slice (l : list byte) lo hi j :
  0 <= lo -> 0 <= j -> lo + j < hi ->
  byte_at (take (Z.to_nat (hi - lo)) (drop (Z.to_nat lo) l)) j
  = byte_at l (lo + j).
Proof.
  intros H1 H2 H3. rewrite byte_at_take by lia. rewrite byte_at_drop by lia.
  rewrite Z2Nat.id by lia. reflexivity.
Qed.

Lemma le32_at_slice (l : list byte) lo hi k :
  0 <= lo -> 0 <= k -> lo + k + 4 <= hi ->
  le32_at (take (Z.to_nat (hi - lo)) (drop (Z.to_nat lo) l)) k
  = le32_at l (lo + k).
Proof.
  intros H1 H3 H4. unfold le32_at.
  rewrite !byte_at_slice by lia. rewrite !Z.add_assoc. reflexivity.
Qed.

Lemma le16_at_slice (l : list byte) lo hi k :
  0 <= lo -> 0 <= k -> lo + k + 2 <= hi ->
  le16_at (take (Z.to_nat (hi - lo)) (drop (Z.to_nat lo) l)) k
  = le16_at l (lo + k).
Proof.
  intros H1 H3 H4. unfold le16_at.
  rewrite !byte_at_slice by lia. rewrite !Z.add_assoc. reflexivity.
Qed.

Lemma len_slice {A} (l : list A) lo hi :
  0 <= lo -> lo <= hi -> hi <= len l ->
  len (take (Z.to_nat (hi - lo)) (drop (Z.to_nat lo) l)) = hi - lo.
Proof.
  intros H1 H2 H3. unfold len in *. rewrite length_take, length_drop. lia.
Qed.

(** [getDWORD(l[lo:lo+4])] and [getWORD(l[lo:lo+2])] *)
Lemma slice_getDWORD (l : list byte) lo hi :
  0 <= lo -> hi = lo + 4 -> hi <= len l ->
  rbind (slice l lo hi) getDWORD = Ok (le32_at l lo).
Proof.
  intros H1 -> H3. rewrite slice_ok by lia. cbn [rbind].
  rewrite getDWORD_le32 by (rewrite len_slice; lia).
  rewrite le32_at_slice by lia. now rewrite Z.add_0_r.
Qed.

Lemma slice_getWORD (l : list byte) lo hi :
  0 <= lo -> hi = lo + 2 -> hi <= len l ->
  rbind (slice l lo hi) getWORD = Ok (le16_at l lo).
Proof.
  intros H1 -> H3. rewrite slice_ok by lia. cbn [rbind].
  rewrite getWORD_le16 by (rewrite len_slice; lia).
  rewrite le16_at_slice by lia. now rewrite Z.add_0_r.
Qed.

(** ** The decoder monad, step by step *)

Lemma bind_eq {A B} (m : M A) (k : A -> M B) d :
  bind m k d = match m d with
               | (Ok a, d') => k a d'
               | (Fail e, d') => (Fail e, d')
               | (Panic, d') => (Panic, d')
               end.
Proof. reflexivity. Qed.

Lemma bind_ret {A B} (a : A) (k : A -> M B) d : bind (ret a) k d = k a d.
Proof. reflexivity. Qed.

Lemma bind_gets {A B} (f : decoder -> A) (k : A -> M B) d :
  bind (gets f) k d = k (f d) d.
Proof. reflexivity. Qed.

Lemma bind_assign {B} f (k : unit -> M B) d :
  bind (assign f) k d = k tt (f d).
Proof. reflexivity. Qed.

Lemma bind_fail {A B} e (k : A -> M B) d : bind (fail e) k d = (Fail e, d).
Proof. reflexivity. Qed.

Lemma bind_lift_Ok {A B} (a : A) (k : A -> M B) d :
  bind (lift (Ok a)) k d = k a d.
Proof. reflexivity. Qed.

Lemma bind_lift2 {A B C} (x : result A) (f : A -> result B) (k : B -> M C) d :
  bind (lift x) (fun a => bind (lift (f a)) k) d = bind (lift (rbind x f)) k d.
Proof. destruct x; reflexivity. Qed.

Lemma bind_assoc {A B C} (m : M A) (f : A -> M B) (g : B -> M C) d :
  bind (bind m f) g d = bind m (fun a => bind (f a) g) d.
Proof. unfold bind. destruct (m d) as [[a|e|] d']; reflexivity. Qed.

Lemma bind_if {A B} (c : bool) (m1 m2 : M A) (k : A -> M B) d :
  bind (if c then m1 else m2) k d = if c then bind m1 k d else bind m2 k d.
Proof. destruct c; reflexivity. Qed.

Lemma app_if {A} (c : bool) (m1 m2 : M A) d :
  (if c then m1 else m2) d = if c then m1 d else m2 d.
Proof. destruct c; reflexivity. Qed.

Lemma ReadFull_ok n d :
  0 < n -> n <= len (r d) ->
  ReadFull n d
  = (Ok (take (Z.to_nat n) (r d)), set_r (drop (Z.to_nat n) (r d)) d).
Proof.
  intros Hn Hl. unfold ReadFull.
  destruct (n <=? 0) eqn:E1; [lia|].
  destruct (len (r d) =? 0) eqn:E2; [lia|].
  destruct (len (r d) <? n) eqn:E3; [lia|]. reflexivity.
Qed.

Lemma ReadFull_short n d :
  len (r d) < n ->
  fst (ReadFull n d) = Fail (if len (r d) =? 0 then EOF else ErrUnexpectedEOF)
  /\ r (snd (ReadFull n d)) = [].
Proof.
  intros Hl. unfold ReadFull. unfold len in *.
  destruct (n <=? 0) eqn:E1; [lia|].
  destruct (Z.of_nat (length (r d)) =? 0) eqn:E2.
  - split; [reflexivity|]. cbn [snd]. revert E2.
    destruct (r d); [reflexivity|]. simpl length. intros E2.
    apply Z.eqb_eq in E2. lia.
  - destruct (Z.of_nat (length (r d)) <? n) eqn:E3; [|lia]. split; reflexivity.
Qed.

Lemma bind_ReadFull_ok {B} n (k : list byte -> M B) d :
  0 < n -> n <= len (r d) ->
  bind (ReadFull n) k d
  = k (take (Z.to_nat n) (r d)) (set_r (drop (Z.to_nat n) (r d)) d).
Proof. intros Hn Hl. rewrite bind_eq, ReadFull_ok by assumption. reflexivity. Qed.

Lemma bind_ReadFull_short {B} n (k : list byte -> M B) d :
  len (r d) < n ->
  fst (bind (ReadFull n) k d)
  = Fail (if len (r d) =? 0 then EOF else ErrUnexpectedEOF)
  /\ r (snd (bind (ReadFull n) k d)) = [].
Proof.
  intros Hl. rewrite bind_eq. pose proof (ReadFull_short n d Hl) as H.
  revert H. destruct (ReadFull n d) as [[a|e|] d']; cbn [fst snd];
    intros [H1 H2]; [discriminate H1 | | discriminate H1].
  injection H1 as ->. split; [reflexivity|assumption].
Qed.

Lemma read_DWORD {C} (l : list byte) lo hi (k : Z -> M C) d :
  0 <= lo -> hi = lo + 4 -> hi <= len l ->
  bind (lift (slice l lo hi)) (fun s => bind (lift (getDWORD s)) k) d
  = k (le32_at l lo) d.
Proof.
  intros. rewrite bind_lift2, slice_getDWORD by assumption. reflexivity.
Qed.

Lemma read_WORD {C} (l : list byte) lo hi (k : Z -> M C) d :
  0 <= lo -> hi = lo + 2 -> hi <= len l ->
  bind (lift (slice l lo hi)) (fun s => bind (lift (getWORD s)) k) d
  = k (le16_at l lo) d.
Proof.
  intros. rewrite bind_lift2, slice_getWORD by assumption. reflexivity.
Qed.

(** ** The header stage *)

Lemma decodeFileHeader_eq (b : list byte) d :
  14 <= len b ->
  decodeFileHeader b d
  = if has_signature b then (Ok tt, set_bfOffBits (le32_at b 10) d)
    else (Fail (FormatError "not a BMP file"), d).
Proof.
  intros Hl. unfold decodeFileHeader, has_signature.
  destruct (index_byte b 0) as (x0 & E0 & H0); [lia|].
  destruct (index_byte b 1) as (x1 & E1 & H1); [lia|].
  rewrite E0, bind_lift_Ok, E1, bind_lift_Ok, H0, H1.
  destruct (byte_at b 0 =? 66); [destruct (byte_at b 1 =? 77)|];
    cbn [negb orb andb]; try reflexivity.
  rewrite read_DWORD by lia. reflexivity.
Qed.

Lemma shiftl_1_wrap bc : 1 <= bc <= 8 -> wrap_int (Z.shiftl 1 bc) = 2 ^ bc.
Proof.
  intros H. rewrite Z.shiftl_1_l.
  assert (2 ^ bc <= 2 ^ 8) by (apply Z.pow_le_mono_r; lia).
  assert (0 < 2 ^ bc) by (apply Z.pow_pos_nonneg; lia).
  apply wrap_int_small. lia.
Qed.

Lemma decodeInfoHeader40_eq (h : list byte) c d :
  36 <= len h ->
  decodeInfoHeader40 h c d = infoHeader40_result h c d.
Proof.
  intros Hl. unfold decodeInfoHeader40, infoHeader40_result.
  pose proof (le32_at_range h 4) as R4.
  pose proof (le32_at_range h 8) as R8.
  pose proof (le32_at_range h 16) as R16.
  pose proof (le32_at_range h 32) as R32.
  pose proof (le16_at_range h 14) as R14.
  pose proof (signed32_range _ R4) as S4.
  pose proof (signed32_range _ R8) as S8.
  rewrite read_DWORD by lia.
  rewrite bind_assign, bind_gets. cbn [width set_width].
  rewrite int32_signed32 by lia.
  destruct (signed32 (le32_at h 4) <? 1) eqn:Ew; [reflexivity|].
  rewrite read_DWORD by lia.
  rewrite bind_assign, bind_gets. cbn [height set_height].
  rewrite int32_signed32 by lia.
  rewrite bind_if.
  set (w := signed32 (le32_at h 4)) in *.
  set (ht := signed32 (le32_at h 8)) in *.
  assert (Hneg : int_neg ht = - ht)
    by (unfold int_neg; apply wrap_int_small; lia).
  destruct (ht <? 0) eqn:Eh.
  - rewrite bind_assoc, !bind_assign, bind_gets. cbn [height set_height].
    rewrite Hneg.
    destruct (- ht <? 1) eqn:E1; [lia|].
    destruct (ht =? 0) eqn:E0; [lia|].
    rewrite read_WORD by lia. rewrite bind_assign.
    destruct c; [reflexivity|].
    rewrite read_DWORD by lia. rewrite bind_assign, bind_gets.
    cbn [biCompression set_biCompression].
    set (comp := le32_at h 16) in *.
    unfold bI_RGB, bI_RLE4, bI_RLE8, bI_BITFIELDS.
    destruct (comp >? 3) eqn:Ec.
    + destruct (comp =? 0) eqn:C0; [lia|]. destruct (comp =? 2) eqn:C2; [lia|].
      destruct (comp =? 1) eqn:C1; [lia|]. destruct (comp =? 3) eqn:C3; [lia|].
      reflexivity.
    + assert (Hrec : negb (comp =? 0) && negb (comp =? 2) && negb (comp =? 1)
                     && negb (comp =? 3) = false).
      { destruct (comp =? 0) eqn:C0; [reflexivity|].
        destruct (comp =? 2) eqn:C2; [reflexivity|].
        destruct (comp =? 1) eqn:C1; [reflexivity|].
        destruct (comp =? 3) eqn:C3; [reflexivity|]. lia. }
      rewrite Hrec. rewrite bind_gets. cbn [headerSize set_biCompression
        set_bitCount set_height set_isTopDown set_width].
      rewrite bind_if.
      destruct ((comp =? 3) && (headerSize d =? 40)) eqn:Ebf.
      * rewrite bind_assoc, !bind_assign. rewrite read_DWORD by lia.
        destruct (le32_at h 32 >? 10000) eqn:Eclr; [reflexivity|].
        rewrite bind_assign, bind_gets.
        cbn [bitCount set_srcPalBytesPerEntry set_bitFieldsSize
             set_hasBitfieldsSegment set_biCompression set_bitCount].
        unfold palette_count, is_paletted.
        destruct ((le16_at h 14 >=? 1) && (le16_at h 14 <=? 8)) eqn:Ebc;
          [|reflexivity].
        destruct (le32_at h 32 =? 0); [|reflexivity].
        rewrite shiftl_1_wrap by lia. reflexivity.
      * rewrite bind_ret. rewrite read_DWORD by lia.
        destruct (le32_at h 32 >? 10000) eqn:Eclr; [reflexivity|].
        rewrite bind_assign, bind_gets.
        cbn [bitCount set_srcPalBytesPerEntry set_biCompression set_bitCount].
        unfold palette_count, is_paletted.
        destruct ((le16_at h 14 >=? 1) && (le16_at h 14 <=? 8)) eqn:Ebc;
          [|reflexivity].
        destruct (le32_at h 32 =? 0); [|reflexivity].
        rewrite shiftl_1_wrap by lia. reflexivity.
  - rewrite bind_ret, bind_gets. cbn [height set_height].
    destruct (ht =? 0) eqn:E0.
    + destruct (ht <? 1) eqn:E1; [|lia].
      assert (ht = 0) as -> by lia. reflexivity.
    + destruct (ht <? 1) eqn:E1; [lia|].
      rewrite read_WORD by lia. rewrite bind_assign.
      destruct c; [reflexivity|].
      rewrite read_DWORD by lia. rewrite bind_assign, bind_gets.
      cbn [biCompression set_biCompression].
      set (comp := le32_at h 16) in *.
      unfold bI_RGB, bI_RLE4, bI_RLE8, bI_BITFIELDS.
      destruct (comp >? 3) eqn:Ec.
      * destruct (comp =? 0) eqn:C0; [lia|].
        destruct (comp =? 2) eqn:C2; [lia|].
        destruct (comp =? 1) eqn:C1; [lia|].
        destruct (comp =? 3) eqn:C3; [lia|]. reflexivity.
      * assert (Hrec : negb (comp =? 0) && negb (comp =? 2)
                       && negb (comp =? 1) && negb (comp =? 3) = false).
        { destruct (comp =? 0) eqn:C0; [reflexivity|].
          destruct (comp =? 2) eqn:C2; [reflexivity|].
          destruct (comp =? 1) eqn:C1; [reflexivity|].
          destruct (comp =? 3) eqn:C3; [reflexivity|]. lia. }
        rewrite Hrec. rewrite bind_gets. cbn [headerSize set_biCompression
          set_bitCount set_height set_isTopDown set_width].
        rewrite bind_if.
        destruct ((comp =? 3) && (headerSize d =? 40)) eqn:Ebf.
        -- rewrite bind_assoc, !bind_assign. rewrite read_DWORD by lia.
           destruct (le32_at h 32 >? 10000) eqn:Eclr; [reflexivity|].
           rewrite bind_assign, bind_gets.
           cbn [bitCount set_srcPalBytesPerEntry set_bitFieldsSize
                set_hasBitfieldsSegment set_biCompression set_bitCount].
           unfold palette_count, is_paletted.
           destruct ((le16_at h 14 >=? 1) && (le16_at h 14 <=? 8)) eqn:Ebc;
             [|reflexivity].
           destruct (le32_at h 32 =? 0); [|reflexivity].
           rewrite shiftl_1_wrap by lia. reflexivity.
        -- rewrite bind_ret. rewrite read_DWORD by lia.
           destruct (le32_at h 32 >? 10000) eqn:Eclr; [reflexivity|].
           rewrite bind_assign, bind_gets.
           cbn [bitCount set_srcPalBytesPerEntry set_biCompression
                set_bitCount].
           unfold palette_count, is_paletted.
           destruct ((le16_at h 14 >=? 1) && (le16_at h 14 <=? 8)) eqn:Ebc;
             [|reflexivity].
           destruct (le32_at h 32 =? 0); [|reflexivity].
           rewrite shiftl_1_wrap by lia. reflexivity.
Qed.

Lemma make_ok {A} (size : Z) (z : A) n :
  0 <= n -> n * size <= 2 ^ 48 ->
  make size z n = Ok (replicate (Z.to_nat n) z).
Proof.
  intros H Hs. unfold make, maxAlloc.
  destruct (n <? 0) eqn:E; [lia|].
  destruct (2 ^ 48 <? n * size) eqn:E2; [lia|reflexivity].
Qed.

Lemma make_panic {A} (size : Z) (z : A) n :
  2 ^ 48 < n * size -> make size z n = Panic.
Proof.
  intros Hs. unfold make, maxAlloc.
  destruct (n <? 0); [reflexivity|].
  destruct (2 ^ 48 <? n * size) eqn:E2; [reflexivity|lia].
Qed.

Lemma len_replicate {A} (z : A) n : len (replicate n z) = Z.of_nat n.
Proof. unfold len. now rewrite length_replicate. Qed.

Lemma len_take {A} (l : list A) n :
  Z.of_nat n <= len l -> len (take n l) = Z.of_nat n.
Proof. unfold len. rewrite length_take. lia. Qed.

Lemma len_drop {A} (l : list A) n : len (drop n l) = len l - Z.of_nat n \/
                                    (len l < Z.of_nat n /\ len (drop n l) = 0).
Proof. unfold len. rewrite length_drop. lia. Qed.

Lemma len_drop_le {A} (l : list A) n :
  Z.of_nat n <= len l -> len (drop n l) = len l - Z.of_nat n.
Proof. unfold len. rewrite length_drop. lia. Qed.

Lemma len_app {A} (l1 l2 : list A) : len (l1 ++ l2) = len l1 + len l2.
Proof. unfold len. rewrite length_app. lia. Qed.

Lemma bind_Fail_fst {A B} (m : M A) (k : A -> M B) d e :
  fst (m d) = Fail e ->
  fst (bind m k d) = Fail e /\ snd (bind m k d) = snd (m d).
Proof.
  intros H. rewrite bind_eq. destruct (m d) as [[a|e'|] d']; cbn [fst snd] in *;
    [discriminate H| |discriminate H].
  injection H as ->. split; reflexivity.
Qed.

(** The header buffer [h] of [readInfoHeader]: four zero bytes, then the 36
    bytes read. *)
Lemma readInfoHeader40_eq c d :
  headerSize d = 40 -> 36 <= len (r d) ->
  readInfoHeader decodeInfoHeader40 c d
  = bind (decodeInfoHeader40
            (replicate 4 zero_byte ++ take 36 (r d)) c)
      (fun _ => let* bc := gets bitCount in
                if (bc >=? 1) && (bc <=? 8)
                then assign (set_dstHasPalette true) else ret tt)
      (set_r (drop 36 (r d)) d).
Proof.
  intros Hs Hl. unfold readInfoHeader. rewrite bind_gets, Hs.
  rewrite make_ok by lia. rewrite bind_lift_Ok.
  rewrite slice_ok by (rewrite ?len_replicate; lia). rewrite bind_lift_Ok.
  rewrite len_slice by (rewrite ?len_replicate; lia).
  rewrite len_replicate.
  rewrite bind_ReadFull_ok by lia.
  rewrite take_replicate.
  replace (Z.to_nat (Z.of_nat (Z.to_nat 40) - 4)) with 36%nat by lia.
  replace (4 `min` Z.to_nat 40)%nat with 4%nat by lia.
  reflexivity.
Qed.

Lemma readInfoHeader40_short c d :
  headerSize d = 40 -> len (r d) < 36 ->
  fst (readInfoHeader decodeInfoHeader40 c d)
  = Fail (if len (r d) =? 0 then EOF else ErrUnexpectedEOF)
  /\ r (snd (readInfoHeader decodeInfoHeader40 c d)) = [].
Proof.
  intros Hs Hl. unfold readInfoHeader. rewrite bind_gets, Hs.
  rewrite make_ok by lia. rewrite bind_lift_Ok.
  rewrite slice_ok by (rewrite ?len_replicate; lia). rewrite bind_lift_Ok.
  rewrite len_slice by (rewrite ?len_replicate; lia).
  rewrite len_replicate.
  apply bind_ReadFull_short. lia.
Qed.

(** Fields of the header buffer are fields of the input, 14 bytes on. *)
Lemma byte_at_hbuf (input : list byte) k :
  54 <= len input -> 4 <= k < 40 ->
  byte_at (replicate 4 zero_byte ++ take 36 (drop 18 input)) k
  = byte_at input (14 + k).
Proof.
  intros Hl Hk. rewrite byte_at_app_r by (rewrite len_replicate; lia).
  rewrite len_replicate. rewrite byte_at_take by lia.
  rewrite byte_at_drop by lia. f_equal. lia.
Qed.

Lemma le32_at_hbuf (input : list byte) k :
  54 <= len input -> 4 <= k <= 36 ->
  le32_at (replicate 4 zero_byte ++ take 36 (drop 18 input)) k
  = le32_at input (14 + k).
Proof.
  intros Hl Hk. unfold le32_at. rewrite !byte_at_hbuf by lia.
  rewrite !Z.add_assoc. reflexivity.
Qed.

Lemma le16_at_hbuf (input : list byte) k :
  54 <= len input -> 4 <= k <= 38 ->
  le16_at (replicate 4 zero_byte ++ take 36 (drop 18 input)) k
  = le16_at input (14 + k).
Proof.
  intros Hl Hk. unfold le16_at. rewrite !byte_at_hbuf by lia.
  rewrite !Z.add_assoc. reflexivity.
Qed.

Lemma readHeaders_short c input :
  len input < 18 ->
  agrees (readHeaders c (new_decoder input))
    (inl (if len input =? 0 then EOF else ErrUnexpectedEOF, [])).
Proof.
  intros H. unfold readHeaders, agrees.
  apply (bind_ReadFull_short 18 _ (new_decoder input)). exact H.
Qed.

Lemma abs_neg_case z : (if z <? 0 then - z else z) = Z.abs z.
Proof. destruct (z <? 0) eqn:E; lia. Qed.

Lemma palette_count_range bc clr :
  0 <= bc -> 0 <= clr <= 10000 -> 0 <= palette_count bc clr <= 10000.
Proof.
  intros Hb Hc. unfold palette_count, is_paletted.
  destruct ((bc >=? 1) && (bc <=? 8)) eqn:E; [|lia].
  destruct (clr =? 0) eqn:E0; [|lia].
  assert (2 ^ bc <= 2 ^ 8) by (apply Z.pow_le_mono_r; lia).
  assert (0 < 2 ^ bc) by (apply Z.pow_pos_nonneg; lia). lia.
Qed.

(** [readHeaders] on a fresh decoder computes [header_parse]. *)
Lemma readHeaders_char c input :
  agrees (readHeaders c (new_decoder input)) (header_parse c input).
Proof.
  unfold header_parse.
  destruct (len input =? 0) eqn:E0.
  { pose proof (readHeaders_short c input) as H. rewrite E0 in H.
    apply H. lia. }
  destruct (len input <? 18) eqn:E18.
  { pose proof (readHeaders_short c input) as H. rewrite E0 in H.
    apply H. lia. }
  unfold readHeaders.
  rewrite bind_ReadFull_ok by (cbn [r new_decoder]; lia).
  cbn [r new_decoder].
  assert (Hfh : len (take (Z.to_nat 18) input) = 18)
    by (rewrite len_take; lia).
  rewrite slice_ok by lia. rewrite bind_lift_Ok.
  rewrite bind_eq, decodeFileHeader_eq by (rewrite len_slice; lia).
  assert (Hsig : has_signature
            (take (Z.to_nat (14 - 0)) (drop (Z.to_nat 0)
               (take (Z.to_nat 18) input))) = has_signature input).
  { unfold has_signature. rewrite !byte_at_slice by lia.
    rewrite !byte_at_take by lia. reflexivity. }
  rewrite Hsig. clear Hsig.
  destruct (has_signature input) eqn:Esig; cbn [negb];
    [|split; reflexivity].
  rewrite le32_at_slice by lia.
  assert (Hoff : le32_at (take (Z.to_nat 18) input) (0 + 10)
                 = hdr_bfOffBits input).
  { unfold hdr_bfOffBits, le32_at. rewrite !byte_at_take by lia.
    reflexivity. }
  rewrite Hoff. clear Hoff.
  rewrite read_DWORD by lia.
  assert (Hsz : le32_at (take (Z.to_nat 18) input) 14 = hdr_size input).
  { unfold hdr_size, le32_at. rewrite !byte_at_take by lia. reflexivity. }
  rewrite Hsz. clear Hsz Hfh.
  rewrite bind_assign.
  destruct (hdr_size input =? 40) eqn:Es; cbn [negb];
    [|split; reflexivity].
  apply Z.eqb_eq in Es. rewrite Es.
  set (d1 := set_headerSize 40 _).
  assert (Hr1 : r d1 = drop 18 input) by reflexivity.
  assert (Hs1 : headerSize d1 = 40) by reflexivity.
  destruct (len input <? 54) eqn:E54.
  { assert (Hshort : len (r d1) < 36)
      by (rewrite Hr1, len_drop_le; lia).
    destruct (readInfoHeader40_short c d1 Hs1 Hshort) as [F1 F2].
    destruct (bind_Fail_fst (readInfoHeader decodeInfoHeader40 c)
                (fun _ => let* n := gets srcPalNumEntries in
                          let* per := gets srcPalBytesPerEntry in
                          assign (set_srcPalSizeInBytes (int_mul n per)))
                d1 _ F1) as [G1 G2].
    assert (Hlen : len (r d1) = len input - 18)
      by (rewrite Hr1, len_drop_le; lia).
    replace (len (r d1) =? 0) with (len input =? 18) in G1
      by (rewrite Hlen; destruct (len input =? 18) eqn:?; lia).
    destruct (len input =? 18) eqn:E18'; unfold agrees;
      (split; [exact G1 | rewrite G2; exact F2]). }
  assert (H54 : 54 <= len input) by lia.
  destruct (len input =? 18) eqn:E18'; [lia|].
  rewrite bind_eq.
  rewrite readInfoHeader40_eq
    by (first [exact Hs1 | rewrite Hr1, len_drop_le; lia]).
  rewrite bind_eq, decodeInfoHeader40_eq
    by (rewrite len_app, len_replicate, len_take;
        [lia | rewrite Hr1, len_drop_le; lia]).
  rewrite Hr1. rewrite drop_drop.
  change (18 + 36)%nat with 54%nat.
  unfold infoHeader40_result.
  rewrite !le32_at_hbuf, le16_at_hbuf by lia.
  change (14 + 4) with 18. change (14 + 8) with 22.
  change (14 + 14) with 28. change (14 + 16) with 30.
  change (14 + 32) with 46.
  fold (hdr_width input). fold (hdr_height input).
  fold (hdr_bitCount input). fold (hdr_compression input).
  fold (hdr_clrUsed input).
  pose proof (le32_at_range input 22) as R22.
  pose proof (signed32_range _ R22) as S22. fold (hdr_height input) in S22.
  pose proof (le32_at_range input 30) as R30.
  fold (hdr_compression input) in R30.
  pose proof (le32_at_range input 46) as R46.
  fold (hdr_clrUsed input) in R46.
  pose proof (le16_at_range input 28) as R28.
  fold (hdr_bitCount input) in R28.
  destruct (hdr_width input <? 1) eqn:Ew; [split; reflexivity|].
  destruct (hdr_height input =? 0) eqn:Eh; [split; [reflexivity|]|].
  { destruct (hdr_height input <? 0); reflexivity. }
  destruct c.
  - unfold agrees, config_state.
    rewrite <- (abs_neg_case (hdr_height input)).
    destruct (hdr_height input <? 0) eqn:Eneg; cbv iota;
      rewrite bind_gets; cbn [bitCount set_bitCount];
      unfold is_paletted;
      destruct ((hdr_bitCount input >=? 1) && (hdr_bitCount input <=? 8));
      reflexivity.
  - destruct (hdr_compression input >? 3) eqn:Ec.
    { split; [reflexivity|]. destruct (hdr_height input <? 0); reflexivity. }
    destruct (hdr_clrUsed input >? 10000) eqn:Eclr.
    { split; [reflexivity|].
      destruct (hdr_height input <? 0);
        destruct ((hdr_compression input =? 3) && _); reflexivity. }
    pose proof (palette_count_range (hdr_bitCount input) (hdr_clrUsed input))
      as Hn.
    unfold agrees, header_state.
    rewrite <- (abs_neg_case (hdr_height input)).
    assert (Hmul : forall n, 0 <= n <= 10000 -> int_mul n 4 = n * 4)
      by (intros n Hn'; unfold int_mul; apply wrap_int_small; lia).
    cbn [headerSize]. change (40 =? 40) with true. rewrite andb_true_r.
    destruct (hdr_height input <? 0) eqn:Eneg; cbv iota;
      destruct (hdr_compression input =? 3) eqn:E3; cbv iota;
      rewrite bind_gets; cbn [bitCount set_bitCount set_srcPalNumEntries
        set_srcPalBytesPerEntry set_bitFieldsSize set_hasBitfieldsSegment
        set_biCompression];
      unfold is_paletted;
      destruct ((hdr_bitCount input >=? 1) && (hdr_bitCount input <=? 8));
      unfold assign at 1, ret; cbv beta iota; rewrite !bind_gets;
      cbn [srcPalNumEntries srcPalBytesPerEntry set_dstHasPalette
           set_srcPalNumEntries set_srcPalBytesPerEntry];
      unfold assign; rewrite Hmul by lia; reflexivity.
Qed.

(** ** The entry points over the header stage *)

Lemma Decode_body_stages d :
  Decode_body d = bind (readHeaders false) (fun _ => Decode_checks) d.
Proof. reflexivity. Qed.

Lemma DecodeConfig_body_stages d :
  DecodeConfig_body d = bind (readHeaders true) (fun _ => Config_return) d.
Proof. reflexivity. Qed.

Lemma Decode_observe input : Decode input = observe (Decode_body (new_decoder input)).
Proof. unfold Decode, observe. now destruct (Decode_body _). Qed.

Lemma DecodeConfig_observe input :
  DecodeConfig input = observe (DecodeConfig_body (new_decoder input)).
Proof. unfold DecodeConfig, observe. now destruct (DecodeConfig_body _). Qed.

Lemma observe_bind_agrees {A} (m : M unit) (k : M A) d y :
  agrees (m d) y ->
  observe (bind m (fun _ => k) d)
  = match y with
    | inl (e, rest) => (Fail e, rest)
    | inr d' => observe (k d')
    end.
Proof.
  unfold agrees, observe. rewrite bind_eq. destruct y as [[e rest]|d'].
  - intros [H1 H2]. destruct (m d) as [[a|e'|] d1]; cbn [fst snd] in *;
      try discriminate. injection H1 as ->. now rewrite H2.
  - intros ->. reflexivity.
Qed.

Lemma Decode_eq input :
  Decode input
  = match header_parse false input with
    | inl (e, rest) => (Fail e, rest)
    | inr d => observe (Decode_checks d)
    end.
Proof.
  rewrite Decode_observe, Decode_body_stages.
  apply observe_bind_agrees, readHeaders_char.
Qed.

Lemma DecodeConfig_eq input :
  DecodeConfig input
  = match header_parse true input with
    | inl (e, rest) => (Fail e, rest)
    | inr d => observe (Config_return d)
    end.
Proof.
  rewrite DecodeConfig_observe, DecodeConfig_body_stages.
  apply observe_bind_agrees, readHeaders_char.
Qed.

Lemma Config_return_eq d :
  Config_return d
  = (Ok (mkConfig (if dstHasPalette d then PaletteModel [] else NRGBAModel)
           (width d) (height d)), d).
Proof. unfold Config_return. rewrite !bind_gets. now destruct (dstHasPalette d). Qed.

(** ** Consequences of the header characterization *)

Lemma header_parse_config_ok input :
  54 <= len input -> has_signature input = true -> hdr_size input = 40 ->
  1 <= hdr_width input -> hdr_height input <> 0 ->
  header_parse true input = inr (config_state input).
Proof.
  intros Hl Hsig Hs Hw Hh. unfold header_parse. rewrite Hsig, Hs.
  cbn [negb].
  destruct (len input =? 0) eqn:E1; [lia|].
  destruct (len input <? 18) eqn:E2; [lia|].
  change (40 =? 40) with true. cbn [negb].
  destruct (len input =? 18) eqn:E3; [lia|].
  destruct (len input <? 54) eqn:E4; [lia|].
  destruct (hdr_width input <? 1) eqn:E5; [lia|].
  destruct (hdr_height input =? 0) eqn:E6; [lia|]. reflexivity.
Qed.

Lemma header_parse_full_ok input :
  54 <= len input -> has_signature input = true -> hdr_size input = 40 ->
  1 <= hdr_width input -> hdr_height input <> 0 ->
  hdr_compression input <= 3 -> hdr_clrUsed input <= 10000 ->
  header_parse false input = inr (header_state input).
Proof.
  intros Hl Hsig Hs Hw Hh Hc Hclr. unfold header_parse. rewrite Hsig, Hs.
  cbn [negb].
  destruct (len input =? 0) eqn:E1; [lia|].
  destruct (len input <? 18) eqn:E2; [lia|].
  change (40 =? 40) with true. cbn [negb].
  destruct (len input =? 18) eqn:E3; [lia|].
  destruct (len input <? 54) eqn:E4; [lia|].
  destruct (hdr_width input <? 1) eqn:E5; [lia|].
  destruct (hdr_height input =? 0) eqn:E6; [lia|].
  destruct (hdr_compression input >? 3) eqn:E7; [lia|].
  destruct (hdr_clrUsed input >? 10000) eqn:E8; [lia|]. reflexivity.
Qed.

Lemma header_parse_inv c input d :
  header_parse c input = inr d ->
  54 <= len input /\ has_signature input = true /\ hdr_size input = 40 /\
  1 <= hdr_width input /\ hdr_height input <> 0 /\
  (c = true -> d = config_state input) /\
  (c = false -> hdr_compression input <= 3 /\ hdr_clrUsed input <= 10000
                /\ d = header_state input).
Proof.
  unfold header_parse.
  destruct (len input =? 0) eqn:E1; [discriminate|].
  destruct (len input <? 18) eqn:E2; [discriminate|].
  destruct (has_signature input) eqn:Esig; cbn [negb]; [|discriminate].
  destruct (hdr_size input =? 40) eqn:Es; cbn [negb]; [|discriminate].
  destruct (len input =? 18) eqn:E3; [discriminate|].
  destruct (len input <? 54) eqn:E4; [discriminate|].
  destruct (hdr_width input <? 1) eqn:E5; [discriminate|].
  destruct (hdr_height input =? 0) eqn:E6; [discriminate|].
  destruct c.
  - intros [= <-]. repeat split; try lia; try discriminate.
  - destruct (hdr_compression input >? 3) eqn:E7; [discriminate|].
    destruct (hdr_clrUsed input >? 10000) eqn:E8; [discriminate|].
    intros [= <-]. repeat split; try lia; try discriminate.
Qed.

Lemma header_fields_range input :
  - 2 ^ 31 <= hdr_width input < 2 ^ 31 /\
  - 2 ^ 31 <= hdr_height input < 2 ^ 31 /\
  0 <= hdr_bitCount input < 2 ^ 16 /\
  0 <= hdr_compression input < 2 ^ 32 /\
  0 <= hdr_clrUsed input < 2 ^ 32 /\
  0 <= hdr_bfOffBits input < 2 ^ 32.
Proof.
  unfold hdr_width, hdr_height, hdr_bitCount, hdr_compression, hdr_clrUsed,
    hdr_bfOffBits.
  repeat split; try apply signed32_range; try apply le32_at_range;
    try apply le16_at_range.
Qed.

(** ** C1: a wrong signature *)

(** C1, as amended.  An input whose first two bytes are not "BM" and that
    holds at least 18 bytes makes both [Decode] and [DecodeConfig] fail with
    the format error "not a BMP file" (printed as "bmp: invalid format: not
    a BMP file"), after exactly the first 18 bytes (the file header and the
    size field of the info header) have been consumed; a shorter input fails
    with the reader's end-of-file error instead, all of it consumed. *)
Theorem C1_bad_signature (input : list byte) :
  has_signature input = false ->
  (18 <= len input ->
   Decode input = (Fail (FormatError "not a BMP file"), drop 18 input) /\
   DecodeConfig input = (Fail (FormatError "not a BMP file"), drop 18 input))
  /\ (len input < 18 ->
      Decode input
      = (Fail (if len input =? 0 then EOF else ErrUnexpectedEOF), []) /\
      DecodeConfig input
      = (Fail (if len input =? 0 then EOF else ErrUnexpectedEOF), []))
  /\ Error (FormatError "not a BMP file")
     = "bmp: invalid format: not a BMP file".
Proof.
  intros Hsig. rewrite Decode_eq, DecodeConfig_eq. unfold header_parse.
  rewrite Hsig. cbn [negb]. split; [|split; [|reflexivity]].
  - intros Hl.
    destruct (len input =? 0) eqn:E1; [lia|].
    destruct (len input <? 18) eqn:E2; [lia|]. split; reflexivity.
  - intros Hl.
    destruct (len input =? 0) eqn:E1; [split; reflexivity|].
    destruct (len input <? 18) eqn:E2; [split; reflexivity|lia].
Qed.

Lemma C1_bad_signature_witness :
  has_signature xx_file = false /\ 18 <= len xx_file /\
  Decode xx_file = (Fail (FormatError "not a BMP file"), bytes_of [1; 2]).
Proof.
  split; [reflexivity|]. split; [vm_compute; discriminate|].
  destruct (C1_bad_signature xx_file) as [H _]; [reflexivity|].
  destruct H as [H _]; [vm_compute; discriminate|]. exact H.
Defined.

(** C1 as stated fails: on the twenty bytes of [xx_file] the decoder has
    consumed eighteen bytes, not two, when it reports the format error; and
    on the two bytes "XX" alone it reports an end-of-file error, not a format
    error. *)
Lemma C1_counterexample :
  ~ (has_signature xx_file = false ->
     fst (Decode xx_file) = Fail (FormatError "not a BMP file") /\
     len xx_file - len (snd (Decode xx_file)) <= 2)
  /\ ~ (has_signature xx_short = false ->
        exists msg, fst (Decode xx_short) = Fail (FormatError msg)).
Proof.
  split.
  - intros H. destruct (H eq_refl) as [_ H2]. vm_compute in H2.
    apply H2. reflexivity.
  - intros H. destruct (H eq_refl) as [msg Hm]. vm_compute in Hm.
    discriminate Hm.
Qed.

(** ** C10: the file-size and reserved fields *)

Lemma byte_at_ext (b1 b2 : list byte) (i : Z) :
  b1 !! Z.to_nat i = b2 !! Z.to_nat i -> byte_at b1 i = byte_at b2 i.
Proof. unfold byte_at. now intros ->. Qed.

Lemma drop_ext {A} (b1 b2 : list A) n :
  length b1 = length b2 ->
  (forall i, (n <= i)%nat -> b1 !! i = b2 !! i) ->
  drop n b1 = drop n b2.
Proof.
  intros Hl H. apply list_eq. intros i. rewrite !lookup_drop. apply H. lia.
Qed.

Section SameOutsideReserved.
Variables b1 b2 : list byte.
Hypothesis Hlen : length b1 = length b2.
Hypothesis Hsame : forall i, (i < 2 \/ 10 <= i)%nat -> b1 !! i = b2 !! i.

Lemma same_byte_at i : 0 <= i < 2 \/ 10 <= i -> byte_at b1 i = byte_at b2 i.
Proof. intros H. apply byte_at_ext, Hsame. lia. Qed.

Lemma same_le32_at i : 10 <= i -> le32_at b1 i = le32_at b2 i.
Proof. intros H. unfold le32_at. rewrite !same_byte_at by lia. reflexivity. Qed.

Lemma same_le16_at i : 10 <= i -> le16_at b1 i = le16_at b2 i.
Proof. intros H. unfold le16_at. rewrite !same_byte_at by lia. reflexivity. Qed.

Lemma same_drop n : (10 <= n)%nat -> drop n b1 = drop n b2.
Proof.
  intros H. apply drop_ext; [exact Hlen|]. intros i Hi. apply Hsame. lia.
Qed.

Lemma same_header_parse c : header_parse c b1 = header_parse c b2.
Proof.
  unfold header_parse, header_state, config_state, has_signature, hdr_size,
    hdr_width, hdr_height, hdr_bitCount, hdr_compression, hdr_clrUsed,
    hdr_bfOffBits, len.
  rewrite Hlen. rewrite !(same_byte_at 0), !(same_byte_at 1) by lia.
  rewrite !(same_le32_at 10), !(same_le32_at 14), !(same_le32_at 18),
    !(same_le32_at 22), !(same_le16_at 28), !(same_le32_at 30),
    !(same_le32_at 46) by lia.
  rewrite !(same_drop 18), !(same_drop 54) by lia. reflexivity.
Qed.
End SameOutsideReserved.

(** C10.  The bytes at offsets 2 to 9 (file size and reserved fields) never
    influence the outcome: two inputs of the same length that agree at every
    other offset give the same result, image or error, and leave the same
    bytes unread, for [Decode] and for [DecodeConfig]. *)
Theorem C10_reserved_bytes_ignored (b1 b2 : list byte) :
  length b1 = length b2 ->
  (forall i, (i < 2 \/ 10 <= i)%nat -> b1 !! i = b2 !! i) ->
  Decode b1 = Decode b2 /\ DecodeConfig b1 = DecodeConfig b2.
Proof.
  intros Hlen Hsame. rewrite !Decode_eq, !DecodeConfig_eq.
  rewrite !(same_header_parse b1 b2 Hlen Hsame). split; reflexivity.
Qed.

Lemma C10_reserved_bytes_ignored_witness :
  rgb_1x1 <> rgb_1x1_sized /\
  Decode rgb_1x1 = Decode rgb_1x1_sized /\
  DecodeConfig rgb_1x1 = DecodeConfig rgb_1x1_sized.
Proof.
  split; [vm_compute; discriminate|].
  apply (C10_reserved_bytes_ignored rgb_1x1 rgb_1x1_sized).
  - reflexivity.
  - intros i Hi. vm_compute.
    do 2 (destruct i as [|i]; [reflexivity|]).
    do 8 (destruct i as [|i]; [lia|]). reflexivity.
Defined.

(** ** C7: the number of palette entries *)

Lemma readHeaders_full_ok input :
  54 <= len input -> has_signature input = true -> hdr_size input = 40 ->
  1 <= hdr_width input -> hdr_height input <> 0 ->
  hdr_compression input <= 3 -> hdr_clrUsed input <= 10000 ->
  readHeaders false (new_decoder input) = (Ok tt, header_state input).
Proof.
  intros. pose proof (readHeaders_char false input) as H'.
  rewrite header_parse_full_ok in H' by assumption. exact H'.
Qed.

Lemma readHeaders_config_ok input :
  54 <= len input -> has_signature input = true -> hdr_size input = 40 ->
  1 <= hdr_width input -> hdr_height input <> 0 ->
  readHeaders true (new_decoder input) = (Ok tt, config_state input).
Proof.
  intros. pose proof (readHeaders_char true input) as H'.
  rewrite header_parse_config_ok in H' by assumption. exact H'.
Qed.

(** C7.  In full-mode header parsing of a file whose earlier header fields
    pass, a colors-used count above 10000 fails with the format error "bad
    palette size N" naming the count; otherwise parsing succeeds, and the
    source palette has 2^bitDepth entries when the bit depth is 1..8 and the
    count is zero (two entries for a 1-bit image), and the declared count
    itself in every other case, whatever the bit depth. *)
Theorem C7_palette_entry_count (input : list byte) :
  54 <= len input -> has_signature input = true -> hdr_size input = 40 ->
  1 <= hdr_width input -> hdr_height input <> 0 ->
  hdr_compression input <= 3 ->
  (10000 < hdr_clrUsed input ->
   fst (readHeaders false (new_decoder input))
   = Fail (FormatError
             (String.append "bad palette size "
                (fmt_d (hdr_clrUsed input)))))
  /\ (hdr_clrUsed input <= 10000 ->
      exists d, readHeaders false (new_decoder input) = (Ok tt, d) /\
        (1 <= hdr_bitCount input <= 8 -> hdr_clrUsed input = 0 ->
         srcPalNumEntries d = 2 ^ hdr_bitCount input) /\
        (hdr_bitCount input = 1 -> hdr_clrUsed input = 0 ->
         srcPalNumEntries d = 2) /\
        (~ (1 <= hdr_bitCount input <= 8 /\ hdr_clrUsed input = 0) ->
         srcPalNumEntries d = hdr_clrUsed input)).
Proof.
  intros Hl Hsig Hs Hw Hh Hc. split.
  - intros Hclr. pose proof (readHeaders_char false input) as H.
    unfold header_parse in H. rewrite Hsig, Hs in H. cbn [negb] in H.
    destruct (len input =? 0) eqn:E1; [lia|].
    destruct (len input <? 18) eqn:E2; [lia|].
    change (40 =? 40) with true in H. cbn [negb] in H.
    destruct (len input =? 18) eqn:E3; [lia|].
    destruct (len input <? 54) eqn:E4; [lia|].
    destruct (hdr_width input <? 1) eqn:E5; [lia|].
    destruct (hdr_height input =? 0) eqn:E6; [lia|].
    destruct (hdr_compression input >? 3) eqn:E7; [lia|].
    destruct (hdr_clrUsed input >? 10000) eqn:E8; [|lia].
    exact (proj1 H).
  - intros Hclr. exists (header_state input).
    split; [apply readHeaders_full_ok; assumption|].
    cbn [srcPalNumEntries header_state]. unfold palette_count, is_paletted.
    repeat split.
    + intros Hbc H0.
      destruct ((hdr_bitCount input >=? 1) && (hdr_bitCount input <=? 8))
        eqn:E; [|lia].
      destruct (hdr_clrUsed input =? 0) eqn:E0; [reflexivity|lia].
    + intros Hbc H0. rewrite Hbc, H0. reflexivity.
    + intros Hn.
      destruct ((hdr_bitCount input >=? 1) && (hdr_bitCount input <=? 8))
        eqn:E; [|reflexivity].
      destruct (hdr_clrUsed input =? 0) eqn:E0; [lia|reflexivity].
Qed.

Lemma C7_palette_entry_count_witness :
  (exists d, readHeaders false (new_decoder mono_3x2) = (Ok tt, d) /\
             srcPalNumEntries d = 2) /\
  fst (readHeaders false (new_decoder big_palette))
  = Fail (FormatError "bad palette size 10001").
Proof.
  split.
  - assert (H : hdr_clrUsed mono_3x2 <= 10000) by (vm_compute; congruence).
    destruct (proj2 (C7_palette_entry_count mono_3x2
                       ltac:(vm_compute; congruence) eq_refl eq_refl
                       ltac:(vm_compute; congruence)
                       ltac:(vm_compute; congruence)
                       ltac:(vm_compute; congruence)) H)
      as (d & Hd & _ & H1 & _).
    exists d. split; [exact Hd|]. apply H1; reflexivity.
  - assert (H : 10000 < hdr_clrUsed big_palette) by reflexivity.
    exact (proj1 (C7_palette_entry_count big_palette
                    ltac:(vm_compute; congruence) eq_refl eq_refl
                    ltac:(vm_compute; congruence)
                    ltac:(vm_compute; congruence)
                    ltac:(vm_compute; congruence)) H).
Defined.

(** ** C6: compression is checked by the full decode only *)

Lemma Decode_checks_compressed d :
  biCompression d <> 0 ->
  Decode_checks d
  = (Fail (UnsupportedError
             (String.append "compression or image type "
                (fmt_d (biCompression d)))), d).
Proof.
  intros H. unfold Decode_checks. rewrite bind_gets. unfold bI_RGB.
  destruct (biCompression d =? 0) eqn:E; [lia|]. reflexivity.
Qed.

Lemma Decode_checks_ok d :
  biCompression d = 0 ->
  bitCount d = 1 \/ bitCount d = 4 \/ bitCount d = 8 \/ bitCount d = 24 ->
  Decode_checks d = Decode_palette d.
Proof.
  intros Hc Hb. unfold Decode_checks. rewrite bind_gets, Hc. unfold bI_RGB.
  change (negb (0 =? 0)) with false. cbv iota. rewrite bind_gets.
  destruct Hb as [-> | [-> | [-> | ->]]]; reflexivity.
Qed.

Lemma Decode_checks_bitcount d :
  biCompression d = 0 ->
  ~ (bitCount d = 1 \/ bitCount d = 4 \/ bitCount d = 8 \/ bitCount d = 24) ->
  Decode_checks d
  = (Fail (UnsupportedError
             (String.append "bit count " (fmt_d (bitCount d)))), d).
Proof.
  intros Hc Hb. unfold Decode_checks. rewrite bind_gets, Hc. unfold bI_RGB.
  change (negb (0 =? 0)) with false. cbv iota. rewrite bind_gets.
  destruct (bitCount d =? 1) eqn:E1; [lia|].
  destruct (bitCount d =? 4) eqn:E4; [lia|].
  destruct (bitCount d =? 8) eqn:E8; [lia|].
  destruct (bitCount d =? 24) eqn:E24; [lia|]. reflexivity.
Qed.

(** A successful [Decode] went through the header stage and both checks. *)
Lemma Decode_Ok_header input img rest :
  Decode input = (Ok img, rest) ->
  header_parse false input = inr (header_state input) /\
  hdr_compression input = 0 /\
  (hdr_bitCount input = 1 \/ hdr_bitCount input = 4 \/
   hdr_bitCount input = 8 \/ hdr_bitCount input = 24) /\
  observe (Decode_palette (header_state input)) = (Ok img, rest).
Proof.
  rewrite Decode_eq. destruct (header_parse false input) as [[e rs]|d] eqn:E;
    [discriminate|].
  destruct (header_parse_inv _ _ _ E) as (_ & _ & _ & _ & _ & _ & H).
  destruct (H eq_refl) as (_ & _ & ->). clear H. intros Hd.
  split; [reflexivity|].
  destruct (Z.eq_dec (hdr_compression input) 0) as [Hc|Hc].
  2:{ rewrite Decode_checks_compressed in Hd by exact Hc. discriminate. }
  split; [exact Hc|].
  destruct (Z.eq_dec (hdr_bitCount input) 1) as [H1|H1];
    [|destruct (Z.eq_dec (hdr_bitCount input) 4) as [H4|H4];
      [|destruct (Z.eq_dec (hdr_bitCount input) 8) as [H8|H8];
        [|destruct (Z.eq_dec (hdr_bitCount input) 24) as [H24|H24]]]].
  5:{ rewrite Decode_checks_bitcount in Hd; [discriminate|exact Hc|].
      cbn [bitCount header_state]. lia. }
  all: (split; [lia|]); rewrite Decode_checks_ok in Hd;
    [exact Hd | exact Hc | cbn [bitCount header_state]; lia].
Qed.

Section SameOutsideCompression.
Variables b1 b2 : list byte.
Hypothesis Hlen : length b1 = length b2.
Hypothesis Hsame : forall i, (i < 30 \/ 34 <= i)%nat -> b1 !! i = b2 !! i.

Lemma comp_byte_at i : 0 <= i < 30 \/ 34 <= i -> byte_at b1 i = byte_at b2 i.
Proof. intros H. apply byte_at_ext, Hsame. lia. Qed.

Lemma comp_le32_at i :
  0 <= i <= 26 \/ 34 <= i -> le32_at b1 i = le32_at b2 i.
Proof. intros H. unfold le32_at. rewrite !comp_byte_at by lia. reflexivity. Qed.

Lemma comp_le16_at i :
  0 <= i <= 28 \/ 34 <= i -> le16_at b1 i = le16_at b2 i.
Proof. intros H. unfold le16_at. rewrite !comp_byte_at by lia. reflexivity. Qed.

Lemma comp_drop n : (34 <= n)%nat -> drop n b1 = drop n b2.
Proof.
  intros H. apply drop_ext; [exact Hlen|]. intros i Hi. apply Hsame. lia.
Qed.

Lemma comp_header_parse_config :
  match header_parse true b1, header_parse true b2 with
  | inl (e1, r1), inl (e2, r2) => e1 = e2 /\ length r1 = length r2
  | inr d1, inr d2 => d1 = d2
  | _, _ => False
  end.
Proof.
  unfold header_parse, config_state, has_signature, hdr_size,
    hdr_width, hdr_height, hdr_bitCount, hdr_bfOffBits, len.
  rewrite Hlen. rewrite !(comp_byte_at 0), !(comp_byte_at 1) by lia.
  rewrite !(comp_le32_at 10), !(comp_le32_at 14), !(comp_le32_at 18),
    !(comp_le32_at 22), !(comp_le16_at 28) by lia.
  rewrite !(comp_drop 54) by lia.
  repeat match goal with
         | |- context [if ?c then _ else _] => destruct c
         end; try (split; reflexivity); try reflexivity.
  all: split; [reflexivity|]; rewrite !length_drop; lia.
Qed.
End SameOutsideCompression.

Lemma DecodeConfig_same_outside_compression (b1 b2 : list byte) :
  length b1 = length b2 ->
  (forall i, (i < 30 \/ 34 <= i)%nat -> b1 !! i = b2 !! i) ->
  fst (DecodeConfig b1) = fst (DecodeConfig b2).
Proof.
  intros Hlen Hsame. rewrite !DecodeConfig_eq.
  pose proof (comp_header_parse_config b1 b2 Hlen Hsame) as H.
  destruct (header_parse true b1) as [[e1 r1]|d1];
    destruct (header_parse true b2) as [[e2 r2]|d2]; try contradiction.
  - destruct H as [-> _]. reflexivity.
  - subst d2. reflexivity.
Qed.

(** C6.  For a file with the 40-byte header, a valid width and height:
    [DecodeConfig] succeeds with the dimensions and the color model, whatever
    the compression field holds; with 8-bit depth and compression 2 it
    returns the indexed model while [Decode] fails with the unsupported-
    feature error "compression or image type 2"; more generally [Decode]
    fails with that error, naming the value, for every compression other
    than 0.  The outcome of [DecodeConfig] does not depend on the four bytes
    of the compression field, and a successful [Decode] has compression 0. *)
Theorem C6_compression_config_vs_decode :
  (forall input : list byte,
     54 <= len input -> has_signature input = true -> hdr_size input = 40 ->
     1 <= hdr_width input -> hdr_height input <> 0 ->
     DecodeConfig input
     = (Ok (mkConfig (if is_paletted (hdr_bitCount input)
                      then PaletteModel [] else NRGBAModel)
              (hdr_width input) (Z.abs (hdr_height input))),
        drop 54 input)
     /\ (hdr_bitCount input = 8 -> hdr_compression input = 2 ->
         hdr_clrUsed input <= 10000 ->
         fst (DecodeConfig input)
         = Ok (mkConfig (PaletteModel []) (hdr_width input)
                 (Z.abs (hdr_height input)))
         /\ fst (Decode input)
            = Fail (UnsupportedError "compression or image type 2"))
     /\ (hdr_compression input <> 0 ->
         (hdr_compression input <= 3 -> hdr_clrUsed input <= 10000) ->
         fst (Decode input)
         = Fail (UnsupportedError
                   (String.append "compression or image type "
                      (fmt_d (hdr_compression input))))))
  /\ (forall b1 b2 : list byte,
        length b1 = length b2 ->
        (forall i, (i < 30 \/ 34 <= i)%nat -> b1 !! i = b2 !! i) ->
        fst (DecodeConfig b1) = fst (DecodeConfig b2))
  /\ (forall (input : list byte) img rest,
        Decode input = (Ok img, rest) -> hdr_compression input = 0).
Proof.
  split; [|split].
  - intros input Hl Hsig Hs Hw Hh.
    assert (Hcfg : DecodeConfig input
              = (Ok (mkConfig (if is_paletted (hdr_bitCount input)
                               then PaletteModel [] else NRGBAModel)
                       (hdr_width input) (Z.abs (hdr_height input))),
                 drop 54 input)).
    { rewrite DecodeConfig_eq, header_parse_config_ok by assumption.
      rewrite Config_return_eq. reflexivity. }
    assert (Hdec : hdr_compression input <> 0 ->
              (hdr_compression input <= 3 -> hdr_clrUsed input <= 10000) ->
              fst (Decode input)
              = Fail (UnsupportedError
                        (String.append "compression or image type "
                           (fmt_d (hdr_compression input))))).
    { intros Hc Hclr. rewrite Decode_eq.
      destruct (Z_le_gt_dec (hdr_compression input) 3) as [H3|H3].
      - rewrite header_parse_full_ok by auto.
        rewrite Decode_checks_compressed by exact Hc. reflexivity.
      - unfold header_parse. rewrite Hsig, Hs. cbn [negb].
        destruct (len input =? 0) eqn:E1; [lia|].
        destruct (len input <? 18) eqn:E2; [lia|].
        change (40 =? 40) with true. cbn [negb].
        destruct (len input =? 18) eqn:E3; [lia|].
        destruct (len input <? 54) eqn:E4; [lia|].
        destruct (hdr_width input <? 1) eqn:E5; [lia|].
        destruct (hdr_height input =? 0) eqn:E6; [lia|].
        destruct (hdr_compression input >? 3) eqn:E7; [|lia].
        reflexivity. }
    split; [exact Hcfg|]. split; [|exact Hdec].
    intros Hbc Hc Hclr. split.
    + rewrite Hcfg, Hbc. reflexivity.
    + rewrite Hdec by lia. rewrite Hc. reflexivity.
  - apply DecodeConfig_same_outside_compression.
  - intros input img rest H.
    destruct (Decode_Ok_header _ _ _ H) as (_ & Hc & _). exact Hc.
Qed.

Lemma C6_compression_config_vs_decode_witness :
  fst (DecodeConfig rle_8bit) = Ok (mkConfig (PaletteModel []) 1 1) /\
  fst (Decode rle_8bit)
  = Fail (UnsupportedError "compression or image type 2").
Proof.
  exact (proj1 (proj2 (proj1 C6_compression_config_vs_decode rle_8bit
           ltac:(vm_compute; congruence) eq_refl eq_refl
           ltac:(vm_compute; congruence) ltac:(vm_compute; congruence)))
           eq_refl eq_refl ltac:(vm_compute; congruence)).
Defined.

(** ** The palette stage *)

Lemma index_get (l : list byte) (i : Z) :
  0 <= i < len l -> index l i = Ok (get_byte l i).
Proof.
  intros Hi. destruct (index_in_range l i Hi) as (x & Hx & ->).
  unfold get_byte. now rewrite Hx.
Qed.

Lemma store_middle {A} (pre post : list A) (x v : A) (i : Z) :
  i = len pre ->
  store (pre ++ x :: post) i v = Ok (pre ++ v :: post).
Proof.
  intros ->. unfold store, len. rewrite length_app. cbn [length].
  replace ((0 <=? Z.of_nat (length pre)) &&
           (Z.of_nat (length pre) <? Z.of_nat (length pre + S (length post))))
    with true
    by (symmetry; apply andb_true_iff; split;
        [apply Z.leb_le | apply Z.ltb_lt]; lia).
  f_equal. rewrite Nat2Z.id.
  rewrite insert_app_r_alt by lia. rewrite Nat.sub_diag. reflexivity.
Qed.

Section PaletteLoop.
Variable buf : list byte.
Variable d0 : decoder.
Hypothesis Hper : srcPalBytesPerEntry d0 = 4.

Lemma palette_loop k : forall (i : nat) (pre : list Color),
  length pre = i ->
  (Z.of_nat (i + k)) * 4 <= len buf ->
  iterate k (Z.of_nat i) (palette_body buf)
    (set_dstPalette (pre ++ replicate k None) d0)
  = (Ok tt,
     set_dstPalette (pre ++ map (palette_entry buf) (seq i k)) d0).
Proof.
  induction k as [|k IH]; intros i pre Hpre Hlen.
  - reflexivity.
  - cbn [iterate replicate]. rewrite bind_eq.
    unfold palette_body at 1. rewrite bind_gets.
    cbn [srcPalBytesPerEntry set_dstPalette]. rewrite Hper.
    rewrite !index_get by lia. rewrite !bind_lift_Ok, bind_gets.
    cbn [dstPalette set_dstPalette].
    rewrite store_middle by (unfold len; lia). rewrite bind_lift_Ok.
    unfold assign. cbv iota.
    change (set_dstPalette ?p (set_dstPalette ?q d0))
      with (set_dstPalette p d0).
    replace (Z.of_nat i + 1) with (Z.of_nat (S i)) by lia.
    rewrite (cons_middle _ pre), app_assoc.
    rewrite IH; [| rewrite length_app; cbn [length]; lia | lia].
    cbn [seq map]. rewrite <- app_assoc. reflexivity.
Qed.
End PaletteLoop.

Lemma readPalette_eq d :
  srcPalSizeInBytes d = srcPalNumEntries d * 4 ->
  srcPalBytesPerEntry d = 4 ->
  0 < srcPalNumEntries d <= 10000 ->
  srcPalNumEntries d * 4 <= len (r d) ->
  readPalette d = (Ok tt, palette_state d).
Proof.
  intros Hsz Hper Hn Hl. unfold readPalette, palette_state.
  rewrite bind_gets, Hsz. set (n := srcPalNumEntries d) in *.
  rewrite make_ok by lia. rewrite bind_lift_Ok, len_replicate.
  rewrite Z2Nat.id by lia.
  rewrite bind_ReadFull_ok by lia.
  set (buf := take (Z.to_nat (n * 4)) (r d)).
  set (d1 := set_r (drop (Z.to_nat (n * 4)) (r d)) d).
  rewrite bind_gets. cbn [dstHasPalette set_r d1].
  destruct (dstHasPalette d) eqn:Ehp; cbn [negb]; [|reflexivity].
  rewrite bind_gets, bind_assign, bind_gets.
  cbn [srcPalNumEntries dstPalNumEntries set_dstPalNumEntries set_r d1].
  fold n. rewrite bind_if.
  assert (Hbuf : len buf = n * 4) by (unfold buf; rewrite len_take; lia).
  assert (Hloop : forall d2 : decoder,
            srcPalBytesPerEntry d2 = 4 ->
            (let* pal := lift (make 16 (None : Color) (Z.min n 256)) in
             assign (set_dstPalette pal) ;;
             for_lt dstPalNumEntries (palette_body buf))
              (set_dstPalNumEntries (Z.min n 256) d2)
            = (Ok tt,
               set_dstPalette (build_palette buf (Z.to_nat (Z.min n 256)))
                 (set_dstPalNumEntries (Z.min n 256) d2))).
  { intros d2 Hp2. rewrite make_ok by lia.
    rewrite bind_lift_Ok, bind_assign. unfold for_lt.
    cbn [dstPalNumEntries set_dstPalette set_dstPalNumEntries].
    apply (palette_loop buf (set_dstPalNumEntries (Z.min n 256) d2) Hp2
             (Z.to_nat (Z.min n 256)) 0%nat []); [reflexivity|lia]. }
  destruct (n >? 256) eqn:E256.
  - rewrite bind_assign, bind_gets.
    cbn [dstPalNumEntries set_dstPalNumEntries].
    change (set_dstPalNumEntries 256 (set_dstPalNumEntries n d1))
      with (set_dstPalNumEntries 256 d1).
    replace (Z.min n 256) with 256 in * by lia.
    apply (Hloop d1). exact Hper.
  - rewrite bind_ret, bind_gets.
    cbn [dstPalNumEntries set_dstPalNumEntries].
    replace (Z.min n 256) with n in * by lia.
    apply (Hloop d1). exact Hper.
Qed.

Lemma readPalette_short d :
  srcPalSizeInBytes d = srcPalNumEntries d * 4 ->
  0 < srcPalNumEntries d <= 10000 ->
  len (r d) < srcPalNumEntries d * 4 ->
  exists e, fst (readPalette d) = Fail e.
Proof.
  intros Hsz Hn Hl. unfold readPalette.
  rewrite bind_gets, Hsz. rewrite make_ok by lia.
  rewrite bind_lift_Ok, len_replicate. rewrite Z2Nat.id by lia.
  eexists. apply bind_ReadFull_short. exact Hl.
Qed.

(** ** The allocation stage *)

Lemma Rect_pos w h : 1 <= w -> 1 <= h -> Rect 0 0 w h = mkRect 0 0 w h.
Proof.
  intros Hw Hh. unfold Rect.
  destruct (0 >? w) eqn:E1; [lia|]. destruct (0 >? h) eqn:E2; [lia|].
  reflexivity.
Qed.

Lemma pixelBufferLength_eq bpp w h :
  1 <= w -> 1 <= h -> 1 <= bpp ->
  pixelBufferLength bpp (mkRect 0 0 w h)
  = if 2 ^ 63 <=? bpp * w * h then Panic else Ok (bpp * w * h).
Proof.
  intros Hw Hh Hb. unfold pixelBufferLength, Dx, Dy. cbn [MaxX MinX MaxY MinY].
  rewrite !Z.sub_0_r.
  destruct (w <? 0) eqn:E1; [lia|]. destruct (h <? 0) eqn:E2; [lia|].
  reflexivity.
Qed.

Lemma Decode_alloc_eq d :
  1 <= width d -> 1 <= height d ->
  fits d ->
  Decode_alloc d = Decode_gap (alloc_state d).
Proof.
  intros Hw Hh Hsz. unfold Decode_alloc, alloc_state.
  rewrite !bind_gets. rewrite Rect_pos by assumption.
  assert (0 < width d * height d) by nia.
  unfold fits, maxAlloc in Hsz.
  destruct (dstHasPalette d) eqn:Ehp.
  - rewrite bind_assoc, bind_gets. unfold NewPaletted.
    rewrite pixelBufferLength_eq by lia. rewrite Z.mul_1_l.
    destruct (2 ^ 63 <=? width d * height d) eqn:E; [lia|].
    cbn [rbind]. rewrite make_ok by lia. cbn [rbind].
    rewrite bind_assoc, bind_lift_Ok, bind_assign.
    unfold Dx. cbn [MaxX MinX]. rewrite Z.sub_0_r, Z.mul_1_l. reflexivity.
  - rewrite bind_assoc. unfold NewNRGBA.
    rewrite pixelBufferLength_eq by lia.
    destruct (2 ^ 63 <=? 4 * width d * height d) eqn:E; [lia|].
    cbn [rbind]. rewrite make_ok by lia. cbn [rbind].
    rewrite bind_lift_Ok, bind_assign.
    unfold Dx. cbn [MaxX MinX]. rewrite Z.sub_0_r. reflexivity.
Qed.

Lemma Decode_alloc_panic d :
  1 <= width d -> 1 <= height d ->
  ~ fits d ->
  fst (Decode_alloc d) = Panic.
Proof.
  intros Hw Hh Hsz. unfold Decode_alloc.
  rewrite !bind_gets. rewrite Rect_pos by assumption.
  unfold fits, maxAlloc in Hsz.
  destruct (dstHasPalette d) eqn:Ehp.
  - rewrite bind_assoc, bind_gets. unfold NewPaletted.
    rewrite pixelBufferLength_eq by lia. rewrite Z.mul_1_l.
    destruct (2 ^ 63 <=? width d * height d) eqn:E; [reflexivity|].
    cbn [rbind]. rewrite make_panic by lia. reflexivity.
  - rewrite bind_assoc. unfold NewNRGBA.
    rewrite pixelBufferLength_eq by lia.
    destruct (2 ^ 63 <=? 4 * width d * height d) eqn:E; [reflexivity|].
    cbn [rbind]. rewrite make_panic by lia. reflexivity.
Qed.

(** ** The gap stage *)

Lemma skipBytes_loop_ok fuel : forall n d,
  (Z.to_nat n <= fuel)%nat -> 0 < n -> n <= len (r d) ->
  skipBytes_loop fuel n d = (Ok tt, set_r (drop (Z.to_nat n) (r d)) d).
Proof.
  induction fuel as [|fuel IH]; intros n d Hf Hn Hl; [lia|].
  cbn [skipBytes_loop]. destruct (n >? 0) eqn:E; [|lia].
  destruct (1024 >? n) eqn:E1.
  - rewrite bind_ReadFull_ok by lia. rewrite Z.sub_diag.
    destruct fuel; reflexivity.
  - rewrite bind_ReadFull_ok by lia.
    destruct (Z.eq_dec n 1024) as [->|Hne].
    + rewrite Z.sub_diag. destruct fuel; reflexivity.
    + rewrite IH; cbn [r set_r]; [| lia | lia | rewrite len_drop_le; lia].
      change (set_r ?a (set_r ?b d)) with (set_r a d).
      rewrite drop_drop. do 2 f_equal. f_equal. lia.
Qed.

Lemma skipBytes_ok n d :
  0 < n -> n <= len (r d) ->
  skipBytes n d = (Ok tt, set_r (drop (Z.to_nat n) (r d)) d).
Proof. intros. apply skipBytes_loop_ok; [lia|assumption|assumption]. Qed.

Lemma skipBytes_loop_short fuel : forall n d,
  (Z.to_nat n <= fuel)%nat -> len (r d) < n ->
  exists e, fst (skipBytes_loop fuel n d) = Fail e
            /\ (e = EOF \/ e = ErrUnexpectedEOF).
Proof.
  assert (Hio : forall z : Z, (if z =? 0 then EOF else ErrUnexpectedEOF) = EOF
                \/ (if z =? 0 then EOF else ErrUnexpectedEOF)
                   = ErrUnexpectedEOF)
    by (intros z; destruct (z =? 0); auto).
  induction fuel as [|fuel IH]; intros n d Hf Hl.
  - unfold len in Hl. lia.
  - cbn [skipBytes_loop]. assert (0 < n) by (unfold len in Hl; lia).
    destruct (n >? 0) eqn:E; [|lia].
    destruct (1024 >? n) eqn:E1.
    + eexists. split; [apply bind_ReadFull_short; exact Hl|apply Hio].
    + destruct (Z_lt_ge_dec (len (r d)) 1024) as [Hs|Hs].
      * eexists. split; [apply bind_ReadFull_short; exact Hs|apply Hio].
      * rewrite bind_ReadFull_ok by lia. apply IH; cbn [r set_r].
        -- lia.
        -- rewrite len_drop_le; lia.
Qed.

Lemma skipBytes_short n d :
  len (r d) < n ->
  exists e, fst (skipBytes n d) = Fail e /\ (e = EOF \/ e = ErrUnexpectedEOF).
Proof. intros. apply skipBytes_loop_short; [lia|assumption]. Qed.

Lemma readGap_eq d :
  0 <= headerSize d < 2 ^ 32 -> 0 <= bitFieldsSize d <= 12 ->
  0 <= srcPalSizeInBytes d < 2 ^ 32 -> 0 <= bfOffBits d < 2 ^ 32 ->
  readGap d
  = if computed_offset d =? bfOffBits d then (Ok tt, d)
    else if computed_offset d >? bfOffBits d
         then (Fail (FormatError "bad bfOffBits field"), d)
         else skipBytes (bfOffBits d - computed_offset d) d.
Proof.
  intros H1 H2 H3 H4. unfold readGap, computed_offset.
  rewrite !bind_gets. unfold int_add, int_sub.
  rewrite (wrap_int_small (14 + headerSize d)) by lia.
  rewrite (wrap_int_small (14 + headerSize d + bitFieldsSize d)) by lia.
  rewrite (wrap_int_small (14 + headerSize d + bitFieldsSize d
                           + srcPalSizeInBytes d)) by lia.
  rewrite (wrap_int_small (bfOffBits d - _)) by lia.
  destruct (_ =? bfOffBits d); [reflexivity|].
  destruct (_ >? bfOffBits d); reflexivity.
Qed.

(** ** C5: the gap before the pixel data *)

(** C5, as amended.  Let [d0] be the decoder after a successful full-mode
    header stage, and [d] any decoder with the same header fields (the later
    stages change none of them).  The bitfields size is 0 or 12, and with
    computedOffset = 14 + headerSize + bitfieldsSize + paletteCount * 4:
    when it equals the declared offset, [readGap] consumes nothing; when it
    exceeds the declared offset, [readGap] fails with the format error
    "bad bfOffBits field", nothing consumed; otherwise it discards exactly
    declaredOffset - computedOffset bytes when the stream holds that many,
    and fails with the reader's end-of-file error when it holds fewer. *)
Theorem C5_gap_step (input : list byte) (d0 d : decoder) :
  readHeaders false (new_decoder input) = (Ok tt, d0) ->
  headerSize d = headerSize d0 -> bitFieldsSize d = bitFieldsSize d0 ->
  srcPalNumEntries d = srcPalNumEntries d0 ->
  srcPalSizeInBytes d = srcPalSizeInBytes d0 ->
  bfOffBits d = bfOffBits d0 ->
  let computedOffset :=
    14 + headerSize d + bitFieldsSize d + srcPalNumEntries d * 4 in
  (bitFieldsSize d = 0 \/ bitFieldsSize d = 12) /\
  (computedOffset = bfOffBits d -> readGap d = (Ok tt, d)) /\
  (computedOffset > bfOffBits d ->
   readGap d = (Fail (FormatError "bad bfOffBits field"), d)) /\
  (computedOffset < bfOffBits d ->
   bfOffBits d - computedOffset <= len (r d) ->
   readGap d
   = (Ok tt,
      set_r (drop (Z.to_nat (bfOffBits d - computedOffset)) (r d)) d)) /\
  (computedOffset < bfOffBits d ->
   len (r d) < bfOffBits d - computedOffset ->
   exists e, fst (readGap d) = Fail e /\ (e = EOF \/ e = ErrUnexpectedEOF)).
Proof.
  intros Hh Hhs Hbf Hn Hsz Hoff computedOffset.
  pose proof (readHeaders_char false input) as Hc. rewrite Hh in Hc.
  destruct (header_parse false input) as [[e rs]|d'] eqn:Ep;
    [destruct Hc as [Hc _]; discriminate Hc|].
  cbn [agrees] in Hc. injection Hc as <-.
  destruct (header_parse_inv _ _ _ Ep) as (_ & _ & _ & _ & _ & _ & H).
  destruct (H eq_refl) as (Hcomp & Hclr & ->). clear H.
  destruct (header_fields_range input) as (_ & _ & Rbc & Rc & Rclr & Roff).
  pose proof (palette_count_range (hdr_bitCount input) (hdr_clrUsed input)
                ltac:(lia) ltac:(lia)) as Rn.
  cbn [headerSize bitFieldsSize srcPalNumEntries srcPalSizeInBytes bfOffBits
       header_state] in Hhs, Hbf, Hn, Hsz, Hoff.
  assert (Hbfs : bitFieldsSize d = 0 \/ bitFieldsSize d = 12)
    by (rewrite Hbf; destruct (hdr_compression input =? 3); auto).
  assert (Hco : computed_offset d = computedOffset)
    by (unfold computed_offset, computedOffset; rewrite Hsz, Hn; lia).
  pose proof (readGap_eq d ltac:(lia) ltac:(lia) ltac:(lia) ltac:(lia)) as Hg.
  rewrite Hco in Hg.
  split; [exact Hbfs|]. repeat split.
  - intros Heq. rewrite Hg.
    destruct (computedOffset =? bfOffBits d) eqn:E; [reflexivity|lia].
  - intros Hgt. rewrite Hg.
    destruct (computedOffset =? bfOffBits d) eqn:E; [lia|].
    destruct (computedOffset >? bfOffBits d) eqn:E'; [reflexivity|lia].
  - intros Hlt Hl. rewrite Hg.
    destruct (computedOffset =? bfOffBits d) eqn:E; [lia|].
    destruct (computedOffset >? bfOffBits d) eqn:E'; [lia|].
    apply skipBytes_ok; lia.
  - intros Hlt Hl. rewrite Hg.
    destruct (computedOffset =? bfOffBits d) eqn:E; [lia|].
    destruct (computedOffset >? bfOffBits d) eqn:E'; [lia|].
    apply skipBytes_short; lia.
Qed.

Lemma C5_gap_step_witness :
  readGap mono_3x2_at_gap
  = (Ok tt, set_r (drop 4 (r mono_3x2_at_gap)) mono_3x2_at_gap).
Proof.
  exact (proj1 (proj2 (proj2 (proj2
           (C5_gap_step mono_3x2 (header_state mono_3x2) mono_3x2_at_gap
              ltac:(vm_compute; reflexivity) eq_refl eq_refl eq_refl eq_refl
              eq_refl))))
           ltac:(vm_compute; reflexivity)
           ltac:(vm_compute; congruence)).
Defined.

(** C5 as stated fails twice.  On [early_offset], whose computed offset 54
    exceeds the declared offset 53, the decode fails with the format error
    "bad bfOffBits field": no error of the decoder reads
    "bad pixel-data-offset field".  On [short_gap], whose computed offset 54
    lies below the declared offset 66 while six bytes remain, the gap step
    does not discard twelve bytes: it fails. *)
Lemma C5_counterexample :
  ~ (14 + 40 + 0 + 0 * 4 > hdr_bfOffBits early_offset ->
     fst (Decode early_offset)
     = Fail (FormatError "bad pixel-data-offset field"))
  /\ ~ (14 + headerSize short_gap_at_gap + bitFieldsSize short_gap_at_gap
        + srcPalNumEntries short_gap_at_gap * 4 < bfOffBits short_gap_at_gap ->
        fst (readGap short_gap_at_gap) = Ok tt).
Proof.
  split; intros H; specialize (H eq_refl); vm_compute in H; discriminate H.
Qed.

(** ** One row of palette indices *)

Lemma put_index_bad j i v d :
  dstPalNumEntries d <= u8 v ->
  put_index j i v d = (Fail (FormatError "palette index out of range"), d).
Proof.
  intros H. unfold put_index. rewrite bind_gets.
  destruct (u8 v >=? dstPalNumEntries d) eqn:E; [reflexivity|lia].
Qed.

Lemma put_index_ok j i v s rc pal d0 (A C : list byte) x :
  u8 v < dstPalNumEntries d0 ->
  len A = j * s + i ->
  put_index j i v (pstate s rc pal d0 (A ++ x :: C))
  = (Ok tt, pstate s rc pal d0 (A ++ v :: C)).
Proof.
  intros Hv HA. unfold put_index, pstate. rewrite bind_gets.
  cbn [dstPalNumEntries set_img_Paletted].
  destruct (u8 v >=? dstPalNumEntries d0) eqn:E; [lia|].
  unfold store_Paletted, deref. rewrite bind_eq.
  cbn [img_Paletted set_img_Paletted]. cbv iota.
  cbn [Paletted.Pix Paletted.Stride].
  rewrite store_middle by lia. rewrite bind_lift_Ok. reflexivity.
Qed.

Section PalettedRow.
Variables (j s : Z) (rc : Rectangle) (pal : list Color) (d0 : decoder).
Variables (px : nat -> byte) (body : Z -> M unit) (w : nat).
Hypothesis Hbody : forall i, (i < w)%nat ->
  forall d, body (Z.of_nat i) d = put_index j (Z.of_nat i) (px i) d.

Lemma paletted_row_ok k : forall (i : nat) (A B C : list byte),
  (i + k <= w)%nat -> len A = j * s + Z.of_nat i -> length B = k ->
  (forall i', (i <= i' < i + k)%nat -> u8 (px i') < dstPalNumEntries d0) ->
  iterate k (Z.of_nat i) body (pstate s rc pal d0 (A ++ B ++ C))
  = (Ok tt, pstate s rc pal d0 (A ++ map px (seq i k) ++ C)).
Proof.
  induction k as [|k IH]; intros i A B C Hw HA HB Hv.
  - destruct B; [reflexivity|discriminate].
  - destruct B as [|x B]; [discriminate|]. cbn [iterate].
    rewrite bind_eq, Hbody by lia. cbn [app].
    rewrite put_index_ok by (first [apply Hv; lia | exact HA]).
    replace (Z.of_nat i + 1) with (Z.of_nat (S i)) by lia.
    rewrite (cons_middle _ A), app_assoc.
    rewrite IH.
    + cbn [seq map]. rewrite <- app_assoc. reflexivity.
    + lia.
    + rewrite len_app. unfold len at 2. cbn [length]. lia.
    + now injection HB.
    + intros i' Hi'. apply Hv. lia.
Qed.

Lemma paletted_row_bad k : forall (i : nat) (A B C : list byte) (i' : nat),
  (i + k <= w)%nat -> len A = j * s + Z.of_nat i -> length B = k ->
  (i <= i' < i + k)%nat -> dstPalNumEntries d0 <= u8 (px i') ->
  fst (iterate k (Z.of_nat i) body (pstate s rc pal d0 (A ++ B ++ C)))
  = Fail (FormatError "palette index out of range").
Proof.
  induction k as [|k IH]; intros i A B C i' Hw HA HB Hi' Hbad; [lia|].
  destruct B as [|x B]; [discriminate|]. cbn [iterate].
  rewrite bind_eq, Hbody by lia. cbn [app].
  destruct (Z_lt_ge_dec (u8 (px i)) (dstPalNumEntries d0)) as [Hok|Hko].
  - rewrite put_index_ok by (first [exact Hok | exact HA]).
    replace (Z.of_nat i + 1) with (Z.of_nat (S i)) by lia.
    rewrite (cons_middle _ A), app_assoc.
    apply (IH (S i) _ B C i').
    + lia.
    + rewrite len_app. unfold len at 2. cbn [length]. lia.
    + now injection HB.
    + destruct (Nat.eq_dec i i') as [->|Hne]; lia.
    + exact Hbad.
  - rewrite put_index_bad by (cbn [pstate dstPalNumEntries set_img_Paletted];
                              unfold pstate; cbn; lia).
    reflexivity.
Qed.
End PalettedRow.

Lemma decodeRow_bodies buf j :
  decodeRow_1 buf j = for_lt width (decodeRow_1_body buf j) /\
  decodeRow_4 buf j = for_lt width (decodeRow_4_body buf j) /\
  decodeRow_8 buf j = for_lt width (decodeRow_8_body buf j) /\
  decodeRow_24 buf j = for_lt width (decodeRow_24_body buf j).
Proof. repeat split; reflexivity. Qed.

Lemma byte_at_get (l : list byte) i : byte_at l i = u8 (get_byte l i).
Proof.
  unfold byte_at, get_byte. destruct (l !! Z.to_nat i); reflexivity.
Qed.

Lemma uint8_u8 (b : byte) : uint8 (u8 b) = b.
Proof. apply byte.of_Z_unsigned. Qed.

Lemma u8_uint8 z : 0 <= z < 256 -> u8 (uint8 z) = z.
Proof.
  intros H. unfold uint8. rewrite byte.unsigned_of_Z. unfold byte.wrap.
  apply Z.mod_small. lia.
Qed.

Lemma land_pow2_eqb a k :
  0 <= k -> (Z.land a (2 ^ k) =? 0) = negb (Z.testbit a k).
Proof.
  intros Hk. destruct (Z.testbit a k) eqn:E; cbn [negb].
  - apply Z.eqb_neq. intros H0.
    assert (Hb : Z.testbit (Z.land a (2 ^ k)) k = true)
      by (rewrite Z.land_spec, E, Z.pow2_bits_true by lia; reflexivity).
    rewrite H0, Z.bits_0 in Hb. discriminate.
  - apply Z.eqb_eq. apply Z.bits_inj'. intros m Hm.
    rewrite Z.land_spec, Z.bits_0.
    destruct (Z.eq_dec m k) as [->|Hne].
    + now rewrite E.
    + rewrite (Z.pow2_bits_false k m) by lia. apply andb_false_r.
Qed.

Lemma pixel_1_range buf i : 0 <= pixel_1 buf i < 2.
Proof. unfold pixel_1. apply Z.mod_pos_bound. lia. Qed.

Lemma pixel_4_range buf i : 0 <= pixel_4 buf i < 16.
Proof.
  unfold pixel_4. pose proof (byte_at_range buf (i / 2)) as R.
  destruct (Z.even i).
  - split; [apply Z.div_pos; lia|]. apply Z.div_lt_upper_bound; lia.
  - apply Z.mod_pos_bound. lia.
Qed.

Lemma pixel_index_range bc buf i : 0 <= pixel_index bc buf i < 256.
Proof.
  unfold pixel_index.
  destruct (bc =? 1); [pose proof (pixel_1_range buf i); lia|].
  destruct (bc =? 4); [pose proof (pixel_4_range buf i); lia|].
  apply byte_at_range.
Qed.

Lemma decodeRow_1_body_eq buf j i d :
  0 <= i -> i / 8 < len buf ->
  decodeRow_1_body buf j i d = put_index j i (uint8 (pixel_1 buf i)) d.
Proof.
  intros Hi Hl. unfold decodeRow_1_body.
  rewrite Z.quot_div_nonneg, Z.rem_mod_nonneg by lia.
  assert (0 <= i / 8) by (apply Z.div_pos; lia).
  rewrite index_get by lia. rewrite bind_lift_Ok. f_equal.
  pose proof (Z.mod_pos_bound i 8 ltac:(lia)) as Hm.
  set (k := 7 - i mod 8) in *.
  assert (Hk : 0 <= k <= 7) by (unfold k; lia).
  rewrite Z.shiftl_1_l.
  assert (Hp : 0 < 2 ^ k <= 2 ^ 7)
    by (split; [apply Z.pow_pos_nonneg; lia
               | apply Z.pow_le_mono_r; lia]).
  rewrite u8_uint8 by lia. rewrite land_pow2_eqb by lia.
  unfold pixel_1. fold k. rewrite byte_at_get.
  rewrite <- Z.testbit_spec' by lia.
  destruct (Z.testbit (u8 (get_byte buf (i / 8))) k); reflexivity.
Qed.

Lemma decodeRow_4_body_eq buf j i d :
  0 <= i -> i / 2 < len buf ->
  decodeRow_4_body buf j i d = put_index j i (uint8 (pixel_4 buf i)) d.
Proof.
  intros Hi Hl. unfold decodeRow_4_body.
  rewrite Z.quot_div_nonneg by lia.
  assert (0 <= i / 2) by (apply Z.div_pos; lia).
  change 1 with (Z.ones 1) at 1. rewrite Z.land_ones by lia.
  change (2 ^ 1) with 2. rewrite <- Zeven_mod.
  unfold pixel_4. rewrite byte_at_get.
  destruct (Z.even i).
  - rewrite bind_assoc, index_get, bind_lift_Ok, bind_ret by lia.
    rewrite Z.shiftr_div_pow2 by lia. reflexivity.
  - rewrite bind_assoc, index_get, bind_lift_Ok, bind_ret by lia.
    change 15 with (Z.ones 4). rewrite Z.land_ones by lia. reflexivity.
Qed.

Lemma decodeRow_8_body_eq buf j i d :
  0 <= i < len buf ->
  decodeRow_8_body buf j i d = put_index j i (uint8 (pixel_8 buf i)) d.
Proof.
  intros Hi. unfold decodeRow_8_body.
  rewrite index_get, bind_lift_Ok by lia.
  unfold pixel_8. rewrite byte_at_get, uint8_u8. reflexivity.
Qed.

Lemma forallb_false_ex {A} (f : A -> bool) (l : list A) :
  forallb f l = false -> exists x, In x l /\ f x = false.
Proof.
  induction l as [|a l IH]; cbn [forallb]; [discriminate|].
  destruct (f a) eqn:E; cbn [andb].
  - intros H. destruct (IH H) as (x & Hx & Hf). exists x. split; [now right|exact Hf].
  - intros _. exists a. split; [now left|exact E].
Qed.

Lemma split_at_row (pix : list byte) (off n : Z) :
  0 <= off -> 0 <= n -> off + n <= len pix ->
  exists A B C, pix = A ++ B ++ C /\ len A = off /\ length B = Z.to_nat n /\
    A = take (Z.to_nat off) pix /\ C = drop (Z.to_nat off + Z.to_nat n) pix.
Proof.
  intros Ho Hn Hl.
  exists (take (Z.to_nat off) pix),
    (take (Z.to_nat n) (drop (Z.to_nat off) pix)),
    (drop (Z.to_nat off + Z.to_nat n) pix).
  unfold len in *. repeat split.
  - rewrite <- drop_drop. now rewrite !take_drop.
  - rewrite length_take. lia.
  - rewrite length_take, length_drop. lia.
Qed.

Section PalettedRowFor.
Variables (body : Z -> M unit) (pxz : Z -> Z) (j s : Z).
Variables (rc : Rectangle) (pal : list Color) (d0 : decoder).
Variable pix : list byte.
Hypothesis Hbody : forall i, 0 <= i < width d0 ->
  forall d, body i d = put_index j i (uint8 (pxz i)) d.
Hypothesis Hrange : forall i, 0 <= pxz i < 256.
Hypothesis Hw : 0 <= width d0.
Hypothesis Hoff : 0 <= j * s.
Hypothesis Hfit : j * s + width d0 <= len pix.

Lemma paletted_for_ok :
  forallb (fun i => pxz (Z.of_nat i) <? dstPalNumEntries d0)
    (seq 0 (Z.to_nat (width d0))) = true ->
  for_lt width body (pstate s rc pal d0 pix)
  = (Ok tt,
     pstate s rc pal d0
       (write_row pix (j * s)
          (map (fun i => uint8 (pxz (Z.of_nat i)))
             (seq 0 (Z.to_nat (width d0)))))).
Proof.
  intros Hv. unfold for_lt, write_row.
  cbn [width pstate set_img_Paletted].
  destruct (split_at_row pix (j * s) (width d0) Hoff Hw Hfit)
    as (A & B & C & Hpix & HA & HB & HA' & HC').
  rewrite length_map, length_seq. rewrite <- HA', <- HC'.
  rewrite Hpix at 1.
  assert (Hb : forall i, (i < Z.to_nat (width d0))%nat -> forall d,
            body (Z.of_nat i) d
            = put_index j (Z.of_nat i) (uint8 (pxz (Z.of_nat i))) d)
    by (intros i Hi d; apply Hbody; lia).
  apply (paletted_row_ok j s rc pal d0 _ body _ Hb
           (Z.to_nat (width d0)) 0%nat A B C).
  - lia.
  - rewrite HA. lia.
  - exact HB.
  - intros i' Hi'. rewrite u8_uint8 by apply Hrange.
    rewrite forallb_forall in Hv. apply Z.ltb_lt, Hv, in_seq. lia.
Qed.

Lemma paletted_for_bad :
  forallb (fun i => pxz (Z.of_nat i) <? dstPalNumEntries d0)
    (seq 0 (Z.to_nat (width d0))) = false ->
  fst (for_lt width body (pstate s rc pal d0 pix))
  = Fail (FormatError "palette index out of range").
Proof.
  intros Hv. unfold for_lt.
  cbn [width pstate set_img_Paletted].
  destruct (split_at_row pix (j * s) (width d0) Hoff Hw Hfit)
    as (A & B & C & Hpix & HA & HB & _ & _).
  rewrite Hpix.
  destruct (forallb_false_ex _ _ Hv) as (i' & Hin & Hf).
  apply in_seq in Hin. apply Z.ltb_ge in Hf.
  assert (Hb : forall i, (i < Z.to_nat (width d0))%nat -> forall d,
            body (Z.of_nat i) d
            = put_index j (Z.of_nat i) (uint8 (pxz (Z.of_nat i))) d)
    by (intros i Hi d; apply Hbody; lia).
  apply (paletted_row_bad j s rc pal d0 _ body _ Hb
           (Z.to_nat (width d0)) 0%nat A B C i').
  - lia.
  - rewrite HA. lia.
  - exact HB.
  - lia.
  - rewrite u8_uint8 by apply Hrange. exact Hf.
Qed.
End PalettedRowFor.

Lemma row_stride_covers w bc i :
  0 <= i < w -> 1 <= bc -> (i * bc) / 8 < row_stride w bc.
Proof.
  intros Hi Hbc. unfold row_stride.
  assert (i * bc + bc <= w * bc) by nia.
  assert (0 <= i * bc) by nia.
  pose proof (Z.mul_div_le (i * bc) 8 ltac:(lia)).
  pose proof (Z.mul_succ_div_gt (w * bc + 31) 32 ltac:(lia)).
  lia.
Qed.

Lemma decodeRow_pal_body bc buf j d0 :
  bc = 1 \/ bc = 4 \/ bc = 8 ->
  len buf = row_stride (width d0) bc ->
  exists body,
    decodeRow_for bc buf j = for_lt width body /\
    forall i, 0 <= i < width d0 -> forall d,
      body i d = put_index j i (uint8 (pixel_index bc buf i)) d.
Proof.
  intros Hbc Hl. destruct Hbc as [-> | [-> | ->]].
  - exists (decodeRow_1_body buf j). split; [reflexivity|].
    intros i Hi d. apply decodeRow_1_body_eq; [lia|].
    pose proof (row_stride_covers (width d0) 1 i Hi ltac:(lia)) as H.
    rewrite Z.mul_1_r in H. lia.
  - exists (decodeRow_4_body buf j). split; [reflexivity|].
    intros i Hi d. apply decodeRow_4_body_eq; [lia|].
    pose proof (row_stride_covers (width d0) 4 i Hi ltac:(lia)) as H.
    change 8 with (2 * 4) in H. rewrite Z.div_mul_cancel_r in H by lia. lia.
  - exists (decodeRow_8_body buf j). split; [reflexivity|].
    intros i Hi d. apply decodeRow_8_body_eq.
    pose proof (row_stride_covers (width d0) 8 i Hi ltac:(lia)) as H.
    rewrite Z.div_mul in H by lia. lia.
Qed.

Lemma decodeRow_pal_ok bc buf j s rc pal d0 pix :
  bc = 1 \/ bc = 4 \/ bc = 8 ->
  0 <= width d0 ->
  len buf = row_stride (width d0) bc ->
  0 <= j * s -> j * s + width d0 <= len pix ->
  row_valid bc (Z.to_nat (width d0)) (dstPalNumEntries d0) buf = true ->
  decodeRow_for bc buf j (pstate s rc pal d0 pix)
  = (Ok tt,
     pstate s rc pal d0
       (write_row pix (j * s)
          (decode_row_pal bc (Z.to_nat (width d0)) buf))).
Proof.
  intros Hbc Hw Hl Hoff Hfit Hv.
  destruct (decodeRow_pal_body bc buf j d0 Hbc Hl) as (body & -> & Hbody).
  apply (paletted_for_ok body (pixel_index bc buf) j s rc pal d0 pix Hbody
           (pixel_index_range bc buf) Hw Hoff Hfit Hv).
Qed.

Lemma decodeRow_pal_bad bc buf j s rc pal d0 pix :
  bc = 1 \/ bc = 4 \/ bc = 8 ->
  0 <= width d0 ->
  len buf = row_stride (width d0) bc ->
  0 <= j * s -> j * s + width d0 <= len pix ->
  row_valid bc (Z.to_nat (width d0)) (dstPalNumEntries d0) buf = false ->
  fst (decodeRow_for bc buf j (pstate s rc pal d0 pix))
  = Fail (FormatError "palette index out of range").
Proof.
  intros Hbc Hw Hl Hoff Hfit Hv.
  destruct (decodeRow_pal_body bc buf j d0 Hbc Hl) as (body & -> & Hbody).
  apply (paletted_for_bad body (pixel_index bc buf) j s rc pal d0 pix Hbody
           (pixel_index_range bc buf) Hw Hoff Hfit Hv).
Qed.

(** ** One row of direct-color pixels *)

Lemma store_NRGBA_middle (off : NRGBA.t -> Z) v s rc d0
    (pre post : list byte) x :
  off (NRGBA.mk (pre ++ x :: post) s rc) = len pre ->
  store_NRGBA off v (nstate s rc d0 (pre ++ x :: post))
  = (Ok tt, nstate s rc d0 (pre ++ v :: post)).
Proof.
  intros Hoff. unfold store_NRGBA, deref, nstate. rewrite bind_eq.
  cbn [img_NRGBA set_img_NRGBA]. cbv iota. cbn [NRGBA.Pix].
  rewrite Hoff. rewrite store_middle by reflexivity.
  rewrite bind_lift_Ok. reflexivity.
Qed.

Lemma store_NRGBA_at (off : NRGBA.t -> Z) v s rc d0
    (A l1 post : list byte) x :
  off (NRGBA.mk (A ++ l1 ++ x :: post) s rc) = len A + len l1 ->
  store_NRGBA off v (nstate s rc d0 (A ++ l1 ++ x :: post))
  = (Ok tt, nstate s rc d0 (A ++ l1 ++ v :: post)).
Proof.
  intros Hoff. rewrite !app_assoc. apply store_NRGBA_middle.
  rewrite <- app_assoc, Hoff, len_app. reflexivity.
Qed.

Lemma put_pixel_ok j i r g b s rc d0 (A C : list byte) x0 x1 x2 x3 :
  len A = j * s + i * 4 ->
  put_pixel j i r g b (nstate s rc d0 (A ++ x0 :: x1 :: x2 :: x3 :: C))
  = (Ok tt, nstate s rc d0 (A ++ r :: g :: b :: uint8 255 :: C)).
Proof.
  intros HA. unfold put_pixel.
  rewrite bind_eq.
  rewrite (store_NRGBA_at _ r s rc d0 A [] (x1 :: x2 :: x3 :: C) x0)
    by (cbn [NRGBA.Stride]; unfold len at 2; cbn [length]; lia).
  cbv iota. rewrite bind_eq.
  rewrite (store_NRGBA_at _ g s rc d0 A [r] (x2 :: x3 :: C) x1)
    by (cbn [NRGBA.Stride]; unfold len at 2; cbn [length]; lia).
  cbv iota. rewrite bind_eq.
  rewrite (store_NRGBA_at _ b s rc d0 A [r; g] (x3 :: C) x2)
    by (cbn [NRGBA.Stride]; unfold len at 2; cbn [length]; lia).
  cbv iota.
  rewrite (store_NRGBA_at _ (uint8 255) s rc d0 A [r; g; b] C x3)
    by (cbn [NRGBA.Stride]; unfold len at 2; cbn [length]; lia).
  reflexivity.
Qed.

Lemma decodeRow_24_body_eq buf j i d :
  0 <= i -> i * 3 + 2 < len buf ->
  decodeRow_24_body buf j i d
  = put_pixel j i (get_byte buf (i * 3 + 2)) (get_byte buf (i * 3 + 1))
      (get_byte buf (i * 3 + 0)) d.
Proof.
  intros Hi Hl. unfold decodeRow_24_body.
  rewrite !index_get by lia. rewrite !bind_lift_Ok. reflexivity.
Qed.

Section DirectRow.
Variables (buf : list byte) (j s : Z) (rc : Rectangle) (d0 : decoder).
Variable w : nat.
Hypothesis Hbuf : Z.of_nat w * 3 <= len buf.

Lemma direct_row_ok k : forall (i : nat) (A B C : list byte),
  (i + k <= w)%nat -> len A = j * s + Z.of_nat i * 4 ->
  length B = (4 * k)%nat ->
  iterate k (Z.of_nat i) (decodeRow_24_body buf j)
    (nstate s rc d0 (A ++ B ++ C))
  = (Ok tt, nstate s rc d0 (A ++ flat_map (rgba_of buf) (seq i k) ++ C)).
Proof.
  induction k as [|k IH]; intros i A B C Hw HA HB.
  - destruct B; [reflexivity|discriminate].
  - destruct B as [|x0 [|x1 [|x2 [|x3 B]]]]; cbn [length] in HB; try lia.
    cbn [iterate]. rewrite bind_eq, decodeRow_24_body_eq by lia.
    cbn [app]. rewrite put_pixel_ok by exact HA.
    replace (Z.of_nat i + 1) with (Z.of_nat (S i)) by lia.
    change (A ++ ?a :: ?b :: ?c :: ?e :: B ++ C)
      with (A ++ [a; b; c; e] ++ B ++ C).
    rewrite (app_assoc A).
    rewrite IH.
    + cbn [seq flat_map]. rewrite <- !app_assoc. reflexivity.
    + lia.
    + rewrite len_app. unfold len at 2. cbn [length]. lia.
    + lia.
Qed.
End DirectRow.

Lemma row_stride_covers_24 w i :
  0 <= i < w -> i * 3 + 2 < row_stride w 24.
Proof.
  intros Hi. unfold row_stride.
  pose proof (Z.mul_succ_div_gt (w * 24 + 31) 32 ltac:(lia)). lia.
Qed.

Lemma length_flat_map_rgba buf l : length (flat_map (rgba_of buf) l) = (4 * length l)%nat.
Proof.
  induction l as [|a l IH]; [reflexivity|].
  cbn [flat_map length app rgba_of]. rewrite IH. lia.
Qed.

Lemma decodeRow_24_ok buf j s rc d0 pix :
  0 <= width d0 ->
  len buf = row_stride (width d0) 24 ->
  0 <= j * s -> j * s + 4 * width d0 <= len pix ->
  decodeRow_for 24 buf j (nstate s rc d0 pix)
  = (Ok tt,
     nstate s rc d0
       (write_row pix (j * s) (decode_row_24 (Z.to_nat (width d0)) buf))).
Proof.
  intros Hw Hl Hoff Hfit.
  change (decodeRow_for 24) with decodeRow_24.
  rewrite (proj2 (proj2 (proj2 (decodeRow_bodies buf j)))).
  unfold for_lt, write_row, decode_row_24.
  cbn [width nstate set_img_NRGBA].
  destruct (split_at_row pix (j * s) (4 * width d0) Hoff ltac:(lia) Hfit)
    as (A & B & C & Hpix & HA & HB & HA' & HC').
  rewrite length_flat_map_rgba, length_seq.
  replace (Z.to_nat (j * s) + 4 * Z.to_nat (width d0))%nat
    with (Z.to_nat (j * s) + Z.to_nat (4 * width d0))%nat by lia.
  rewrite <- HA', <- HC'. rewrite Hpix at 1.
  assert (Hbuf : Z.of_nat (Z.to_nat (width d0)) * 3 <= len buf).
  { destruct (Z.eq_dec (width d0) 0) as [H0|H0];
      [rewrite H0; unfold len; lia|].
    pose proof (row_stride_covers_24 (width d0) (width d0 - 1) ltac:(lia)).
    lia. }
  apply (direct_row_ok buf j s rc d0 (Z.to_nat (width d0)) Hbuf
           (Z.to_nat (width d0)) 0%nat A B C).
  - lia.
  - rewrite HA. lia.
  - rewrite HB. lia.
Qed.

(** ** The row loop *)

Lemma len_write_row pix off vals :
  0 <= off -> off + len vals <= len pix ->
  len (write_row pix off vals) = len pix.
Proof.
  intros H0 H1. unfold write_row, len in *.
  rewrite !length_app, length_take, length_drop. lia.
Qed.

Lemma lookup_write_row_in pix off vals c :
  0 <= off -> off + len vals <= len pix -> 0 <= c < len vals ->
  write_row pix off vals !! Z.to_nat (off + c) = vals !! Z.to_nat c.
Proof.
  intros H0 H1 Hc. unfold write_row, len in *.
  rewrite lookup_app_r by (rewrite length_take; lia).
  rewrite length_take.
  rewrite lookup_app_l by lia. f_equal. lia.
Qed.

Lemma lookup_write_row_out pix off vals (p : nat) :
  0 <= off -> off + len vals <= len pix ->
  Z.of_nat p < off \/ off + len vals <= Z.of_nat p ->
  write_row pix off vals !! p = pix !! p.
Proof.
  intros H0 H1 Hp. unfold write_row, len in *.
  destruct Hp as [Hp|Hp].
  - rewrite lookup_app_l by (rewrite length_take; lia).
    apply lookup_take_lt. lia.
  - rewrite lookup_app_r by (rewrite length_take; lia).
    rewrite length_take.
    rewrite lookup_app_r by lia. rewrite lookup_drop. f_equal. lia.
Qed.

Lemma Forall_write_row (P : byte -> Prop) pix off vals :
  Forall P pix -> Forall P vals -> Forall P (write_row pix off vals).
Proof.
  intros Hp Hv. unfold write_row.
  repeat apply Forall_app_2; auto using Forall_take, Forall_drop.
Qed.

Lemma src_row_drop stride data k :
  src_row stride (drop (Z.to_nat stride) data) k = src_row stride data (S k).
Proof.
  unfold src_row. rewrite drop_drop. reflexivity.
Qed.

Lemma src_row_0 stride data :
  src_row stride data 0 = take (Z.to_nat stride) data.
Proof. reflexivity. Qed.

Lemma len_src_row stride data k :
  0 <= stride -> (Z.of_nat k + 1) * stride <= len data ->
  len (src_row stride data k) = stride.
Proof.
  intros Hs Hl. unfold src_row, len in *.
  rewrite length_take, length_drop. nia.
Qed.

Lemma iterate_ext (body1 body2 : Z -> M unit) :
  (forall i d, body1 i d = body2 i d) ->
  forall k i d, iterate k i body1 d = iterate k i body2 d.
Proof.
  intros H. induction k as [|k IH]; intros i d; [reflexivity|].
  cbn [iterate]. rewrite !bind_eq, H.
  destruct (body2 i d) as [[[]|e|] d']; auto.
Qed.

Section RowLoop.
Variables (stride cells h : Z) (td : bool).
Variable f : decodeRowFuncType.
Variable decode : list byte -> list byte.
Variable valid : list byte -> bool.
Variable st : list byte -> list byte -> decoder.
Hypothesis Hstride : 0 < stride.
Hypothesis Hcells : 0 <= cells.
Hypothesis Hst_r : forall pix data, r (st pix data) = data.
Hypothesis Hst_set :
  forall pix data data', set_r data' (st pix data) = st pix data'.
Hypothesis Hst_td : forall pix data, isTopDown (st pix data) = td.
Hypothesis Hst_h : forall pix data, height (st pix data) = h.
Hypothesis Hdec_len : forall buf, len buf = stride -> len (decode buf) = cells.
Hypothesis Hrow_ok : forall pix data buf j,
  0 <= j < h -> len buf = stride -> len pix = h * cells ->
  valid buf = true ->
  f buf j (st pix data)
  = (Ok tt, st (write_row pix (j * cells) (decode buf)) data).
Hypothesis Hrow_bad : forall pix data buf j,
  0 <= j < h -> len buf = stride -> len pix = h * cells ->
  valid buf = false ->
  fst (f buf j (st pix data))
  = Fail (FormatError "palette index out of range").

Lemma dst_row_range k : 0 <= k < h -> 0 <= dst_row td h k < h.
Proof. intros H. unfold dst_row. destruct td; lia. Qed.

Lemma readBits_body_step s pix data :
  0 <= s < h -> stride <= len data ->
  readBits_body stride f s (st pix data)
  = f (take (Z.to_nat stride) data) (dst_row td h s)
      (st pix (drop (Z.to_nat stride) data)).
Proof.
  intros Hs Hl. unfold readBits_body.
  rewrite !bind_gets, Hst_td, Hst_h.
  rewrite bind_ReadFull_ok by (rewrite ?Hst_r; lia).
  rewrite Hst_r, Hst_set. reflexivity.
Qed.

Lemma rows_ok m : forall (s : nat) pix data,
  Z.of_nat s + Z.of_nat m <= h ->
  Z.of_nat m * stride <= len data ->
  len pix = h * cells ->
  (forall k, (k < m)%nat -> valid (src_row stride data k) = true) ->
  iterate m (Z.of_nat s) (readBits_body stride f) (st pix data)
  = (Ok tt,
     st (rows_fold decode td h cells stride m s pix data)
        (drop (m * Z.to_nat stride) data)).
Proof.
  induction m as [|m IH]; intros s pix data Hs Hl Hpix Hv.
  - reflexivity.
  - cbn [iterate rows_fold]. rewrite bind_eq.
    rewrite readBits_body_step by nia.
    pose proof (dst_row_range (Z.of_nat s) ltac:(lia)) as Hd.
    assert (Hbuf : len (take (Z.to_nat stride) data) = stride)
      by (rewrite len_take; nia).
    rewrite Hrow_ok; [| exact Hd | exact Hbuf | exact Hpix
                      | rewrite <- src_row_0; apply Hv; lia].
    replace (Z.of_nat s + 1) with (Z.of_nat (S s)) by lia.
    rewrite IH.
    + rewrite drop_drop. reflexivity.
    + lia.
    + rewrite len_drop_le by nia. nia.
    + rewrite len_write_row; [exact Hpix | nia |].
      rewrite Hdec_len by exact Hbuf. nia.
    + intros k Hk. rewrite src_row_drop. apply Hv. lia.
Qed.

Lemma rows_bad m : forall (s : nat) pix data (k : nat),
  Z.of_nat s + Z.of_nat m <= h ->
  (k < m)%nat -> (Z.of_nat k + 1) * stride <= len data ->
  len pix = h * cells ->
  valid (src_row stride data k) = false ->
  fst (iterate m (Z.of_nat s) (readBits_body stride f) (st pix data))
  = Fail (FormatError "palette index out of range").
Proof.
  induction m as [|m IH]; intros s pix data k Hs Hk Hl Hpix Hv; [lia|].
  cbn [iterate]. rewrite bind_eq.
  rewrite readBits_body_step by nia.
  pose proof (dst_row_range (Z.of_nat s) ltac:(lia)) as Hd.
  assert (Hbuf : len (take (Z.to_nat stride) data) = stride)
    by (rewrite len_take; nia).
  destruct (valid (take (Z.to_nat stride) data)) eqn:Ev.
  - rewrite Hrow_ok; [| exact Hd | exact Hbuf | exact Hpix | exact Ev].
    replace (Z.of_nat s + 1) with (Z.of_nat (S s)) by lia.
    destruct k as [|k]; [rewrite src_row_0 in Hv; congruence|].
    apply (IH _ _ _ k).
    + lia.
    + lia.
    + rewrite len_drop_le by nia. nia.
    + rewrite len_write_row; [exact Hpix | nia |].
      rewrite Hdec_len by exact Hbuf. nia.
    + rewrite src_row_drop. exact Hv.
  - pose proof (Hrow_bad pix (drop (Z.to_nat stride) data) _ _ Hd Hbuf Hpix Ev)
      as Hb.
    destruct (f _ _ _) as [[a|e|] d']; cbn [fst] in *; congruence.
Qed.

Lemma rows_short m : forall (s : nat) pix data,
  Z.of_nat s + Z.of_nat m <= h ->
  len data < Z.of_nat m * stride ->
  len pix = h * cells ->
  fst (iterate m (Z.of_nat s) (readBits_body stride f) (st pix data))
  <> Ok tt.
Proof.
  induction m as [|m IH]; intros s pix data Hs Hl Hpix.
  - unfold len in Hl. lia.
  - cbn [iterate].
    destruct (Z_lt_ge_dec (len data) stride) as [Hlt|Hge].
    + rewrite bind_eq. unfold readBits_body.
      rewrite !bind_gets.
      destruct (bind_ReadFull_short stride
                  (fun buf => f buf (if isTopDown (st pix data)
                                     then Z.of_nat s
                                     else height (st pix data)
                                          - Z.of_nat s - 1))
                  (st pix data)) as [H1 _]; [rewrite Hst_r; lia|].
      destruct (bind (ReadFull stride) _ _) as [[a|e|] d'];
        cbn [fst] in *; congruence.
    + rewrite bind_eq. rewrite readBits_body_step by nia.
      pose proof (dst_row_range (Z.of_nat s) ltac:(lia)) as Hd.
      assert (Hbuf : len (take (Z.to_nat stride) data) = stride)
        by (rewrite len_take; nia).
      destruct (valid (take (Z.to_nat stride) data)) eqn:Ev.
      * rewrite Hrow_ok; [| exact Hd | exact Hbuf | exact Hpix | exact Ev].
        replace (Z.of_nat s + 1) with (Z.of_nat (S s)) by lia.
        apply IH.
        -- lia.
        -- rewrite len_drop_le by nia. nia.
        -- rewrite len_write_row; [exact Hpix | nia |].
           rewrite Hdec_len by exact Hbuf. nia.
      * pose proof (Hrow_bad pix (drop (Z.to_nat stride) data) _ _
                      Hd Hbuf Hpix Ev) as Hb.
        destruct (f _ _ _) as [[a|e|] d']; cbn [fst] in *; congruence.
Qed.
End RowLoop.

Section RowsFold.
Variables (stride cells h : Z) (td : bool).
Variable decode : list byte -> list byte.
Hypothesis Hcells : 0 <= cells.
Hypothesis Hdec : forall buf, len (decode buf) = cells.

Lemma dst_row_bounds k : 0 <= k < h -> 0 <= dst_row td h k < h.
Proof. intros H. unfold dst_row. destruct td; lia. Qed.

Lemma dst_row_inj a b : dst_row td h a = dst_row td h b -> a = b.
Proof. unfold dst_row. destruct td; lia. Qed.

Lemma rows_fold_len m : forall (s : nat) pix data,
  Z.of_nat s + Z.of_nat m <= h -> len pix = h * cells ->
  len (rows_fold decode td h cells stride m s pix data) = len pix.
Proof.
  induction m as [|m IH]; intros s pix data Hs Hpix; [reflexivity|].
  cbn [rows_fold].
  pose proof (dst_row_bounds (Z.of_nat s) ltac:(lia)) as Hd.
  assert (Hw : len (write_row pix (dst_row td h (Z.of_nat s) * cells)
                     (decode (take (Z.to_nat stride) data))) = len pix)
    by (apply len_write_row; [nia | rewrite Hdec; nia]).
  rewrite IH; [exact Hw | lia | now rewrite Hw].
Qed.

Lemma rows_fold_out m : forall (s : nat) pix data (p : nat),
  Z.of_nat s + Z.of_nat m <= h -> len pix = h * cells ->
  (forall k, (k < m)%nat ->
     Z.of_nat p < dst_row td h (Z.of_nat (s + k)) * cells \/
     dst_row td h (Z.of_nat (s + k)) * cells + cells <= Z.of_nat p) ->
  rows_fold decode td h cells stride m s pix data !! p = pix !! p.
Proof.
  induction m as [|m IH]; intros s pix data p Hs Hpix Hout; [reflexivity|].
  cbn [rows_fold].
  pose proof (dst_row_bounds (Z.of_nat s) ltac:(lia)) as Hd.
  assert (Hw : len (write_row pix (dst_row td h (Z.of_nat s) * cells)
                     (decode (take (Z.to_nat stride) data))) = len pix)
    by (apply len_write_row; [nia | rewrite Hdec; nia]).
  rewrite IH.
  - apply lookup_write_row_out; [nia | rewrite Hdec; nia |].
    rewrite Hdec. specialize (Hout 0%nat ltac:(lia)).
    rewrite Nat.add_0_r in Hout. exact Hout.
  - lia.
  - now rewrite Hw.
  - intros k Hk. specialize (Hout (S k) ltac:(lia)).
    replace (S s + k)%nat with (s + S k)%nat by lia. exact Hout.
Qed.

Lemma rows_fold_in m : forall (s : nat) pix data (k : nat) c,
  Z.of_nat s + Z.of_nat m <= h -> len pix = h * cells ->
  (k < m)%nat -> 0 <= c < cells ->
  rows_fold decode td h cells stride m s pix data
    !! Z.to_nat (dst_row td h (Z.of_nat (s + k)) * cells + c)
  = decode (src_row stride data k) !! Z.to_nat c.
Proof.
  induction m as [|m IH]; intros s pix data k c Hs Hpix Hk Hc; [lia|].
  cbn [rows_fold].
  pose proof (dst_row_bounds (Z.of_nat s) ltac:(lia)) as Hd.
  assert (Hw : len (write_row pix (dst_row td h (Z.of_nat s) * cells)
                     (decode (take (Z.to_nat stride) data))) = len pix)
    by (apply len_write_row; [nia | rewrite Hdec; nia]).
  destruct k as [|k].
  - rewrite Nat.add_0_r. rewrite rows_fold_out.
    + rewrite src_row_0. apply lookup_write_row_in;
        [nia | rewrite Hdec; nia | rewrite Hdec; lia].
    + lia.
    + now rewrite Hw.
    + intros k Hk'.
      pose proof (dst_row_bounds (Z.of_nat (S s + k)) ltac:(lia)) as Hd'.
      assert (Hne : dst_row td h (Z.of_nat (S s + k))
                    <> dst_row td h (Z.of_nat s))
        by (intros E; apply dst_row_inj in E; lia).
      rewrite Z2Nat.id by nia. nia.
  - replace (s + S k)%nat with (S s + k)%nat by lia.
    rewrite IH; [| lia | now rewrite Hw | lia | lia].
    now rewrite src_row_drop.
Qed.

Lemma rows_fold_Forall (P : byte -> Prop) m : forall (s : nat) pix data,
  Forall P pix ->
  (forall k, (k < m)%nat -> Forall P (decode (src_row stride data k))) ->
  Forall P (rows_fold decode td h cells stride m s pix data).
Proof.
  induction m as [|m IH]; intros s pix data Hp Hv; [exact Hp|].
  cbn [rows_fold]. apply IH.
  - apply Forall_write_row; [exact Hp|].
    rewrite <- src_row_0. apply Hv. lia.
  - intros k Hk. rewrite src_row_drop. apply Hv. lia.
Qed.
End RowsFold.

(** ** [readBits] *)

Lemma set_r_id d : set_r (r d) d = d.
Proof. now destruct d. Qed.

Lemma row_stride_quot w bc :
  1 <= w < 2 ^ 31 -> 1 <= bc <= 24 ->
  int_mul (Z.quot (int_add (int_mul w bc) 31) 32) 4 = row_stride w bc
  /\ 0 < row_stride w bc < 2 ^ 40.
Proof.
  intros Hw Hbc. unfold int_mul, int_add, row_stride.
  assert (1 <= w * bc < 2 ^ 36) by nia.
  rewrite (wrap_int_small (w * bc)) by lia.
  rewrite (wrap_int_small (w * bc + 31)) by lia.
  rewrite Z.quot_div_nonneg by lia.
  pose proof (Z.mul_div_le (w * bc + 31) 32 ltac:(lia)).
  pose proof (Z.mul_succ_div_gt (w * bc + 31) 32 ltac:(lia)).
  rewrite wrap_int_small by lia. lia.
Qed.

Lemma readBits_eq d :
  1 <= width d < 2 ^ 31 ->
  bitCount d = 1 \/ bitCount d = 4 \/ bitCount d = 8 \/ bitCount d = 24 ->
  readBits d
  = iterate (Z.to_nat (height d)) 0
      (readBits_body (row_stride (width d) (bitCount d))
         (decodeRow_for (bitCount d))) d.
Proof.
  intros Hw Hbc. unfold readBits. rewrite !bind_gets.
  destruct (row_stride_quot (width d) (bitCount d) Hw ltac:(lia))
    as [-> Hs].
  rewrite make_ok by lia. rewrite bind_lift_Ok.
  assert (Hbody : forall (f : decodeRowFuncType) i d',
            (let* topDown := gets isTopDown in
             let* h := gets height in
             let* buf := ReadFull
                 (len (replicate
                         (Z.to_nat (row_stride (width d) (bitCount d)))
                         zero_byte)) in
             f buf (if topDown then i else h - i - 1)) d'
            = readBits_body (row_stride (width d) (bitCount d)) f i d').
  { intros f i d'. rewrite len_replicate, Z2Nat.id by lia. reflexivity. }
  destruct Hbc as [E | [E | [E | E]]]; rewrite E in *;
    unfold for_lt; apply iterate_ext; intros i d'; apply Hbody.
Qed.

Section ReadBitsPaletted.
Variables (d0 : decoder) (rc : Rectangle) (pal : list Color).
Let w := width d0.
Let h := height d0.
Let bc := bitCount d0.
Let stride := row_stride w bc.
Let np := dstPalNumEntries d0.
Let wn := Z.to_nat w.
Hypothesis Hw : 1 <= w < 2 ^ 31.
Hypothesis Hh : 1 <= h.
Hypothesis Hbc : bc = 1 \/ bc = 4 \/ bc = 8.

Let pst := pst_of rc pal d0.

Lemma pst_row_ok pix data buf j :
  0 <= j < h -> len buf = stride -> len pix = h * w ->
  row_valid bc wn np buf = true ->
  decodeRow_for bc buf j (pst pix data)
  = (Ok tt, pst (write_row pix (j * w) (decode_row_pal bc wn buf)) data).
Proof.
  intros Hj Hb Hp Hv. unfold pst, pst_of.
  apply (decodeRow_pal_ok bc buf j w rc pal (set_r data d0) pix Hbc);
    cbn [width dstPalNumEntries set_r]; fold w; try nia; assumption.
Qed.

Lemma pst_row_bad pix data buf j :
  0 <= j < h -> len buf = stride -> len pix = h * w ->
  row_valid bc wn np buf = false ->
  fst (decodeRow_for bc buf j (pst pix data))
  = Fail (FormatError "palette index out of range").
Proof.
  intros Hj Hb Hp Hv. unfold pst, pst_of.
  apply (decodeRow_pal_bad bc buf j w rc pal (set_r data d0) pix Hbc);
    cbn [width dstPalNumEntries set_r]; fold w; try nia; assumption.
Qed.

Lemma len_decode_row_pal buf : len (decode_row_pal bc wn buf) = w.
Proof.
  unfold decode_row_pal, len. rewrite length_map, length_seq.
  unfold wn. lia.
Qed.

Lemma readBits_pst pix data :
  readBits (pst pix data)
  = iterate (Z.to_nat h) (Z.of_nat 0)
      (readBits_body stride (decodeRow_for bc)) (pst pix data).
Proof.
  rewrite readBits_eq; [reflexivity | exact Hw |].
  unfold pst, pst_of, pstate. cbn [bitCount set_img_Paletted set_r].
  fold bc. lia.
Qed.

Lemma stride_pos : 0 < stride.
Proof.
  unfold stride.
  destruct (row_stride_quot w bc Hw ltac:(lia)) as [_ H]. lia.
Qed.

Lemma readBits_pal_ok pix data :
  len pix = h * w -> h * stride <= len data ->
  (forall k, (k < Z.to_nat h)%nat ->
     row_valid bc wn np (src_row stride data k) = true) ->
  readBits (pst pix data)
  = (Ok tt,
     pst (rows_fold (decode_row_pal bc wn) (isTopDown d0) h w stride
            (Z.to_nat h) 0 pix data)
       (drop (Z.to_nat h * Z.to_nat stride) data)).
Proof.
  intros Hp Hl Hv. rewrite readBits_pst.
  apply (rows_ok stride w h (isTopDown d0) (decodeRow_for bc)
           (decode_row_pal bc wn) (row_valid bc wn np) pst
           stride_pos ltac:(lia) ltac:(reflexivity) ltac:(reflexivity)
           ltac:(reflexivity) ltac:(reflexivity)
           (fun buf _ => len_decode_row_pal buf) pst_row_ok
           (Z.to_nat h) 0%nat pix data); try lia; assumption.
Qed.

Lemma readBits_pal_bad pix data (k : nat) :
  len pix = h * w -> Z.of_nat k < h ->
  (Z.of_nat k + 1) * stride <= len data ->
  row_valid bc wn np (src_row stride data k) = false ->
  fst (readBits (pst pix data))
  = Fail (FormatError "palette index out of range").
Proof.
  intros Hp Hk Hl Hv. rewrite readBits_pst.
  apply (rows_bad stride w h (isTopDown d0) (decodeRow_for bc)
           (decode_row_pal bc wn) (row_valid bc wn np) pst
           stride_pos ltac:(lia) ltac:(reflexivity) ltac:(reflexivity)
           ltac:(reflexivity) ltac:(reflexivity)
           (fun buf _ => len_decode_row_pal buf) pst_row_ok pst_row_bad
           (Z.to_nat h) 0%nat pix data k); try lia; assumption.
Qed.

Lemma readBits_pal_short pix data :
  len pix = h * w -> len data < h * stride ->
  fst (readBits (pst pix data)) <> Ok tt.
Proof.
  intros Hp Hl. rewrite readBits_pst.
  apply (rows_short stride w h (isTopDown d0) (decodeRow_for bc)
           (decode_row_pal bc wn) (row_valid bc wn np) pst
           stride_pos ltac:(lia) ltac:(reflexivity) ltac:(reflexivity)
           ltac:(reflexivity) ltac:(reflexivity)
           (fun buf _ => len_decode_row_pal buf) pst_row_ok pst_row_bad
           (Z.to_nat h) 0%nat pix data); try lia; assumption.
Qed.
End ReadBitsPaletted.

Section ReadBitsDirect.
Variables (d0 : decoder) (rc : Rectangle).
Let w := width d0.
Let h := height d0.
Let stride := row_stride w 24.
Let wn := Z.to_nat w.
Let nst := nst_of rc d0.
Hypothesis Hw : 1 <= w < 2 ^ 31.
Hypothesis Hh : 1 <= h.
Hypothesis Hbc : bitCount d0 = 24.

Lemma nst_row_ok pix data buf j :
  0 <= j < h -> len buf = stride -> len pix = h * (4 * w) ->
  (fun _ : list byte => true) buf = true ->
  decodeRow_for 24 buf j (nst pix data)
  = (Ok tt, nst (write_row pix (j * (4 * w)) (decode_row_24 wn buf)) data).
Proof.
  intros Hj Hb Hp _. unfold nst, nst_of.
  apply (decodeRow_24_ok buf j (4 * width d0) rc (set_r data d0) pix);
    cbn [width set_r]; fold w; try nia; assumption.
Qed.

Lemma nst_row_bad pix data buf j :
  0 <= j < h -> len buf = stride -> len pix = h * (4 * w) ->
  (fun _ : list byte => true) buf = false ->
  fst (decodeRow_for 24 buf j (nst pix data))
  = Fail (FormatError "palette index out of range").
Proof. intros _ _ _ H. discriminate H. Qed.

Lemma len_decode_row_24 buf : len (decode_row_24 wn buf) = 4 * w.
Proof.
  unfold decode_row_24, len. rewrite length_flat_map_rgba, length_seq.
  unfold wn. lia.
Qed.

Lemma readBits_nst pix data :
  readBits (nst pix data)
  = iterate (Z.to_nat h) (Z.of_nat 0)
      (readBits_body stride (decodeRow_for 24)) (nst pix data).
Proof.
  rewrite readBits_eq.
  - unfold nst, nst_of, nstate. cbn [bitCount set_img_NRGBA set_r].
    rewrite Hbc. reflexivity.
  - exact Hw.
  - unfold nst, nst_of, nstate. cbn [bitCount set_img_NRGBA set_r]. lia.
Qed.

Lemma stride24_pos : 0 < stride.
Proof.
  unfold stride.
  destruct (row_stride_quot w 24 Hw ltac:(lia)) as [_ H]. lia.
Qed.

Lemma readBits_rgb_ok pix data :
  len pix = h * (4 * w) -> h * stride <= len data ->
  readBits (nst pix data)
  = (Ok tt,
     nst (rows_fold (decode_row_24 wn) (isTopDown d0) h (4 * w) stride
            (Z.to_nat h) 0 pix data)
       (drop (Z.to_nat h * Z.to_nat stride) data)).
Proof.
  intros Hp Hl. rewrite readBits_nst.
  apply (rows_ok stride (4 * w) h (isTopDown d0) (decodeRow_for 24)
           (decode_row_24 wn) (fun _ => true) nst
           stride24_pos ltac:(lia) ltac:(reflexivity) ltac:(reflexivity)
           ltac:(reflexivity) ltac:(reflexivity)
           (fun buf _ => len_decode_row_24 buf) nst_row_ok
           (Z.to_nat h) 0%nat pix data); try lia; try assumption;
    reflexivity.
Qed.

Lemma readBits_rgb_short pix data :
  len pix = h * (4 * w) -> len data < h * stride ->
  fst (readBits (nst pix data)) <> Ok tt.
Proof.
  intros Hp Hl. rewrite readBits_nst.
  apply (rows_short stride (4 * w) h (isTopDown d0) (decodeRow_for 24)
           (decode_row_24 wn) (fun _ => true) nst
           stride24_pos ltac:(lia) ltac:(reflexivity) ltac:(reflexivity)
           ltac:(reflexivity) ltac:(reflexivity)
           (fun buf _ => len_decode_row_24 buf) nst_row_ok nst_row_bad
           (Z.to_nat h) 0%nat pix data); try lia; assumption.
Qed.
End ReadBitsDirect.

(** ** From the headers to the row loop *)

Ltac frame_tac :=
  unfold after_palette, palette_state, alloc_state;
  repeat match goal with
         | |- context [if ?c then _ else _] => destruct c eqn:?
         end; cbn; congruence.

Lemma palette_state_frame d :
  width (palette_state d) = width d /\
  height (palette_state d) = height d /\
  bitCount (palette_state d) = bitCount d /\
  isTopDown (palette_state d) = isTopDown d /\
  headerSize (palette_state d) = headerSize d /\
  bitFieldsSize (palette_state d) = bitFieldsSize d /\
  srcPalSizeInBytes (palette_state d) = srcPalSizeInBytes d /\
  bfOffBits (palette_state d) = bfOffBits d /\
  dstHasPalette (palette_state d) = dstHasPalette d /\
  r (palette_state d)
  = drop (Z.to_nat (srcPalNumEntries d * 4)) (r d).
Proof. repeat split; frame_tac. Qed.

Lemma alloc_state_frame d :
  width (alloc_state d) = width d /\
  height (alloc_state d) = height d /\
  bitCount (alloc_state d) = bitCount d /\
  isTopDown (alloc_state d) = isTopDown d /\
  headerSize (alloc_state d) = headerSize d /\
  bitFieldsSize (alloc_state d) = bitFieldsSize d /\
  srcPalSizeInBytes (alloc_state d) = srcPalSizeInBytes d /\
  bfOffBits (alloc_state d) = bfOffBits d /\
  dstHasPalette (alloc_state d) = dstHasPalette d /\
  dstPalNumEntries (alloc_state d) = dstPalNumEntries d /\
  r (alloc_state d) = r d.
Proof. repeat split; frame_tac. Qed.

Lemma fst_bind_not_Ok {A B} (m : M A) (k : A -> M B) d :
  (forall a, fst (m d) <> Ok a) -> forall b, fst (bind m k d) <> Ok b.
Proof.
  intros H b. rewrite bind_eq. destruct (m d) as [[a|e|] d']; cbn [fst] in *;
    [exfalso; apply (H a); reflexivity | discriminate | discriminate].
Qed.

Lemma Decode_alloc_cases d1 :
  1 <= width d1 -> 1 <= height d1 ->
  headerSize d1 = 40 -> bitFieldsSize d1 = 0 ->
  0 <= srcPalSizeInBytes d1 < 2 ^ 31 -> 0 <= bfOffBits d1 < 2 ^ 32 ->
  let gap := bfOffBits d1 - (54 + srcPalSizeInBytes d1) in
  let R := fits d1 /\ 0 <= gap <= len (r d1) in
  (R -> Decode_alloc d1
        = Decode_bits (set_r (drop (Z.to_nat gap) (r d1)) (alloc_state d1)))
  /\ (~ R -> forall img, fst (Decode_alloc d1) <> Ok img).
Proof.
  intros Hw Hh Hhs Hbf Hsz Hoff gap R.
  destruct (alloc_state_frame d1)
    as (_ & _ & _ & _ & Ahs & Abf & Asz & Aoff & _ & _ & Ar).
  assert (Hfd : fits d1 \/ ~ fits d1)
    by (unfold fits; destruct (dstHasPalette d1); lia).
  destruct Hfd as [Hf|Hf].
  2:{ split; [intros [Hf' _]; contradiction|].
      intros _ img. rewrite (Decode_alloc_panic d1 Hw Hh Hf). discriminate. }
  rewrite (Decode_alloc_eq d1 Hw Hh Hf). unfold Decode_gap.
  set (d2 := alloc_state d1) in *.
  assert (Hco : computed_offset d2 = 54 + srcPalSizeInBytes d1)
    by (unfold computed_offset; rewrite Ahs, Abf, Asz, Hhs, Hbf; lia).
  pose proof (readGap_eq d2 ltac:(rewrite Ahs; lia) ltac:(rewrite Abf; lia)
                ltac:(rewrite Asz; lia) ltac:(rewrite Aoff; lia)) as Hg.
  rewrite Hco, Aoff in Hg.
  destruct (54 + srcPalSizeInBytes d1 =? bfOffBits d1) eqn:E1.
  - assert (Hgap : gap = 0) by (unfold gap; lia).
    split.
    + intros _. rewrite bind_eq, Hg. rewrite Hgap.
      change (drop (Z.to_nat 0) (r d1)) with (r d1).
      rewrite <- Ar, set_r_id. reflexivity.
    + intros HR. exfalso. apply HR. split; [exact Hf|].
      rewrite Hgap. unfold len. lia.
  - destruct (54 + srcPalSizeInBytes d1 >? bfOffBits d1) eqn:E2.
    + split; [intros [_ HR]; unfold gap in HR; lia|].
      intros _ img. rewrite bind_eq, Hg. discriminate.
    + assert (Hgap : 0 < gap) by (unfold gap; lia).
      fold gap in Hg.
      destruct (Z_le_gt_dec gap (len (r d1))) as [Hl|Hl].
      * split.
        -- intros _. rewrite bind_eq, Hg.
           rewrite skipBytes_ok by (rewrite ?Ar; lia).
           rewrite Ar. reflexivity.
        -- intros HR. exfalso. apply HR. split; [exact Hf|lia].
      * split; [intros [_ HR]; lia|].
        intros _. apply fst_bind_not_Ok. intros a. rewrite Hg.
        destruct (skipBytes_short gap d2 ltac:(rewrite Ar; lia))
          as (e & -> & _).
        discriminate.
Qed.

Lemma after_palette_frame d :
  width (after_palette d) = width d /\
  height (after_palette d) = height d /\
  bitCount (after_palette d) = bitCount d /\
  isTopDown (after_palette d) = isTopDown d /\
  headerSize (after_palette d) = headerSize d /\
  bitFieldsSize (after_palette d) = bitFieldsSize d /\
  srcPalSizeInBytes (after_palette d) = srcPalSizeInBytes d /\
  bfOffBits (after_palette d) = bfOffBits d /\
  dstHasPalette (after_palette d) = dstHasPalette d.
Proof. repeat split; frame_tac. Qed.

(** what a well-formed full-mode header gives *)
Lemma header_ok_facts input :
  header_parse false input = inr (header_state input) ->
  54 <= len input /\ 1 <= hdr_width input < 2 ^ 31 /\
  1 <= Z.abs (hdr_height input) <= 2 ^ 31 /\
  hdr_compression input <= 3 /\
  0 <= palette_count (hdr_bitCount input) (hdr_clrUsed input) <= 10000.
Proof.
  intros H.
  destruct (header_parse_inv _ _ _ H) as (Hl & _ & _ & Hw & Hh & _ & Hf).
  destruct (Hf eq_refl) as (Hc & Hclr & _).
  destruct (header_fields_range input) as (Rw & Rh & Rbc & Rc & Rclr & Roff).
  repeat split; try lia;
    apply (palette_count_range (hdr_bitCount input) (hdr_clrUsed input));
    lia.
Qed.

Lemma drop_drop_Z {A} (l : list A) a b c :
  0 <= a -> 0 <= b -> c = a + b ->
  drop (Z.to_nat b) (drop (Z.to_nat a) l) = drop (Z.to_nat c) l.
Proof. intros Ha Hb ->. rewrite drop_drop. f_equal. lia. Qed.

Lemma Decode_palette_cases input :
  header_parse false input = inr (header_state input) ->
  hdr_compression input = 0 ->
  (reach_bits input ->
   Decode_palette (header_state input) = Decode_bits (pixel_state input))
  /\ (~ reach_bits input ->
      forall img, fst (Decode_palette (header_state input)) <> Ok img).
Proof.
  intros Hhdr Hcomp.
  destruct (header_ok_facts input Hhdr) as (Hl & Hw & Hh & Hc & Hn).
  destruct (header_fields_range input) as (_ & _ & Rbc & Rc & Rclr & Roff).
  unfold reach_bits, pixel_state.
  set (hs := header_state input).
  set (n := palette_count (hdr_bitCount input) (hdr_clrUsed input)) in *.
  assert (Hfld : width hs = hdr_width input /\
                 height hs = Z.abs (hdr_height input) /\
                 headerSize hs = 40 /\ srcPalNumEntries hs = n /\
                 srcPalSizeInBytes hs = n * 4 /\
                 srcPalBytesPerEntry hs = 4 /\
                 bfOffBits hs = hdr_bfOffBits input /\
                 r hs = drop 54 input /\ bitFieldsSize hs = 0)
    by (repeat split; try reflexivity;
        cbn [bitFieldsSize hs header_state]; rewrite Hcomp; reflexivity).
  destruct Hfld as (Fw & Fh & Fhs & Fn & Fsz & Fper & Foff & Fr & Fbf).
  assert (Hlen54 : len (drop 54 input) = len input - 54)
    by (rewrite len_drop_le; lia).
  assert (Hcases : forall d1,
            r d1 = drop (Z.to_nat (n * 4)) (drop 54 input) ->
            after_palette hs = d1 ->
            n * 4 <= len (drop 54 input) ->
            (54 + n * 4 <= hdr_bfOffBits input /\
             hdr_bfOffBits input <= len input /\ fits hs ->
             Decode_alloc d1
             = Decode_bits
                 (set_r (drop (Z.to_nat (hdr_bfOffBits input)) input)
                    (alloc_state (after_palette hs))))
            /\ (~ (54 + n * 4 <= hdr_bfOffBits input /\
                   hdr_bfOffBits input <= len input /\ fits hs) ->
                forall img, fst (Decode_alloc d1) <> Ok img)).
  { intros d1 Hr1 Hd1 Hpl.
    destruct (after_palette_frame hs)
      as (Pw & Ph & _ & _ & Phs & Pbf & Psz & Poff & Php).
    rewrite Hd1 in *.
    assert (Hfits : fits d1 <-> fits hs)
      by (unfold fits; rewrite Pw, Ph, Php; reflexivity).
    assert (Hlr : len (r d1) = len input - 54 - n * 4)
      by (rewrite Hr1, len_drop_le; lia).
    destruct (Decode_alloc_cases d1) as [Hok Hko]; try lia.
    split.
    - intros (H1 & H2 & H3). rewrite Hok by (split; [tauto|lia]).
      f_equal. f_equal. rewrite Hr1. change 54%nat with (Z.to_nat 54).
      rewrite (drop_drop_Z input 54 (n * 4) (54 + n * 4)) by lia.
      apply drop_drop_Z; lia.
    - intros HR. apply Hko. intros [H1 H2]. apply HR.
      repeat split; [lia | lia | tauto]. }
  unfold Decode_palette. rewrite bind_gets, Fn. rewrite bind_if.
  destruct (n >? 0) eqn:En.
  - destruct (Z_le_gt_dec (n * 4) (len (drop 54 input))) as [Hpl|Hpl].
    + rewrite bind_eq.
      rewrite readPalette_eq by (rewrite ?Fsz, ?Fn, ?Fr; lia).
      apply Hcases; [| | exact Hpl].
      * destruct (palette_state_frame hs) as (_ & _ & _ & _ & _ & _ & _ & _
                                              & _ & ->).
        rewrite Fn, Fr. reflexivity.
      * unfold after_palette. rewrite Fn, En. reflexivity.
    + split; [intros (H1 & H2 & _); lia|].
      intros _. apply fst_bind_not_Ok. intros a.
      destruct (readPalette_short hs) as (e & ->); try discriminate;
        rewrite ?Fsz, ?Fn, ?Fr; lia.
  - rewrite bind_ret. assert (n = 0) as Hn0 by lia.
    apply Hcases.
    + rewrite Hn0. exact Fr.
    + unfold after_palette. rewrite Fn, En. reflexivity.
    + lia.
Qed.

(** ** The row loop inside [Decode] *)

Lemma is_paletted_depth bc :
  supported_depth bc ->
  (is_paletted bc = true /\ (bc = 1 \/ bc = 4 \/ bc = 8))
  \/ (is_paletted bc = false /\ bc = 24).
Proof.
  unfold supported_depth, is_paletted.
  intros [-> | [-> | [-> | ->]]]; [left | left | left | right]; split;
    try reflexivity; lia.
Qed.

Lemma palette_count_paletted bc clr :
  is_paletted bc = true -> 0 <= clr -> 0 < palette_count bc clr.
Proof.
  intros Hp Hc. unfold palette_count. rewrite Hp.
  destruct (clr =? 0) eqn:E; [|lia].
  apply Z.pow_pos_nonneg; [lia|]. unfold is_paletted in Hp. lia.
Qed.

Lemma pixel_state_pal input :
  is_paletted (hdr_bitCount input) = true ->
  0 <= hdr_clrUsed input ->
  pixel_state input
  = pst_of (img_rect input) (dest_palette input)
      (after_palette (header_state input))
      (replicate (Z.to_nat (img_width input * img_height input)) zero_byte)
      (pixel_data input)
  /\ dstPalNumEntries (after_palette (header_state input))
     = dest_palette_len input.
Proof.
  intros Hp Hclr.
  pose proof (palette_count_paletted _ _ Hp Hclr) as Hn.
  unfold pixel_state, alloc_state, after_palette, palette_state, pst_of,
    pstate, img_rect, dest_palette, dest_palette_len, src_palette_count,
    img_width, img_height, pixel_data.
  cbn [srcPalNumEntries dstHasPalette header_state].
  rewrite Hp.
  destruct (palette_count (hdr_bitCount input) (hdr_clrUsed input) >? 0)
    eqn:En; [|lia].
  cbn [dstHasPalette set_dstPalette set_dstPalNumEntries set_r header_state].
  rewrite Hp. split; reflexivity.
Qed.

Lemma pixel_state_rgb input :
  is_paletted (hdr_bitCount input) = false ->
  pixel_state input
  = nst_of (img_rect input) (after_palette (header_state input))
      (replicate (Z.to_nat (4 * img_width input * img_height input))
         zero_byte)
      (pixel_data input).
Proof.
  intros Hp.
  unfold pixel_state, alloc_state, after_palette, palette_state, nst_of,
    nstate, img_rect, img_width, img_height, pixel_data.
  cbn [srcPalNumEntries dstHasPalette header_state].
  rewrite Hp.
  destruct (palette_count (hdr_bitCount input) (hdr_clrUsed input) >? 0);
    cbn [dstHasPalette set_dstPalNumEntries set_r header_state];
    rewrite ?Hp; reflexivity.
Qed.

Lemma after_palette_header input :
  let d1 := after_palette (header_state input) in
  width d1 = img_width input /\ height d1 = img_height input /\
  bitCount d1 = hdr_bitCount input /\ isTopDown d1 = top_down input /\
  dstHasPalette d1 = is_paletted (hdr_bitCount input).
Proof.
  destruct (after_palette_frame (header_state input))
    as (H1 & H2 & H3 & H4 & _ & _ & _ & _ & H5).
  cbn zeta. rewrite H1, H2, H3, H4, H5. repeat split; reflexivity.
Qed.

Lemma bounded_search (f : nat -> bool) (m : nat) :
  (forall k, (k < m)%nat -> f k = true)
  \/ (exists k, (k < m)%nat /\ f k = false).
Proof.
  induction m as [|m [IH|(k & Hk & Hf)]].
  - left. intros k Hk. lia.
  - destruct (f m) eqn:E.
    + left. intros k Hk. destruct (Nat.eq_dec k m) as [->|Hne];
        [exact E | apply IH; lia].
    + right. exists m. split; [lia|exact E].
  - right. exists k. split; [lia|exact Hf].
Qed.

Lemma Decode_return_pal rc pal d0 pix data :
  dstHasPalette d0 = true ->
  Decode_return (pst_of rc pal d0 pix data)
  = (Ok (ImgPaletted (Some (Paletted.mk pix (width d0) rc pal))),
     pst_of rc pal d0 pix data).
Proof.
  intros H. unfold Decode_return. rewrite bind_gets.
  unfold pst_of, pstate at 1. cbn [dstHasPalette set_img_Paletted set_r].
  rewrite H. reflexivity.
Qed.

Lemma Decode_return_rgb rc d0 pix data :
  dstHasPalette d0 = false ->
  Decode_return (nst_of rc d0 pix data)
  = (Ok (ImgNRGBA (Some (NRGBA.mk pix (4 * width d0) rc))),
     nst_of rc d0 pix data).
Proof.
  intros H. unfold Decode_return. rewrite bind_gets.
  unfold nst_of, nstate at 1. cbn [dstHasPalette set_img_NRGBA set_r].
  rewrite H. reflexivity.
Qed.

Lemma Decode_bits_cases input :
  header_parse false input = inr (header_state input) ->
  supported_depth (hdr_bitCount input) ->
  (rows_present input /\ rows_valid input ->
   observe (Decode_bits (pixel_state input))
   = (Ok (decoded_image input),
      drop (Z.to_nat (img_height input) * Z.to_nat (file_stride input))
        (pixel_data input)))
  /\ (~ (rows_present input /\ rows_valid input) ->
      forall img, fst (Decode_bits (pixel_state input)) <> Ok img)
  /\ (forall k : nat,
        is_paletted (hdr_bitCount input) = true ->
        Z.of_nat k < img_height input ->
        (Z.of_nat k + 1) * file_stride input <= len (pixel_data input) ->
        row_valid (hdr_bitCount input) (Z.to_nat (img_width input))
          (dest_palette_len input) (file_row input k) = false ->
        fst (Decode_bits (pixel_state input))
        = Fail (FormatError "palette index out of range")).
Proof.
  intros Hhdr Hbc.
  destruct (header_ok_facts input Hhdr) as (Hl & Hw & Hh & Hc & Hn).
  destruct (header_fields_range input) as (_ & _ & Rbc & Rc & Rclr & Roff).
  destruct (after_palette_header input) as (Fw & Fh & Fbc & Ftd & Fhp).
  set (d1 := after_palette (header_state input)) in *.
  fold (img_width input) in Hw. fold (img_height input) in Hh.
  assert (Hwh : 0 <= img_width input * img_height input) by nia.
  assert (Hsp : 0 < file_stride input).
  { unfold file_stride.
    destruct (row_stride_quot (img_width input) (hdr_bitCount input) Hw)
      as [_ H]; [unfold supported_depth in Hbc; lia | lia]. }
  unfold Decode_bits, rows_present, rows_valid, file_row, decoded_image,
    decoded_pix.
  destruct (is_paletted_depth _ Hbc) as [[Hp Hbc3]|[Hp Hbc24]]; rewrite Hp.
  - destruct (pixel_state_pal input Hp ltac:(lia)) as [-> Hnp].
    fold d1 in Hnp |- *.
    set (pix0 := replicate _ zero_byte).
    assert (Hpix0 : len pix0 = height d1 * width d1)
      by (unfold pix0; rewrite len_replicate, Fw, Fh; lia).
    assert (Hw1 : 1 <= width d1 < 2 ^ 31) by (rewrite Fw; exact Hw).
    assert (Hh1 : 1 <= height d1) by (rewrite Fh; lia).
    assert (Hb1 : bitCount d1 = 1 \/ bitCount d1 = 4 \/ bitCount d1 = 8)
      by (rewrite Fbc; exact Hbc3).
    pose proof (readBits_pal_ok d1 (img_rect input) (dest_palette input)
                  Hw1 Hh1 Hb1 pix0 (pixel_data input) Hpix0) as Hok.
    pose proof (fun k => readBits_pal_bad d1 (img_rect input)
                  (dest_palette input) Hw1 Hh1 Hb1 pix0 (pixel_data input)
                  k Hpix0) as Hbad.
    pose proof (readBits_pal_short d1 (img_rect input) (dest_palette input)
                  Hw1 Hh1 Hb1 pix0 (pixel_data input) Hpix0) as Hshort.
    rewrite Fw, Fh, Fbc, Ftd, Hnp in Hok.
    rewrite Fw, Fh, Fbc, Hnp in Hbad.
    rewrite Fw, Fh, Fbc in Hshort.
    fold (file_stride input) in Hok, Hbad, Hshort.
    split; [|split].
    + intros [Hpres Hval]. rewrite bind_eq.
      rewrite Hok; [| exact Hpres | exact (Hval eq_refl)].
      rewrite Decode_return_pal by (rewrite Fhp; exact Hp).
      unfold observe. cbn [fst snd]. rewrite Fw.
      unfold pst_of, pstate. reflexivity.
    + intros Hnot. apply fst_bind_not_Ok. intros [].
      destruct (Z_le_gt_dec (img_height input * file_stride input)
                  (len (pixel_data input))) as [Hpres|Hpres].
      * destruct (bounded_search
                    (fun k => row_valid (hdr_bitCount input)
                                (Z.to_nat (img_width input))
                                (dest_palette_len input)
                                (src_row (file_stride input)
                                   (pixel_data input) k))
                    (Z.to_nat (img_height input))) as [Hall|(k & Hk & Hf)].
        -- exfalso. apply Hnot. split; [exact Hpres|]. intros _. exact Hall.
        -- rewrite (Hbad k); [discriminate | lia | nia | exact Hf].
      * apply Hshort. lia.
    + intros k _ Hk Hl' Hf. apply bind_Fail_fst.
      apply (Hbad k); [lia | exact Hl' | exact Hf].
  - rewrite (pixel_state_rgb input Hp). fold d1.
    set (pix0 := replicate _ zero_byte).
    assert (Hpix0 : len pix0 = height d1 * (4 * width d1))
      by (unfold pix0; rewrite len_replicate, Fw, Fh; lia).
    assert (Hw1 : 1 <= width d1 < 2 ^ 31) by (rewrite Fw; exact Hw).
    assert (Hh1 : 1 <= height d1) by (rewrite Fh; lia).
    assert (Hb1 : bitCount d1 = 24) by (rewrite Fbc; exact Hbc24).
    pose proof (readBits_rgb_ok d1 (img_rect input)
                  Hw1 Hh1 Hb1 pix0 (pixel_data input) Hpix0) as Hok.
    pose proof (readBits_rgb_short d1 (img_rect input)
                  Hw1 Hh1 Hb1 pix0 (pixel_data input) Hpix0) as Hshort.
    rewrite Fw, Fh, Ftd in Hok. rewrite Fw, Fh in Hshort.
    unfold file_stride. rewrite Hbc24.
    split; [|split].
    + intros [Hpres Hval]. rewrite bind_eq.
      rewrite Hok by exact Hpres.
      rewrite Decode_return_rgb by (rewrite Fhp; exact Hp).
      unfold observe. cbn [fst snd]. rewrite Fw.
      unfold nst_of, nstate. reflexivity.
    + intros Hnot. apply fst_bind_not_Ok. intros [].
      apply Hshort.
      destruct (Z_le_gt_dec (img_height input * row_stride (img_width input) 24)
                  (len (pixel_data input))) as [Hpres|Hpres]; [|lia].
      exfalso. apply Hnot. split; [exact Hpres|]. intros H; discriminate H.
    + intros k H. discriminate H.
Qed.

(** ** [Decode] characterized *)

Lemma reach_bits_dec input : reach_bits input \/ ~ reach_bits input.
Proof.
  unfold reach_bits, fits. destruct (dstHasPalette (header_state input)); lia.
Qed.

Lemma rows_dec input :
  (rows_present input /\ rows_valid input)
  \/ ~ (rows_present input /\ rows_valid input).
Proof.
  unfold rows_present, rows_valid.
  destruct (Z_le_gt_dec (img_height input * file_stride input)
              (len (pixel_data input))) as [Hp|Hp]; [|right; lia].
  destruct (is_paletted (hdr_bitCount input)) eqn:E.
  - destruct (bounded_search
                (fun k => row_valid (hdr_bitCount input)
                            (Z.to_nat (img_width input))
                            (dest_palette_len input) (file_row input k))
                (Z.to_nat (img_height input))) as [Hall|(k & Hk & Hf)].
    + left. split; [exact Hp|]. intros _. exact Hall.
    + right. intros [_ Hv]. specialize (Hv eq_refl k Hk). congruence.
  - left. split; [exact Hp|]. intros H. discriminate H.
Qed.

(** [Decode] succeeds exactly on the decodable files, and then returns
    [decoded_image] and leaves the bytes after the last row unread. *)
Lemma Decode_Ok_iff input img rest :
  Decode input = (Ok img, rest)
  <-> decodable input /\ img = decoded_image input /\
      rest = drop (Z.to_nat (img_height input)
                   * Z.to_nat (file_stride input)) (pixel_data input).
Proof.
  split.
  - intros H. destruct (Decode_Ok_header _ _ _ H) as (Hhdr & Hc & Hbc & Hp).
    destruct (Decode_palette_cases input Hhdr Hc) as [Hr1 Hr2].
    destruct (reach_bits_dec input) as [Hr|Hr].
    2:{ exfalso. apply (Hr2 Hr img). unfold observe in Hp. congruence. }
    rewrite (Hr1 Hr) in Hp.
    destruct (Decode_bits_cases input Hhdr Hbc) as (Hb1 & Hb2 & _).
    destruct (rows_dec input) as [Hrows|Hrows].
    2:{ exfalso. apply (Hb2 Hrows img). unfold observe in Hp. congruence. }
    rewrite (Hb1 Hrows) in Hp. injection Hp as <- <-.
    split; [|split; reflexivity].
    destruct Hrows as [Hrp Hrv]. unfold decodable.
    split; [exact Hhdr|]. split; [exact Hc|]. split; [exact Hbc|].
    split; [exact Hr|]. split; [exact Hrp|exact Hrv].
  - intros ((Hhdr & Hc & Hbc & Hr & Hrows) & -> & ->).
    rewrite Decode_eq, Hhdr.
    rewrite Decode_checks_ok
      by (cbn [biCompression bitCount header_state]; assumption).
    destruct (Decode_palette_cases input Hhdr Hc) as [Hr1 _].
    rewrite (Hr1 Hr).
    destruct (Decode_bits_cases input Hhdr Hbc) as (Hb1 & _ & _).
    apply Hb1. exact Hrows.
Qed.

(** ** C2: width and height *)

Lemma decoded_image_bounds input :
  Bounds (decoded_image input) = Some (img_rect input) /\
  is_paletted_image (decoded_image input) = is_paletted (hdr_bitCount input).
Proof.
  unfold decoded_image. destruct (is_paletted (hdr_bitCount input));
    split; reflexivity.
Qed.

(** C2.  For an input with the 40-byte header, the width and the height are
    the little-endian signed 32-bit fields at offsets 18 and 22
    ([hdr_width], [hdr_height]).  A width below 1 fails with the format
    error "bad width N" naming it; a negative height sets [isTopDown] and is
    negated; a height whose magnitude is below 1 (that is, 0) fails with
    "bad height 0".  Hence every successful [Decode] and [DecodeConfig]
    result has width and height at least 1, the ones of the header. *)
Theorem C2_width_height :
  (forall (input : list byte) (configOnly : bool),
     54 <= len input -> has_signature input = true -> hdr_size input = 40 ->
     (hdr_width input < 1 ->
      fst (readHeaders configOnly (new_decoder input))
      = Fail (FormatError
                (String.append "bad width " (fmt_d (hdr_width input)))))
     /\ (1 <= hdr_width input -> Z.abs (hdr_height input) < 1 ->
         fst (readHeaders configOnly (new_decoder input))
         = Fail (FormatError
                   (String.append "bad height "
                      (fmt_d (Z.abs (hdr_height input))))))
     /\ (forall d, readHeaders configOnly (new_decoder input) = (Ok tt, d) ->
         width d = hdr_width input /\ 1 <= width d /\
         height d = Z.abs (hdr_height input) /\ 1 <= height d /\
         isTopDown d = (hdr_height input <? 0) /\
         (hdr_height input < 0 ->
          isTopDown d = true /\ height d = - hdr_height input))
     /\ (1 <= hdr_width input -> 1 <= Z.abs (hdr_height input) ->
         exists d, readHeaders true (new_decoder input) = (Ok tt, d)))
  /\ (forall (input : list byte) img rest,
        Decode input = (Ok img, rest) ->
        exists rc, Bounds img = Some rc /\
          Dx rc = hdr_width input /\ Dy rc = Z.abs (hdr_height input) /\
          1 <= Dx rc /\ 1 <= Dy rc)
  /\ (forall (input : list byte) cfg rest,
        DecodeConfig input = (Ok cfg, rest) ->
        Width cfg = hdr_width input /\
        Height cfg = Z.abs (hdr_height input) /\
        1 <= Width cfg /\ 1 <= Height cfg).
Proof.
  split; [|split].
  - intros input c Hl Hsig Hs.
    pose proof (readHeaders_char c input) as H.
    unfold header_parse in H. rewrite Hsig, Hs in H. cbn [negb] in H.
    destruct (len input =? 0) eqn:E1; [lia|].
    destruct (len input <? 18) eqn:E2; [lia|].
    change (40 =? 40) with true in H. cbn [negb] in H.
    destruct (len input =? 18) eqn:E3; [lia|].
    destruct (len input <? 54) eqn:E4; [lia|].
    destruct (hdr_width input <? 1) eqn:E5.
    { destruct H as [H _]. split; [intros _; exact H|].
      split; [intros; lia|].
      split; [intros d Hd; rewrite Hd in H; discriminate H | intros; lia]. }
    destruct (hdr_height input =? 0) eqn:E6.
    { destruct H as [H _]. split; [intros; lia|]. split.
      - intros _ _. rewrite H.
        replace (Z.abs (hdr_height input)) with 0 by lia. reflexivity.
      - split; [intros d Hd; rewrite Hd in H; discriminate H
               | intros; lia]. }
    assert (Hfacts : forall d,
              d = config_state input \/ d = header_state input ->
              width d = hdr_width input /\ 1 <= width d /\
              height d = Z.abs (hdr_height input) /\ 1 <= height d /\
              isTopDown d = (hdr_height input <? 0) /\
              (hdr_height input < 0 ->
               isTopDown d = true /\ height d = - hdr_height input)).
    { intros d [-> | ->];
        cbn [width height isTopDown config_state header_state];
        (repeat split; try lia; try reflexivity);
        try (intros Hneg; destruct (hdr_height input <? 0) eqn:E;
             [reflexivity|lia]). }
    split; [lia|]. split; [lia|]. split.
    + intros d Hd. apply Hfacts. destruct c.
      * left. rewrite Hd in H. injection H as ->. reflexivity.
      * destruct (hdr_compression input >? 3);
          [destruct H as [H _]; rewrite Hd in H; discriminate H|].
        destruct (hdr_clrUsed input >? 10000);
          [destruct H as [H _]; rewrite Hd in H; discriminate H|].
        right. rewrite Hd in H. injection H as ->. reflexivity.
    + intros _ _. exists (config_state input).
      apply readHeaders_config_ok; [assumption | assumption | assumption
                                    | lia | lia].
  - intros input img rest H.
    apply Decode_Ok_iff in H. destruct H as ((Hhdr & _) & -> & _).
    destruct (header_ok_facts input Hhdr) as (_ & Hw & Hh & _).
    exists (img_rect input). split; [apply decoded_image_bounds|].
    unfold img_rect, Dx, Dy, img_width, img_height.
    cbn [MaxX MinX MaxY MinY]. lia.
  - intros input cfg rest H. rewrite DecodeConfig_eq in H.
    destruct (header_parse true input) as [[e rs]|d] eqn:E; [discriminate|].
    destruct (header_parse_inv _ _ _ E) as (_ & _ & _ & Hw & Hh & Hd & _).
    rewrite (Hd eq_refl), Config_return_eq in H.
    injection H as <- _.
    cbn [Width Height width height config_state]. lia.
Qed.

Lemma C2_width_height_witness :
  fst (readHeaders true (new_decoder negative_width))
  = Fail (FormatError "bad width -5")
  /\ fst (readHeaders false (new_decoder zero_height))
     = Fail (FormatError "bad height 0")
  /\ (exists rc, Bounds (decoded_image rgb_2x2_top_down) = Some rc /\
        Dx rc = 2 /\ Dy rc = 2).
Proof.
  split; [|split].
  - exact (proj1 (proj1 C2_width_height negative_width true
             ltac:(vm_compute; congruence) eq_refl eq_refl)
             ltac:(vm_compute; reflexivity)).
  - exact (proj1 (proj2 (proj1 C2_width_height zero_height false
             ltac:(vm_compute; congruence) eq_refl eq_refl))
             ltac:(vm_compute; congruence) ltac:(vm_compute; reflexivity)).
  - destruct (proj1 (proj2 C2_width_height) rgb_2x2_top_down
                (decoded_image rgb_2x2_top_down) (bytes_of [99])
                ltac:(vm_compute; reflexivity))
      as (rc & H1 & H2 & H3 & _).
    exists rc. split; [exact H1|]. split; [exact H2|exact H3].
Defined.

(** ** C8: [DecodeConfig] agrees with [Decode] *)

(** C8.  On every input on which [Decode] succeeds, [DecodeConfig] succeeds
    too, returns the width and height of the bounds of the decoded image
    (at offset 0, 0), and returns the palette color model exactly when the
    decoded image is paletted. *)
Theorem C8_config_agrees_with_decode (input : list byte) img rest :
  Decode input = (Ok img, rest) ->
  exists cfg rest' rc,
    DecodeConfig input = (Ok cfg, rest') /\
    Bounds img = Some rc /\ MinX rc = 0 /\ MinY rc = 0 /\
    Width cfg = Dx rc /\ Height cfg = Dy rc /\
    is_palette_model (ColorModel_ cfg) = is_paletted_image img.
Proof.
  intros H. apply Decode_Ok_iff in H. destruct H as ((Hhdr & _) & -> & _).
  destruct (header_parse_inv _ _ _ Hhdr) as (Hl & Hsig & Hs & Hw & Hh & _).
  destruct (decoded_image_bounds input) as [Hb Hp].
  exists (mkConfig (if is_paletted (hdr_bitCount input)
                    then PaletteModel [] else NRGBAModel)
            (hdr_width input) (Z.abs (hdr_height input))),
    (drop 54 input), (img_rect input).
  split.
  - rewrite DecodeConfig_eq, header_parse_config_ok by assumption.
    rewrite Config_return_eq. reflexivity.
  - split; [exact Hb|]. rewrite Hp.
    unfold img_rect, Dx, Dy, img_width, img_height.
    cbn [MaxX MinX MaxY MinY Width Height ColorModel_].
    repeat split; try lia.
    destruct (is_paletted (hdr_bitCount input)); reflexivity.
Qed.

Lemma C8_config_agrees_with_decode_witness :
  exists cfg rest' rc,
    DecodeConfig mono_3x2 = (Ok cfg, rest') /\
    Bounds (decoded_image mono_3x2) = Some rc /\ MinX rc = 0 /\ MinY rc = 0 /\
    Width cfg = Dx rc /\ Height cfg = Dy rc /\
    is_palette_model (ColorModel_ cfg)
    = is_paletted_image (decoded_image mono_3x2).
Proof.
  exact (C8_config_agrees_with_decode mono_3x2 (decoded_image mono_3x2) []
           ltac:(vm_compute; reflexivity)).
Defined.

(** ** C4: the palette *)

Lemma get_byte_take (l : list byte) (n : nat) i :
  0 <= i < Z.of_nat n -> get_byte (take n l) i = get_byte l i.
Proof.
  intros H. unfold get_byte. rewrite lookup_take_lt by lia. reflexivity.
Qed.

Lemma build_palette_lookup buf (n i : nat) :
  (i < n)%nat -> build_palette buf n !! i = Some (palette_entry buf i).
Proof.
  intros H. unfold build_palette. rewrite list_lookup_fmap.
  rewrite lookup_seq_lt by exact H. reflexivity.
Qed.

Lemma readHeaders_full_inv input d :
  readHeaders false (new_decoder input) = (Ok tt, d) ->
  header_parse false input = inr (header_state input) /\
  d = header_state input.
Proof.
  intros H. pose proof (readHeaders_char false input) as Hc.
  rewrite H in Hc.
  destruct (header_parse false input) as [[e rs]|d'] eqn:E;
    [destruct Hc as [Hc _]; discriminate Hc|].
  cbn [agrees] in Hc. injection Hc as <-.
  destruct (header_parse_inv _ _ _ E) as (_ & _ & _ & _ & _ & _ & Hf).
  destruct (Hf eq_refl) as (_ & _ & ->). split; reflexivity.
Qed.

(** C4.  After a successful full-mode header stage with bit depth 1, 4 or
    8, the source palette count [n] is positive; [readPalette], given its
    [4 n] bytes, builds a destination palette of length min(n, 256) whose
    entry [i] is the color (R, G, B, 255) of the source bytes (B, G, R,
    reserved) at offsets 4i .. 4i+3 of the stream: the reserved byte is
    dropped and alpha is 255 whatever it holds, so (10, 20, 30, X) yields
    (30, 20, 10, 255).  This palette is the one of the image that a
    successful [Decode] returns. *)
Theorem C4_palette_reorder (input : list byte) (d : decoder) :
  readHeaders false (new_decoder input) = (Ok tt, d) ->
  bitCount d = 1 \/ bitCount d = 4 \/ bitCount d = 8 ->
  0 < srcPalNumEntries d /\
  (srcPalNumEntries d * 4 <= len (r d) ->
   exists d', readPalette d = (Ok tt, d') /\
     dstPalNumEntries d' = Z.min (srcPalNumEntries d) 256 /\
     len (dstPalette d') = Z.min (srcPalNumEntries d) 256 /\
     (forall i, 0 <= i < Z.min (srcPalNumEntries d) 256 ->
        dstPalette d' !! Z.to_nat i
        = Some (Some (mkRGBA (get_byte (r d) (i * 4 + 2))
                        (get_byte (r d) (i * 4 + 1))
                        (get_byte (r d) (i * 4 + 0)) (uint8 255)))) /\
     (forall i (X : byte), 0 <= i < Z.min (srcPalNumEntries d) 256 ->
        get_byte (r d) (i * 4 + 0) = uint8 10 ->
        get_byte (r d) (i * 4 + 1) = uint8 20 ->
        get_byte (r d) (i * 4 + 2) = uint8 30 ->
        get_byte (r d) (i * 4 + 3) = X ->
        dstPalette d' !! Z.to_nat i
        = Some (Some (mkRGBA (uint8 30) (uint8 20) (uint8 10) (uint8 255))))
     /\ (forall p rest,
           Decode input = (Ok (ImgPaletted (Some p)), rest) ->
           Paletted.Palette p = dstPalette d')).
Proof.
  intros Hh Hbc. destruct (readHeaders_full_inv _ _ Hh) as [Hhdr ->].
  destruct (header_ok_facts input Hhdr) as (Hl & Hw & Hht & Hc & Hn).
  destruct (header_fields_range input) as (_ & _ & Rbc & Rc & Rclr & Roff).
  cbn [bitCount header_state] in Hbc.
  assert (Hp : is_paletted (hdr_bitCount input) = true)
    by (unfold is_paletted; lia).
  pose proof (palette_count_paletted (hdr_bitCount input)
                (hdr_clrUsed input) Hp ltac:(lia)) as Hpos.
  cbn [srcPalNumEntries r header_state].
  set (n := palette_count (hdr_bitCount input) (hdr_clrUsed input)) in *.
  split; [exact Hpos|]. intros Hlen.
  exists (palette_state (header_state input)).
  assert (Hpal : dstPalette (palette_state (header_state input))
                 = build_palette (take (Z.to_nat (n * 4)) (drop 54 input))
                     (Z.to_nat (Z.min n 256))
                 /\ dstPalNumEntries (palette_state (header_state input))
                    = Z.min n 256).
  { unfold palette_state. cbn [dstHasPalette header_state]. rewrite Hp.
    split; reflexivity. }
  destruct Hpal as [Hpal Hnp].
  assert (Hentry : forall i, 0 <= i < Z.min n 256 ->
            dstPalette (palette_state (header_state input)) !! Z.to_nat i
            = Some (Some (mkRGBA (get_byte (drop 54 input) (i * 4 + 2))
                            (get_byte (drop 54 input) (i * 4 + 1))
                            (get_byte (drop 54 input) (i * 4 + 0))
                            (uint8 255)))).
  { intros i Hi. rewrite Hpal, build_palette_lookup by lia.
    unfold palette_entry. rewrite Z2Nat.id by lia.
    rewrite !get_byte_take by lia. reflexivity. }
  split; [apply readPalette_eq; cbn [srcPalSizeInBytes srcPalNumEntries
            srcPalBytesPerEntry r header_state]; fold n; lia|].
  split; [exact Hnp|]. split.
  { rewrite Hpal. unfold build_palette, len.
    rewrite length_map, length_seq. lia. }
  split; [exact Hentry|]. split.
  - intros i X Hi HB HG HR _. rewrite Hentry by exact Hi.
    rewrite HB, HG, HR. reflexivity.
  - intros p rest Hd. apply Decode_Ok_iff in Hd.
    destruct Hd as (_ & Himg & _). unfold decoded_image in Himg.
    rewrite Hp in Himg. injection Himg as ->.
    cbn [Paletted.Palette]. rewrite Hpal. reflexivity.
Qed.

Lemma C4_palette_reorder_witness :
  exists d',
    readPalette (header_state mono_3x2) = (Ok tt, d') /\
    len (dstPalette d') = 2 /\
    dstPalette d' !! 0%nat
    = Some (Some (mkRGBA (uint8 30) (uint8 20) (uint8 10) (uint8 255))) /\
    dstPalette d' !! 1%nat
    = Some (Some (mkRGBA (uint8 60) (uint8 50) (uint8 40) (uint8 255))).
Proof.
  destruct (proj2 (C4_palette_reorder mono_3x2 (header_state mono_3x2)
                     ltac:(vm_compute; reflexivity)
                     ltac:(left; reflexivity))
              ltac:(vm_compute; congruence))
    as (d' & H1 & _ & H2 & H3 & H4 & _).
  exists d'. split; [exact H1|]. split; [exact H2|]. split.
  - apply (H4 0 (uint8 0)); [vm_compute; split; congruence | reflexivity
                            | reflexivity | reflexivity | reflexivity].
  - apply (H3 1). vm_compute. split; congruence.
Defined.

(** ** C9: palette indices are in range *)

Lemma fst_observe {A} (x : result A * decoder) : fst (observe x) = fst x.
Proof. reflexivity. Qed.

Lemma forallb_false_intro {A} (f : A -> bool) (l : list A) x :
  In x l -> f x = false -> forallb f l = false.
Proof.
  intros Hin Hf. destruct (forallb f l) eqn:E; [|reflexivity].
  rewrite forallb_forall in E. rewrite (E x Hin) in Hf. discriminate.
Qed.

Lemma row_valid_cells bc w np buf :
  row_valid bc w np buf = true ->
  Forall (fun v => u8 v < np) (decode_row_pal bc w buf).
Proof.
  unfold row_valid, decode_row_pal. intros H.
  rewrite forallb_forall in H. apply Forall_forall. intros v Hv.
  apply list_elem_of_In, in_map_iff in Hv. destruct Hv as (i & <- & Hi).
  rewrite u8_uint8 by apply pixel_index_range.
  apply Z.ltb_lt, H, Hi.
Qed.

(** C9.  In a paletted image returned by a successful [Decode], every
    stored pixel index is below the length of the returned palette.  And
    when a file that gets to its pixel rows (its pixel-data offset lies at
    or after the palette and within the file, and its pixel buffer is within
    the allocation limit) holds, in a row [k] that is wholly present, a
    pixel [i] whose index is at or above the destination
    palette length min(n, 256), [Decode] fails with the format error
    "palette index out of range": the index is never clamped. *)
Theorem C9_palette_index_in_range :
  (forall (input : list byte) p rest,
     Decode input = (Ok (ImgPaletted (Some p)), rest) ->
     Forall (fun v => u8 v < len (Paletted.Palette p)) (Paletted.Pix p))
  /\ (forall (input : list byte) (d : decoder) (k i : nat),
        readHeaders false (new_decoder input) = (Ok tt, d) ->
        biCompression d = 0 ->
        bitCount d = 1 \/ bitCount d = 4 \/ bitCount d = 8 ->
        reach_bits input ->
        Z.of_nat k < height d -> Z.of_nat i < width d ->
        (Z.of_nat k + 1) * row_stride (width d) (bitCount d)
        <= len (pixel_data input) ->
        Z.min (srcPalNumEntries d) 256
        <= pixel_index (bitCount d)
             (src_row (row_stride (width d) (bitCount d))
                (pixel_data input) k) (Z.of_nat i) ->
        fst (Decode input)
        = Fail (FormatError "palette index out of range")).
Proof.
  split.
  - intros input p rest H. apply Decode_Ok_iff in H.
    destruct H as ((Hhdr & Hc & Hbc & Hr & Hpres & Hval) & Himg & _).
    destruct (header_ok_facts input Hhdr) as (_ & Hw & Hh & _ & Hn).
    destruct (header_fields_range input) as (_ & _ & _ & _ & Rclr & _).
    unfold decoded_image in Himg.
    destruct (is_paletted (hdr_bitCount input)) eqn:Hp; [|discriminate].
    injection Himg as ->. cbn [Paletted.Pix Paletted.Palette].
    pose proof (palette_count_paletted (hdr_bitCount input)
                  (hdr_clrUsed input) Hp ltac:(lia)) as Hpos.
    assert (Hlen : len (dest_palette input) = dest_palette_len input).
    { unfold dest_palette, build_palette, len.
      rewrite length_map, length_seq.
      unfold dest_palette_len, src_palette_count. lia. }
    rewrite Hlen. unfold decoded_pix. rewrite Hp.
    apply rows_fold_Forall.
    + apply Forall_replicate. change (u8 zero_byte) with 0.
      unfold dest_palette_len, src_palette_count. lia.
    + intros k Hk. apply row_valid_cells. apply (Hval Hp k Hk).
  - intros input d k i Hh Hc Hbc Hr Hk Hi Hl Hbad.
    destruct (readHeaders_full_inv _ _ Hh) as [Hhdr ->].
    cbn [biCompression bitCount height width srcPalNumEntries header_state]
      in Hc, Hbc, Hk, Hi, Hl, Hbad.
    assert (Hsd : supported_depth (hdr_bitCount input))
      by (unfold supported_depth; lia).
    assert (Hp : is_paletted (hdr_bitCount input) = true)
      by (unfold is_paletted; lia).
    rewrite Decode_eq, Hhdr.
    rewrite Decode_checks_ok
      by (cbn [biCompression bitCount header_state]; assumption).
    destruct (Decode_palette_cases input Hhdr Hc) as [Hr1 _].
    rewrite (Hr1 Hr).
    destruct (Decode_bits_cases input Hhdr Hsd) as (_ & _ & Hb).
    rewrite fst_observe.
    apply (Hb k Hp Hk Hl).
    unfold row_valid.
    apply (forallb_false_intro _ _ i).
    + apply in_seq. unfold img_width. lia.
    + apply Z.ltb_ge. exact Hbad.
Qed.

Lemma C9_palette_index_in_range_witness :
  Forall (fun v => u8 v < 2) (bytes_of [0; 1; 0; 1; 0; 1])
  /\ fst (Decode index_out_of_range)
     = Fail (FormatError "palette index out of range").
Proof.
  split.
  - exact (proj1 C9_palette_index_in_range mono_3x2
             (Paletted.mk (bytes_of [0; 1; 0; 1; 0; 1]) 3 (mkRect 0 0 3 2)
                [Some (mkRGBA (uint8 30) (uint8 20) (uint8 10) (uint8 255));
                 Some (mkRGBA (uint8 60) (uint8 50) (uint8 40) (uint8 255))])
             [] ltac:(vm_compute; reflexivity)).
  - exact (proj2 C9_palette_index_in_range index_out_of_range
             (header_state index_out_of_range) 0%nat 0%nat
             ltac:(vm_compute; reflexivity) eq_refl
             ltac:(left; reflexivity)
             ltac:(vm_compute; repeat split; congruence)
             ltac:(vm_compute; reflexivity) ltac:(vm_compute; reflexivity)
             ltac:(vm_compute; congruence) ltac:(vm_compute; congruence)).
Defined.

(** ** C3: the order of the rows *)

Section RowsOfFold.
Variables (stride cells h : Z) (td : bool).
Variable decode : list byte -> list byte.
Hypothesis Hcells : 0 < cells.
Hypothesis Hdec : forall buf, len (decode buf) = cells.
Variables (pix data : list byte).
Hypothesis Hh : 0 <= h.
Hypothesis Hpix : len pix = h * cells.

Let final := rows_fold decode td h cells stride (Z.to_nat h) 0 pix data.

Lemma rows_fold_cell (k : nat) c :
  Z.of_nat k < h -> 0 <= c < cells ->
  final !! Z.to_nat (dst_row td h (Z.of_nat k) * cells + c)
  = decode (src_row stride data k) !! Z.to_nat c.
Proof.
  intros Hk Hc. unfold final.
  apply (rows_fold_in stride cells h td decode ltac:(lia) Hdec
           (Z.to_nat h) 0%nat pix data k c); lia.
Qed.

Lemma rows_fold_final_len : len final = h * cells.
Proof.
  unfold final. rewrite rows_fold_len; [exact Hpix | lia | exact Hdec
                                        | lia | exact Hpix].
Qed.

Lemma rows_fold_row (k : nat) :
  Z.of_nat k < h ->
  take (Z.to_nat cells)
    (drop (Z.to_nat (dst_row td h (Z.of_nat k) * cells)) final)
  = decode (src_row stride data k).
Proof.
  intros Hk. pose proof (dst_row_bounds h td (Z.of_nat k) ltac:(lia)) as Hd.
  apply list_eq. intros c.
  destruct (Nat.lt_ge_cases c (Z.to_nat cells)) as [Hc|Hc].
  - rewrite lookup_take_lt by exact Hc. rewrite lookup_drop.
    replace (Z.to_nat (dst_row td h (Z.of_nat k) * cells) + c)%nat
      with (Z.to_nat (dst_row td h (Z.of_nat k) * cells + Z.of_nat c))
      by nia.
    rewrite rows_fold_cell by lia. rewrite Nat2Z.id. reflexivity.
  - rewrite lookup_take_ge by exact Hc. symmetry.
    apply lookup_ge_None. pose proof (Hdec (src_row stride data k)) as Hl.
    unfold len in Hl. lia.
Qed.
End RowsOfFold.

Lemma rows_fold_reverse stride cells h td decode pix data data' :
  0 < cells -> (forall buf, len (decode buf) = cells) ->
  0 <= h -> len pix = h * cells ->
  (forall k : nat, Z.of_nat k < h ->
     src_row stride data' k = src_row stride data (Z.to_nat (h - 1) - k)) ->
  rows_fold decode (negb td) h cells stride (Z.to_nat h) 0 pix data'
  = rows_fold decode td h cells stride (Z.to_nat h) 0 pix data.
Proof.
  intros Hcells Hdec Hh Hpix Hrows. apply list_eq. intros p.
  pose proof (rows_fold_final_len stride cells h td decode Hcells Hdec
                pix data Hh Hpix) as L1.
  pose proof (rows_fold_final_len stride cells h (negb td) decode Hcells Hdec
                pix data' Hh Hpix) as L2.
  destruct (Z_lt_ge_dec (Z.of_nat p) (h * cells)) as [Hp|Hp].
  2:{ rewrite !(proj2 (lookup_ge_None _ _)); [reflexivity | |];
        unfold len in *; lia. }
  set (q := Z.of_nat p / cells). set (c := Z.of_nat p mod cells).
  assert (Hqc : Z.of_nat p = q * cells + c)
    by (unfold q, c; rewrite Z.mul_comm; apply Z.div_mod; lia).
  assert (Hc : 0 <= c < cells) by (apply Z.mod_pos_bound; lia).
  assert (Hq : 0 <= q < h).
  { split; [apply Z.div_pos; lia|].
    apply Z.div_lt_upper_bound; [lia|]. lia. }
  set (k := Z.to_nat (if td then q else h - 1 - q)).
  set (k' := (Z.to_nat (h - 1) - k)%nat).
  assert (Hk : Z.of_nat k < h) by (unfold k; destruct td; lia).
  assert (Hk' : Z.of_nat k' < h) by (unfold k'; lia).
  assert (Hd : dst_row td h (Z.of_nat k) = q)
    by (unfold dst_row, k; destruct td; lia).
  assert (Hd' : dst_row (negb td) h (Z.of_nat k') = q)
    by (unfold dst_row, k', k; destruct td; cbn [negb]; lia).
  replace p with (Z.to_nat (q * cells + c)) by lia.
  rewrite <- Hd at 2. rewrite <- Hd'.
  rewrite (rows_fold_cell stride cells h td decode Hcells Hdec pix data
             Hpix k c Hk Hc).
  rewrite (rows_fold_cell stride cells h (negb td) decode Hcells Hdec
             pix data' Hpix k' c Hk' Hc).
  rewrite (Hrows k' Hk'). do 3 f_equal. unfold k'. lia.
Qed.

Lemma src_row_concat stride (rows : list (list byte)) tail : forall k,
  0 <= stride ->
  Forall (fun row => len row = stride) rows ->
  (k < length rows)%nat ->
  src_row stride (concat rows ++ tail) k = nth k rows [].
Proof.
  induction rows as [|row rows IH]; intros k Hs Hall Hk;
    [cbn [length] in Hk; lia|].
  apply Forall_cons in Hall. destruct Hall as [Hrow Hall].
  assert (Hlr : length row = Z.to_nat stride) by (unfold len in Hrow; lia).
  cbn [concat]. rewrite <- app_assoc.
  destruct k as [|k].
  - unfold src_row. cbn [Nat.mul drop nth]. rewrite <- Hlr.
    apply take_app_length.
  - cbn [nth]. rewrite <- src_row_drop. rewrite <- Hlr.
    rewrite drop_app_length.
    apply IH; [exact Hs | exact Hall | cbn [length] in Hk; lia].
Qed.

Lemma len_concat_uniform (rows : list (list byte)) stride :
  Forall (fun row => len row = stride) rows ->
  len (concat rows) = Z.of_nat (length rows) * stride.
Proof.
  induction rows as [|row rows IH]; intros H; [reflexivity|].
  apply Forall_cons in H. destruct H as [Hrow Hall].
  cbn [concat length]. rewrite len_app, Hrow, IH by exact Hall. lia.
Qed.

Lemma decoded_image_row input (k : nat) :
  header_parse false input = inr (header_state input) ->
  Z.of_nat k < img_height input ->
  output_row (decoded_image input)
    (if top_down input then Z.of_nat k
     else img_height input - 1 - Z.of_nat k)
  = decode_file_row input k.
Proof.
  intros Hhdr Hk.
  destruct (header_ok_facts input Hhdr) as (_ & Hw & Hh & _).
  fold (img_width input) in Hw. fold (img_height input) in Hh.
  replace (if top_down input then Z.of_nat k
           else img_height input - 1 - Z.of_nat k)
    with (dst_row (top_down input) (img_height input) (Z.of_nat k))
    by (unfold dst_row; destruct (top_down input); lia).
  unfold output_row, decode_file_row, decoded_image, decoded_pix, file_row.
  destruct (is_paletted (hdr_bitCount input));
    cbn [image_stride image_pix Paletted.Stride Paletted.Pix
         NRGBA.Stride NRGBA.Pix].
  - apply (rows_fold_row (file_stride input) (img_width input)
             (img_height input) (top_down input)); try lia.
    + intros buf. unfold decode_row_pal, len.
      rewrite length_map, length_seq. lia.
    + rewrite len_replicate. lia.
  - apply (rows_fold_row (file_stride input) (4 * img_width input)
             (img_height input) (top_down input)); try lia.
    + intros buf. unfold decode_row_24, len.
      rewrite length_flat_map_rgba, length_seq. lia.
    + rewrite len_replicate. lia.
Qed.

Section ReversedRows.
Variables (pre pre' : list byte) (rows : list (list byte)) (tail : list byte).
Let f := pre ++ concat rows ++ tail.
Let f' := pre' ++ concat (rev rows) ++ tail.
Hypothesis Hoff : len pre = hdr_bfOffBits f.
Hypothesis Hlen : length pre' = length pre.
Hypothesis Hsame :
  forall j, ~ (22 <= j < 26)%nat -> pre !! j = pre' !! j.
Hypothesis Hneg : hdr_height f' = - hdr_height f.
Hypothesis Hrows :
  Forall (fun row => len row = row_stride (hdr_width f) (hdr_bitCount f)) rows.
Hypothesis Hcount : Z.of_nat (length rows) = Z.abs (hdr_height f).
Hypothesis Hdec : decodable f.

Lemma rev_pre_len : 54 <= len pre.
Proof.
  destruct Hdec as (Hhdr & _ & _ & (Hr & _) & _).
  destruct (header_ok_facts f Hhdr) as (_ & _ & _ & _ & Hn). lia.
Qed.

Lemma rev_byte_at i :
  0 <= i < len pre -> ~ (22 <= i < 26) -> byte_at f' i = byte_at f i.
Proof.
  intros Hi Hn. unfold byte_at, f, f', len in *.
  rewrite !lookup_app_l by lia. rewrite Hsame by lia. reflexivity.
Qed.

Lemma rev_le32_at i :
  0 <= i -> i + 4 <= len pre -> i + 4 <= 22 \/ 26 <= i ->
  le32_at f' i = le32_at f i.
Proof.
  intros H0 H1 H2. unfold le32_at. rewrite !rev_byte_at by lia. reflexivity.
Qed.

Lemma rev_fields :
  has_signature f' = has_signature f /\ hdr_size f' = hdr_size f /\
  hdr_width f' = hdr_width f /\ hdr_bitCount f' = hdr_bitCount f /\
  hdr_compression f' = hdr_compression f /\
  hdr_clrUsed f' = hdr_clrUsed f /\ hdr_bfOffBits f' = hdr_bfOffBits f.
Proof.
  pose proof rev_pre_len as Hp.
  unfold has_signature, hdr_size, hdr_width, hdr_bitCount, hdr_compression,
    hdr_clrUsed, hdr_bfOffBits, le16_at.
  rewrite !rev_le32_at by lia. rewrite !rev_byte_at by lia.
  repeat split; reflexivity.
Qed.

Lemma rev_pixel_data :
  pixel_data f = concat rows ++ tail /\
  pixel_data f' = concat (rev rows) ++ tail.
Proof.
  destruct rev_fields as (_ & _ & _ & _ & _ & _ & Ho).
  unfold pixel_data. rewrite Ho, <- Hoff. unfold len.
  rewrite Nat2Z.id. split.
  - unfold f. apply drop_app_length.
  - unfold f'. rewrite <- Hlen. apply drop_app_length.
Qed.

Lemma rev_stride : file_stride f' = file_stride f
                   /\ file_stride f = row_stride (hdr_width f) (hdr_bitCount f).
Proof.
  destruct rev_fields as (_ & _ & Hw & Hb & _).
  unfold file_stride, img_width. rewrite Hw, Hb. split; reflexivity.
Qed.

Lemma rev_stride_pos : 0 < file_stride f.
Proof.
  destruct Hdec as (Hhdr & _ & Hbc & _).
  destruct (header_ok_facts f Hhdr) as (_ & Hw & _).
  unfold file_stride, img_width.
  destruct (row_stride_quot (hdr_width f) (hdr_bitCount f) Hw) as [_ H];
    [unfold supported_depth in Hbc; lia | lia].
Qed.

Lemma rev_file_row (k : nat) :
  (k < length rows)%nat ->
  file_row f k = nth k rows [] /\
  file_row f' k = nth (length rows - S k) rows [].
Proof.
  intros Hk. destruct rev_pixel_data as [P1 P2].
  destruct rev_stride as [S1 S2]. pose proof rev_stride_pos as Sp.
  unfold file_row. rewrite P1, P2, S1, S2. rewrite S2 in Sp. split.
  - apply src_row_concat; [lia | exact Hrows | exact Hk].
  - rewrite src_row_concat;
      [| lia | apply Forall_rev; exact Hrows | rewrite length_rev; exact Hk].
    apply rev_nth. exact Hk.
Qed.

Lemma rev_decodable : decodable f'.
Proof.
  destruct Hdec as (Hhdr & Hc & Hbc & (Hr1 & Hr2 & Hr3) & Hpres & Hval).
  destruct (header_parse_inv _ _ _ Hhdr)
    as (Hl & Hsig & Hs & Hw & Hh & _ & Hfull).
  destruct (Hfull eq_refl) as (Hc3 & Hclr & _).
  destruct rev_fields as (Fsig & Fs & Fw & Fb & Fc & Fclr & Fo).
  destruct rev_pixel_data as [P1 P2].
  destruct rev_stride as [S1 S2]. pose proof rev_pre_len as Hp.
  assert (Hl' : len pre <= len f')
    by (unfold f'; rewrite len_app; unfold len; lia).
  assert (Hih : img_height f' = img_height f)
    by (unfold img_height; rewrite Hneg; lia).
  unfold decodable. split; [|split; [|split; [|split; [|split]]]].
  - apply header_parse_full_ok; rewrite ?Fsig, ?Fs, ?Fw, ?Fc, ?Fclr, ?Hneg;
      try assumption; lia.
  - rewrite Fc. exact Hc.
  - rewrite Fb. exact Hbc.
  - unfold reach_bits, fits in *.
    cbn [dstHasPalette width height header_state] in *.
    rewrite Fb, Fclr, Fo, Fw, Hneg. rewrite Z.abs_opp.
    split; [exact Hr1|]. split; [lia|exact Hr3].
  - unfold rows_present. rewrite Hih, S1, P2, len_app.
    rewrite (len_concat_uniform (rev rows) (file_stride f))
      by (apply Forall_rev; rewrite S2; exact Hrows).
    rewrite length_rev. unfold img_height. rewrite <- Hcount.
    unfold len. lia.
  - unfold rows_valid in *. rewrite Fb, Hih.
    intros Hpal k Hk.
    assert (Hk' : (k < length rows)%nat) by (unfold img_height in Hk; lia).
    destruct (rev_file_row k Hk') as [_ ->].
    assert (Hk2 : (length rows - S k < length rows)%nat) by lia.
    destruct (rev_file_row _ Hk2) as [<- _].
    unfold img_width, dest_palette_len, src_palette_count.
    rewrite Fw, Fb, Fclr.
    apply (Hval Hpal). unfold img_height. lia.
Qed.

Lemma rev_palette_bytes :
  take (Z.to_nat (src_palette_count f * 4)) (drop 54 f')
  = take (Z.to_nat (src_palette_count f * 4)) (drop 54 f).
Proof.
  destruct Hdec as (Hhdr & _ & _ & (Hr1 & _) & _).
  destruct (header_ok_facts f Hhdr) as (_ & _ & _ & _ & Hn).
  fold (src_palette_count f) in Hr1, Hn.
  apply list_eq. intros i.
  destruct (Nat.lt_ge_cases i (Z.to_nat (src_palette_count f * 4)))
    as [Hi|Hi].
  - rewrite !lookup_take_lt by exact Hi. rewrite !lookup_drop.
    unfold f, f', len in *. rewrite !lookup_app_l by lia.
    symmetry. apply Hsame. lia.
  - rewrite !lookup_take_ge by exact Hi. reflexivity.
Qed.

Lemma rev_decoded_image : decoded_image f' = decoded_image f.
Proof.
  destruct Hdec as (Hhdr & Hc & Hbc & _).
  destruct (header_ok_facts f Hhdr) as (_ & Hw & Hh & _).
  destruct rev_fields as (Fsig & Fs & Fw & Fb & Fc & Fclr & Fo).
  destruct rev_stride as [S1 S2].
  assert (Hih : img_height f' = img_height f)
    by (unfold img_height; rewrite Hneg; lia).
  assert (Hiw : img_width f' = img_width f) by exact Fw.
  assert (Htd : top_down f' = negb (top_down f)).
  { unfold top_down. rewrite Hneg.
    destruct (hdr_height f <? 0) eqn:E1;
      destruct (- hdr_height f <? 0) eqn:E2; cbn [negb]; lia. }
  assert (Hrev : forall k : nat, Z.of_nat k < img_height f ->
            src_row (file_stride f) (pixel_data f') k
            = src_row (file_stride f) (pixel_data f)
                (Z.to_nat (img_height f - 1) - k)).
  { intros k Hk. unfold img_height in Hk |- *.
    assert (Hk' : (k < length rows)%nat) by lia.
    pose proof (rev_file_row k Hk') as [_ R2].
    assert (Hk2 : (length rows - S k < length rows)%nat) by lia.
    pose proof (rev_file_row _ Hk2) as [R1 _].
    unfold file_row in R1, R2. rewrite S1 in R2. rewrite R2, <- R1.
    f_equal. lia. }
  assert (Hpix : decoded_pix f' = decoded_pix f).
  { unfold decoded_pix. rewrite Fb, Hih, Hiw, Htd, S1.
    fold (img_width f) in Hw. fold (img_height f) in Hh.
    destruct (is_paletted (hdr_bitCount f)).
    - apply rows_fold_reverse; try lia.
      + intros buf. unfold decode_row_pal, len.
        rewrite length_map, length_seq. lia.
      + rewrite len_replicate. lia.
      + exact Hrev.
    - apply rows_fold_reverse; try lia.
      + intros buf. unfold decode_row_24, len.
        rewrite length_flat_map_rgba, length_seq. lia.
      + rewrite len_replicate. lia.
      + exact Hrev. }
  assert (Hpal : dest_palette f' = dest_palette f).
  { unfold dest_palette, dest_palette_len, src_palette_count.
    rewrite Fb, Fclr. fold (src_palette_count f).
    rewrite rev_palette_bytes. reflexivity. }
  unfold decoded_image, img_rect. rewrite Fb, Hpix, Hpal, Hiw, Hih.
  reflexivity.
Qed.
End ReversedRows.

(** C3.  In a successfully decoded image, source row [k] of the file is
    output row [k] when [isTopDown] holds and output row
    [height - 1 - k] otherwise.  Hence, of two files that agree outside
    the four height bytes and outside the pixel rows, where one declares
    the height [+H] and the other [-H] and the second stores the rows of
    the first in reverse order, the second decodes to the image the first
    decodes to. *)
Theorem C3_row_order :
  (forall (input : list byte) (d : decoder) img rest (k : nat),
     readHeaders false (new_decoder input) = (Ok tt, d) ->
     Decode input = (Ok img, rest) ->
     Z.of_nat k < height d ->
     output_row img (if isTopDown d then Z.of_nat k
                     else height d - 1 - Z.of_nat k)
     = decode_file_row input k)
  /\ (forall (pre pre' : list byte) (rows : list (list byte))
        (tail : list byte) img,
        len pre = hdr_bfOffBits (file_of_rows pre rows tail) ->
        length pre' = length pre ->
        (forall j, ~ (22 <= j < 26)%nat -> pre !! j = pre' !! j) ->
        hdr_height (file_of_rows pre' (rev rows) tail)
        = - hdr_height (file_of_rows pre rows tail) ->
        Forall (fun row =>
                  len row
                  = row_stride (hdr_width (file_of_rows pre rows tail))
                      (hdr_bitCount (file_of_rows pre rows tail))) rows ->
        Z.of_nat (length rows)
        = Z.abs (hdr_height (file_of_rows pre rows tail)) ->
        fst (Decode (file_of_rows pre rows tail)) = Ok img ->
        fst (Decode (file_of_rows pre' (rev rows) tail)) = Ok img).
Proof.
  split.
  - intros input d img rest k Hh HD Hk.
    destruct (readHeaders_full_inv _ _ Hh) as [Hhdr ->].
    apply Decode_Ok_iff in HD. destruct HD as (_ & -> & _).
    apply (decoded_image_row input k Hhdr Hk).
  - intros pre pre' rows tail img Hoff Hlen Hsame Hneg Hrows Hcount HD.
    destruct (Decode (file_of_rows pre rows tail)) as [res rest] eqn:E.
    cbn [fst] in HD. subst res.
    apply Decode_Ok_iff in E. destruct E as (Hdec & -> & _).
    unfold file_of_rows in *.
    pose proof (rev_decodable pre pre' rows tail Hoff Hlen Hsame Hneg
                  Hrows Hcount Hdec) as Hdec'.
    pose proof (rev_decoded_image pre pre' rows tail Hoff Hlen Hsame Hneg
                  Hrows Hcount Hdec) as Himg.
    rewrite <- Himg.
    rewrite (proj2 (Decode_Ok_iff _ _ _)
               (conj Hdec' (conj eq_refl eq_refl))).
    reflexivity.
Qed.

Lemma C3_row_order_witness :
  output_row (decoded_image rgb_2x2) 1 = decode_file_row rgb_2x2 0
  /\ fst (Decode rgb_2x2_top_down) = Ok (decoded_image rgb_2x2).
Proof.
  split.
  - exact (proj1 C3_row_order rgb_2x2 (header_state rgb_2x2)
             (decoded_image rgb_2x2) (bytes_of [99]) 0%nat
             ltac:(vm_compute; reflexivity) ltac:(vm_compute; reflexivity)
             ltac:(vm_compute; reflexivity)).
  - refine (proj2 C3_row_order (rgb_2x2_header 2)
              (rgb_2x2_header (2 ^ 32 - 2)) rgb_2x2_rows (bytes_of [99])
              (decoded_image rgb_2x2)
              ltac:(vm_compute; reflexivity) ltac:(vm_compute; reflexivity)
              _ ltac:(vm_compute; reflexivity)
              ltac:(repeat constructor) ltac:(vm_compute; reflexivity)
              ltac:(vm_compute; reflexivity)).
    intros j Hj.
    do 54 (destruct j as [|j];
           [first [vm_compute; reflexivity | exfalso; apply Hj; lia]|]).
    reflexivity.
Defined.
(** * Further properties of reader.go *)

(** ** getWORD and getDWORD *)

Lemma le32_bytes_value z :
  0 <= z < 2 ^ 32 -> le32_at (bytes_of (le32_bytes z)) 0 = z.
Proof.
  intros Hz. unfold le32_at, byte_at, bytes_of, le32_bytes.
  cbn [map]. change (Z.to_nat 0) with 0%nat.
  change (Z.to_nat (0 + 1)) with 1%nat. change (Z.to_nat (0 + 2)) with 2%nat.
  change (Z.to_nat (0 + 3)) with 3%nat. cbn [lookup list_lookup].
  rewrite !u8_uint8 by (apply Z.mod_pos_bound; lia).
  change (2 ^ 8) with 256. change (2 ^ 16) with 65536.
  change (2 ^ 24) with 16777216. change (2 ^ 32) with 4294967296 in Hz.
  Z.to_euclidean_division_equations. lia.
Qed.

Lemma le16_bytes_value z :
  0 <= z < 2 ^ 16 -> le16_at (bytes_of (le16_bytes z)) 0 = z.
Proof.
  intros Hz. unfold le16_at, byte_at, bytes_of, le16_bytes.
  cbn [map]. change (Z.to_nat 0) with 0%nat.
  change (Z.to_nat (0 + 1)) with 1%nat. cbn [lookup list_lookup].
  rewrite !u8_uint8 by (apply Z.mod_pos_bound; lia).
  change (2 ^ 8) with 256. change (2 ^ 16) with 65536 in Hz.
  Z.to_euclidean_division_equations. lia.
Qed.

(** X1.  [getDWORD] reads the first four bytes of a slice as a little-endian
    32-bit value below 2^32, and [getWORD] the first two as a 16-bit value
    below 2^16; further bytes of the slice are not looked at, and a slice
    that is too short makes them panic (index out of range).  They invert
    the little-endian encoding of a value. *)
Theorem X1_getDWORD_little_endian :
  (forall b : list byte,
     4 <= len b ->
     getDWORD b
     = Ok (u8 (get_byte b 0) + 2 ^ 8 * u8 (get_byte b 1)
           + 2 ^ 16 * u8 (get_byte b 2) + 2 ^ 24 * u8 (get_byte b 3))
     /\ getDWORD b = getDWORD (take 4 b))
  /\ (forall b : list byte,
        2 <= len b ->
        getWORD b = Ok (u8 (get_byte b 0) + 2 ^ 8 * u8 (get_byte b 1))
        /\ getWORD b = getWORD (take 2 b))
  /\ (forall b : list byte, len b < 4 -> getDWORD b = Panic)
  /\ (forall b : list byte, len b < 2 -> getWORD b = Panic)
  /\ (forall b z, getDWORD b = Ok z -> 0 <= z < 2 ^ 32)
  /\ (forall b z, getWORD b = Ok z -> 0 <= z < 2 ^ 16)
  /\ (forall z, 0 <= z < 2 ^ 32 -> getDWORD (bytes_of (le32_bytes z)) = Ok z)
  /\ (forall z, 0 <= z < 2 ^ 16 -> getWORD (bytes_of (le16_bytes z)) = Ok z).
Proof.
  assert (Hshort4 : forall b : list byte, len b < 4 -> getDWORD b = Panic).
  { intros b Hb. unfold len in Hb.
    destruct b as [|x0 [|x1 [|x2 [|x3 b]]]]; cbn [length] in Hb;
      try reflexivity; lia. }
  assert (Hshort2 : forall b : list byte, len b < 2 -> getWORD b = Panic).
  { intros b Hb. unfold len in Hb.
    destruct b as [|x0 [|x1 b]]; cbn [length] in Hb; try reflexivity; lia. }
  split; [|split; [|split; [|split; [|split; [|split; [|split]]]]]].
  - intros b Hb. split.
    + rewrite getDWORD_le32 by exact Hb. unfold le32_at.
      rewrite <- !byte_at_get. reflexivity.
    + rewrite getDWORD_le32 by exact Hb.
      rewrite getDWORD_le32 by (rewrite len_take; lia).
      unfold le32_at. rewrite !byte_at_take by lia. reflexivity.
  - intros b Hb. split.
    + rewrite getWORD_le16 by exact Hb. unfold le16_at.
      rewrite <- !byte_at_get. reflexivity.
    + rewrite getWORD_le16 by exact Hb.
      rewrite getWORD_le16 by (rewrite len_take; lia).
      unfold le16_at. rewrite !byte_at_take by lia. reflexivity.
  - exact Hshort4.
  - exact Hshort2.
  - intros b z H. destruct (Z_lt_ge_dec (len b) 4) as [Hl|Hl].
    + rewrite Hshort4 in H by exact Hl. discriminate.
    + rewrite getDWORD_le32 in H by lia. injection H as <-.
      apply le32_at_range.
  - intros b z H. destruct (Z_lt_ge_dec (len b) 2) as [Hl|Hl].
    + rewrite Hshort2 in H by exact Hl. discriminate.
    + rewrite getWORD_le16 in H by lia. injection H as <-.
      apply le16_at_range.
  - intros z Hz. rewrite getDWORD_le32 by (vm_compute; discriminate).
    rewrite le32_bytes_value by exact Hz. reflexivity.
  - intros z Hz. rewrite getWORD_le16 by (vm_compute; discriminate).
    rewrite le16_bytes_value by exact Hz. reflexivity.
Qed.

Lemma X1_getDWORD_little_endian_witness :
  getDWORD (bytes_of [54; 4; 0; 0; 9]) = Ok 1078
  /\ getDWORD (bytes_of [54; 4; 0]) = Panic
  /\ getDWORD (bytes_of (le32_bytes 4294967291)) = Ok 4294967291.
Proof.
  split; [|split].
  - exact (proj1 (proj1 X1_getDWORD_little_endian (bytes_of [54; 4; 0; 0; 9])
                    ltac:(vm_compute; discriminate))).
  - exact (proj1 (proj2 (proj2 X1_getDWORD_little_endian))
             (bytes_of [54; 4; 0]) ltac:(vm_compute; reflexivity)).
  - exact (proj1 (proj2 (proj2 (proj2 (proj2 (proj2 (proj2
             X1_getDWORD_little_endian)))))) 4294967291
             ltac:(split; [discriminate | reflexivity])).
Defined.

(** ** The header stage: what it rejects *)

(** X2.  A file of at least 18 bytes with the "BM" signature whose header
    size field is not 40 is rejected by [Decode] and by [DecodeConfig] with
    the unsupported-feature error "BMP version (header size N)" naming the
    size, when exactly the first 18 bytes have been consumed. *)
Theorem X2_unsupported_header_size (input : list byte) :
  18 <= len input -> has_signature input = true -> hdr_size input <> 40 ->
  Decode input
  = (Fail (UnsupportedError
             (String.append "BMP version (header size "
                (String.append (fmt_d (hdr_size input)) ")"))),
     drop 18 input)
  /\ DecodeConfig input
     = (Fail (UnsupportedError
                (String.append "BMP version (header size "
                   (String.append (fmt_d (hdr_size input)) ")"))),
        drop 18 input).
Proof.
  intros Hl Hsig Hs. rewrite Decode_eq, DecodeConfig_eq. unfold header_parse.
  rewrite Hsig. cbn [negb].
  destruct (len input =? 0) eqn:E1; [lia|].
  destruct (len input <? 18) eqn:E2; [lia|].
  destruct (hdr_size input =? 40) eqn:E3; [lia|].
  cbn [negb]. split; reflexivity.
Qed.

Lemma X2_unsupported_header_size_witness :
  Decode core_header_file
  = (Fail (UnsupportedError "BMP version (header size 12)"),
     bytes_of [1; 0; 1; 0; 1; 0; 24; 0])
  /\ DecodeConfig core_header_file
     = (Fail (UnsupportedError "BMP version (header size 12)"),
        bytes_of [1; 0; 1; 0; 1; 0; 24; 0]).
Proof.
  exact (X2_unsupported_header_size core_header_file
           ltac:(vm_compute; discriminate) ltac:(vm_compute; reflexivity)
           ltac:(vm_compute; discriminate)).
Defined.

(** X3.  A file with a well-formed 40-byte header and compression 0 whose
    bit depth is none of 1, 4, 8 and 24 is rejected by [Decode] with the
    unsupported-feature error "bit count N", when the 54 header bytes and
    nothing else have been consumed; [DecodeConfig] accepts the same file. *)
Theorem X3_unsupported_bit_count (input : list byte) :
  54 <= len input -> has_signature input = true -> hdr_size input = 40 ->
  1 <= hdr_width input -> hdr_height input <> 0 ->
  hdr_compression input = 0 -> hdr_clrUsed input <= 10000 ->
  ~ (hdr_bitCount input = 1 \/ hdr_bitCount input = 4 \/
     hdr_bitCount input = 8 \/ hdr_bitCount input = 24) ->
  Decode input
  = (Fail (UnsupportedError
             (String.append "bit count " (fmt_d (hdr_bitCount input)))),
     drop 54 input)
  /\ DecodeConfig input
     = (Ok (mkConfig (if is_paletted (hdr_bitCount input)
                      then PaletteModel [] else NRGBAModel)
              (hdr_width input) (Z.abs (hdr_height input))),
        drop 54 input).
Proof.
  intros Hl Hsig Hs Hw Hh Hc Hclr Hbc. split.
  - rewrite Decode_eq, header_parse_full_ok by (assumption || lia).
    rewrite Decode_checks_bitcount by assumption. reflexivity.
  - rewrite DecodeConfig_eq, header_parse_config_ok by assumption.
    rewrite Config_return_eq. reflexivity.
Qed.

Lemma X3_unsupported_bit_count_witness :
  Decode rgb16_1x1
  = (Fail (UnsupportedError "bit count 16"), bytes_of [1; 2; 0; 0])
  /\ DecodeConfig rgb16_1x1
     = (Ok (mkConfig NRGBAModel 1 1), bytes_of [1; 2; 0; 0]).
Proof.
  exact (X3_unsupported_bit_count rgb16_1x1
           ltac:(vm_compute; discriminate) ltac:(vm_compute; reflexivity)
           ltac:(vm_compute; reflexivity) ltac:(vm_compute; discriminate)
           ltac:(vm_compute; discriminate) ltac:(vm_compute; reflexivity)
           ltac:(vm_compute; discriminate)
           ltac:(vm_compute; intros [H|[H|[H|H]]]; discriminate H)).
Defined.

(** X4.  A file shorter than the 54 header bytes gets the same error from
    [Decode] and [DecodeConfig].  An empty file fails with io.EOF and one of
    1 to 17 bytes with io.ErrUnexpectedEOF, all of it consumed.  From 18
    bytes on, a file without the signature fails with "not a BMP file", and
    one with the signature and a header size other than 40 with "BMP version
    (header size N)", 18 bytes consumed.  With the signature and the header
    size 40, a file of exactly 18 bytes fails with io.EOF and one of 19 to
    53 bytes with io.ErrUnexpectedEOF, all of it consumed. *)
Theorem X4_truncated_header (input : list byte) :
  (len input = 0 ->
   Decode input = (Fail EOF, []) /\ DecodeConfig input = (Fail EOF, []))
  /\ (0 < len input < 18 ->
      Decode input = (Fail ErrUnexpectedEOF, []) /\
      DecodeConfig input = (Fail ErrUnexpectedEOF, []))
  /\ (18 <= len input -> has_signature input = false ->
      Decode input = (Fail (FormatError "not a BMP file"), drop 18 input) /\
      DecodeConfig input
      = (Fail (FormatError "not a BMP file"), drop 18 input))
  /\ (18 <= len input -> has_signature input = true ->
      hdr_size input <> 40 ->
      Decode input
      = (Fail (UnsupportedError
                 (String.append "BMP version (header size "
                    (String.append (fmt_d (hdr_size input)) ")"))),
         drop 18 input) /\
      DecodeConfig input
      = (Fail (UnsupportedError
                 (String.append "BMP version (header size "
                    (String.append (fmt_d (hdr_size input)) ")"))),
         drop 18 input))
  /\ (len input = 18 -> has_signature input = true -> hdr_size input = 40 ->
      Decode input = (Fail EOF, []) /\ DecodeConfig input = (Fail EOF, []))
  /\ (18 < len input < 54 -> has_signature input = true ->
      hdr_size input = 40 ->
      Decode input = (Fail ErrUnexpectedEOF, []) /\
      DecodeConfig input = (Fail ErrUnexpectedEOF, [])).
Proof.
  rewrite Decode_eq, DecodeConfig_eq. unfold header_parse.
  split; [|split; [|split; [|split; [|split]]]].
  - intros Hl. destruct (len input =? 0) eqn:E1; [|lia]. split; reflexivity.
  - intros Hl. destruct (len input =? 0) eqn:E1; [lia|].
    destruct (len input <? 18) eqn:E2; [|lia]. split; reflexivity.
  - intros Hl Hsig. rewrite Hsig. cbn [negb].
    destruct (len input =? 0) eqn:E1; [lia|].
    destruct (len input <? 18) eqn:E2; [lia|]. split; reflexivity.
  - intros Hl Hsig Hs. rewrite Hsig. cbn [negb].
    destruct (len input =? 0) eqn:E1; [lia|].
    destruct (len input <? 18) eqn:E2; [lia|].
    destruct (hdr_size input =? 40) eqn:E3; [lia|]. split; reflexivity.
  - intros Hl Hsig Hs. rewrite Hsig, Hs. change (40 =? 40) with true.
    cbn [negb].
    destruct (len input =? 0) eqn:E1; [lia|].
    destruct (len input <? 18) eqn:E2; [lia|].
    destruct (len input =? 18) eqn:E3; [|lia]. split; reflexivity.
  - intros Hl Hsig Hs. rewrite Hsig, Hs. change (40 =? 40) with true.
    cbn [negb].
    destruct (len input =? 0) eqn:E1; [lia|].
    destruct (len input <? 18) eqn:E2; [lia|].
    destruct (len input =? 18) eqn:E3; [lia|].
    destruct (len input <? 54) eqn:E4; [|lia]. split; reflexivity.
Qed.

Lemma X4_truncated_header_witness :
  Decode (take 18 mono_3x2) = (Fail EOF, [])
  /\ DecodeConfig (take 53 mono_3x2) = (Fail ErrUnexpectedEOF, [])
  /\ Decode (take 7 mono_3x2) = (Fail ErrUnexpectedEOF, []).
Proof.
  split; [|split].
  - exact (proj1 (proj1 (proj2 (proj2 (proj2 (proj2
             (X4_truncated_header (take 18 mono_3x2))))))
                    ltac:(vm_compute; reflexivity)
                    ltac:(vm_compute; reflexivity)
                    ltac:(vm_compute; reflexivity))).
  - exact (proj2 (proj2 (proj2 (proj2 (proj2 (proj2
             (X4_truncated_header (take 53 mono_3x2))))))
                    ltac:(vm_compute; split; reflexivity)
                    ltac:(vm_compute; reflexivity)
                    ltac:(vm_compute; reflexivity))).
  - exact (proj1 (proj1 (proj2 (X4_truncated_header (take 7 mono_3x2)))
                    ltac:(vm_compute; split; reflexivity))).
Defined.

(** ** [DecodeConfig]: when it succeeds, and how it fails *)

(** X5.  [DecodeConfig] succeeds exactly on the inputs of at least 54 bytes
    that carry the signature, the header size 40, a width of at least 1 and
    a height other than 0.  It then returns the width, the magnitude of the
    height and the color model of the bit depth (a palette for depths 1 to
    8), and leaves unread everything after the 54 header bytes. *)
Theorem X5_DecodeConfig_succeeds_iff (input : list byte) cfg rest :
  DecodeConfig input = (Ok cfg, rest)
  <-> 54 <= len input /\ has_signature input = true /\ hdr_size input = 40 /\
      1 <= hdr_width input /\ hdr_height input <> 0 /\
      cfg = mkConfig (if (hdr_bitCount input >=? 1) &&
                         (hdr_bitCount input <=? 8)
                      then PaletteModel [] else NRGBAModel)
              (hdr_width input) (Z.abs (hdr_height input)) /\
      rest = drop 54 input.
Proof.
  rewrite DecodeConfig_eq. split.
  - destruct (header_parse true input) as [[e rs]|d] eqn:E; [discriminate|].
    destruct (header_parse_inv _ _ _ E) as (Hl & Hsig & Hs & Hw & Hh & Hd & _).
    rewrite (Hd eq_refl), Config_return_eq. intros [= <- <-].
    repeat split; assumption.
  - intros (Hl & Hsig & Hs & Hw & Hh & -> & ->).
    rewrite header_parse_config_ok by assumption.
    rewrite Config_return_eq. reflexivity.
Qed.

Lemma X5_DecodeConfig_succeeds_iff_witness :
  DecodeConfig mono_3x2
  = (Ok (mkConfig (PaletteModel []) 3 2), drop 54 mono_3x2).
Proof.
  apply (proj2 (X5_DecodeConfig_succeeds_iff mono_3x2
                  (mkConfig (PaletteModel []) 3 2) (drop 54 mono_3x2))).
  vm_compute. repeat split; discriminate.
Defined.

(** X6.  On an in-memory byte source, what [DecodeConfig] returns is decided
    by the length of the input, the signature, the header size, the width,
    the height and the bit depth alone, in this order: an empty input fails
    with io.EOF; one of fewer than 18 bytes with io.ErrUnexpectedEOF; one
    without the signature with "not a BMP file"; one with a header size
    other than 40 with "BMP version (header size N)"; one of exactly 18
    bytes with io.EOF; one of fewer than 54 bytes with io.ErrUnexpectedEOF;
    one with a width below 1 with "bad width N"; one with height 0 with
    "bad height 0"; every other input gives the width, the magnitude of the
    height and the color model of the bit depth.  So [DecodeConfig] never
    panics, and neither the compression, the colors-used count nor any byte
    after the headers can make it fail. *)
Theorem X6_DecodeConfig_outcomes (input : list byte) :
  fst (DecodeConfig input)
  = if len input =? 0 then Fail EOF
    else if len input <? 18 then Fail ErrUnexpectedEOF
    else if negb (has_signature input)
    then Fail (FormatError "not a BMP file")
    else if negb (hdr_size input =? 40)
    then Fail (UnsupportedError
                 (String.append "BMP version (header size "
                    (String.append (fmt_d (hdr_size input)) ")")))
    else if len input =? 18 then Fail EOF
    else if len input <? 54 then Fail ErrUnexpectedEOF
    else if hdr_width input <? 1
    then Fail (FormatError
                 (String.append "bad width " (fmt_d (hdr_width input))))
    else if hdr_height input =? 0 then Fail (FormatError "bad height 0")
    else Ok (mkConfig (if (hdr_bitCount input >=? 1) &&
                          (hdr_bitCount input <=? 8)
                       then PaletteModel [] else NRGBAModel)
               (hdr_width input) (Z.abs (hdr_height input))).
Proof.
  rewrite DecodeConfig_eq. unfold header_parse.
  destruct (len input =? 0); [reflexivity|].
  destruct (len input <? 18); [reflexivity|].
  destruct (negb (has_signature input)); [reflexivity|].
  destruct (negb (hdr_size input =? 40)); [reflexivity|].
  destruct (len input =? 18); [reflexivity|].
  destruct (len input <? 54); [reflexivity|].
  destruct (hdr_width input <? 1); [reflexivity|].
  destruct (hdr_height input =? 0); [reflexivity|].
  rewrite Config_return_eq. reflexivity.
Qed.

(** ** [Decode]: the files it decodes *)

Lemma row_valid_iff bc w np buf :
  row_valid bc w np buf = true
  <-> forall x : nat, (x < w)%nat -> pixel_index bc buf (Z.of_nat x) < np.
Proof.
  unfold row_valid. rewrite forallb_forall. split.
  - intros H x Hx. apply Z.ltb_lt, H, in_seq. lia.
  - intros H x Hx. apply in_seq in Hx. apply Z.ltb_lt, H. lia.
Qed.

Lemma len_pixel_data input :
  0 <= hdr_bfOffBits input <= len input ->
  len (pixel_data input) = len input - hdr_bfOffBits input.
Proof.
  intros H. unfold pixel_data, len in *. rewrite length_drop. lia.
Qed.

Lemma file_stride_pos input :
  1 <= hdr_width input < 2 ^ 31 -> supported_depth (hdr_bitCount input) ->
  0 < file_stride input.
Proof.
  intros Hw Hbc. unfold file_stride, img_width.
  destruct (row_stride_quot (hdr_width input) (hdr_bitCount input) Hw)
    as [_ H]; [unfold supported_depth in Hbc; lia | lia].
Qed.

(** the allocation condition on the fields of the header: one byte for a
    pixel of a paletted image, four for a pixel of a 24-bit one *)
Lemma fits_header_state input :
  supported_depth (hdr_bitCount input) ->
  fits (header_state input)
  <-> (if hdr_bitCount input =? 24 then 4 else 1)
      * img_width input * img_height input <= maxAlloc.
Proof.
  intros Hbc. unfold fits. cbn [dstHasPalette width height header_state].
  fold (img_width input) (img_height input).
  destruct (is_paletted_depth _ Hbc) as [[Hp Hd]|[Hp Hd]]; rewrite Hp;
    destruct (Z.eqb_spec (hdr_bitCount input) 24) as [E|E]; try lia.
Qed.

(** the conditions on the bytes of a file under which [Decode] succeeds *)
Lemma decodable_iff input :
  decodable input
  <-> 54 <= len input /\ has_signature input = true /\ hdr_size input = 40 /\
      1 <= hdr_width input /\ hdr_height input <> 0 /\
      hdr_compression input = 0 /\ hdr_clrUsed input <= 10000 /\
      supported_depth (hdr_bitCount input) /\
      54 + src_palette_count input * 4 <= hdr_bfOffBits input /\
      hdr_bfOffBits input + img_height input * file_stride input
      <= len input /\
      (if hdr_bitCount input =? 24 then 4 else 1)
      * img_width input * img_height input <= maxAlloc /\
      (hdr_bitCount input <> 24 ->
       forall k x : nat,
         Z.of_nat k < img_height input -> Z.of_nat x < img_width input ->
         pixel_index (hdr_bitCount input) (file_row input k) (Z.of_nat x)
         < dest_palette_len input).
Proof.
  destruct (header_fields_range input) as (Rw & Rh & Rbc & Rc & Rclr & Roff).
  unfold decodable, reach_bits, rows_present, rows_valid.
  fold (src_palette_count input).
  split.
  - intros (Hhdr & Hc & Hbc & (Hr1 & Hr2 & Hr3) & Hp & Hv).
    destruct (header_parse_inv _ _ _ Hhdr)
      as (Hl & Hsig & Hs & Hw & Hh & _ & Hf).
    destruct (Hf eq_refl) as (_ & Hclr & _).
    rewrite len_pixel_data in Hp by lia.
    apply (fits_header_state input Hbc) in Hr3.
    destruct (is_paletted_depth _ Hbc) as [[Hip Hd]|[Hip Hd]].
    + repeat split; try assumption; try lia.
      intros _ k x Hk Hx.
      apply (proj1 (row_valid_iff _ _ _ _) (Hv Hip k ltac:(lia)) x). lia.
    + repeat split; try assumption; lia.
  - intros (Hl & Hsig & Hs & Hw & Hh & Hc & Hclr & Hbc & Ho & Hrows
            & Halloc & Hidx).
    assert (Hsp : 0 < file_stride input)
      by (apply file_stride_pos; [unfold img_width in *; lia | exact Hbc]).
    assert (Hhp : 1 <= img_height input) by (unfold img_height; lia).
    assert (Hol : hdr_bfOffBits input <= len input) by nia.
    apply (fits_header_state input Hbc) in Halloc.
    split; [apply header_parse_full_ok; assumption || lia|].
    split; [exact Hc|]. split; [exact Hbc|].
    rewrite len_pixel_data by lia.
    split; [split; [exact Ho|split; [exact Hol|exact Halloc]]|].
    split; [lia|].
    destruct (is_paletted_depth _ Hbc) as [[Hip Hd]|[Hip Hd]]; rewrite Hip.
    + intros _ k Hk. apply row_valid_iff. intros x Hx.
      apply Hidx; lia.
    + intros Hf. discriminate Hf.
Qed.

Lemma Decode_rest_eq input :
  1 <= hdr_width input -> hdr_height input <> 0 ->
  supported_depth (hdr_bitCount input) ->
  drop (Z.to_nat (img_height input) * Z.to_nat (file_stride input))
    (pixel_data input)
  = drop (Z.to_nat (hdr_bfOffBits input
                    + img_height input * file_stride input)) input.
Proof.
  intros Hw Hh Hbc.
  destruct (header_fields_range input) as (Rw & _ & _ & _ & _ & Roff).
  pose proof (file_stride_pos input ltac:(lia) Hbc) as Hs.
  unfold pixel_data. rewrite drop_drop. f_equal.
  unfold img_height in *. nia.
Qed.

Lemma Decode_succeeds_iff (input : list byte) img rest :
  Decode input = (Ok img, rest)
  <-> (54 <= len input /\ has_signature input = true /\ hdr_size input = 40 /\
       1 <= hdr_width input /\ hdr_height input <> 0 /\
       hdr_compression input = 0 /\ hdr_clrUsed input <= 10000 /\
       supported_depth (hdr_bitCount input) /\
       54 + src_palette_count input * 4 <= hdr_bfOffBits input /\
       hdr_bfOffBits input + img_height input * file_stride input
       <= len input /\
       (if hdr_bitCount input =? 24 then 4 else 1)
       * img_width input * img_height input <= maxAlloc /\
       (hdr_bitCount input <> 24 ->
        forall k x : nat,
          Z.of_nat k < img_height input -> Z.of_nat x < img_width input ->
          pixel_index (hdr_bitCount input) (file_row input k) (Z.of_nat x)
          < dest_palette_len input))
      /\ img = decoded_image input
      /\ rest = drop (Z.to_nat (hdr_bfOffBits input
                                + img_height input * file_stride input))
                  input.
Proof.
  rewrite Decode_Ok_iff, decodable_iff.
  split.
  - intros (Hd & -> & ->). split; [exact Hd|]. split; [reflexivity|].
    destruct Hd as (_ & _ & _ & Hw & Hh & _ & _ & Hbc & _).
    apply Decode_rest_eq; assumption.
  - intros (Hd & -> & ->). split; [exact Hd|]. split; [reflexivity|].
    destruct Hd as (_ & _ & _ & Hw & Hh & _ & _ & Hbc & _).
    symmetry. apply Decode_rest_eq; assumption.
Qed.

(** X7.  [Decode] succeeds exactly on the files that have: the signature,
    the header size 40, a width of at least 1, a height other than 0,
    compression 0, at most 10000 declared colors, a bit depth of 1, 4, 8 or
    24, a pixel-data offset at or after the end of the palette, all
    [height] rows of [stride] bytes within the file, a pixel buffer within
    the allocation limit [maxAlloc] (four bytes for a pixel at 24 bits, one
    at the paletted depths), and for the paletted depths every pixel index
    below the destination palette length.  It then leaves unread exactly
    the bytes after the last row. *)
Theorem X7_Decode_succeeds_iff (input : list byte) img rest :
  Decode input = (Ok img, rest)
  <-> (54 <= len input /\ has_signature input = true /\ hdr_size input = 40 /\
       1 <= hdr_width input /\ hdr_height input <> 0 /\
       hdr_compression input = 0 /\ hdr_clrUsed input <= 10000 /\
       supported_depth (hdr_bitCount input) /\
       54 + src_palette_count input * 4 <= hdr_bfOffBits input /\
       hdr_bfOffBits input + img_height input * file_stride input
       <= len input /\
       (if hdr_bitCount input =? 24 then 4 else 1)
       * img_width input * img_height input <= maxAlloc /\
       (hdr_bitCount input <> 24 ->
        forall k x : nat,
          Z.of_nat k < img_height input -> Z.of_nat x < img_width input ->
          pixel_index (hdr_bitCount input) (file_row input k) (Z.of_nat x)
          < dest_palette_len input))
      /\ img = decoded_image input
      /\ rest = drop (Z.to_nat (hdr_bfOffBits input
                                + img_height input * file_stride input))
                  input.
Proof. apply Decode_succeeds_iff. Qed.

Lemma X7_Decode_succeeds_iff_witness :
  exists img, Decode mono_3x2 = (Ok img, []).
Proof.
  exists (decoded_image mono_3x2).
  apply (proj2 (X7_Decode_succeeds_iff mono_3x2 (decoded_image mono_3x2) [])).
  split; [|split; reflexivity].
  split; [vm_compute; discriminate|]. split; [reflexivity|].
  split; [reflexivity|]. split; [vm_compute; discriminate|].
  split; [vm_compute; discriminate|]. split; [reflexivity|].
  split; [vm_compute; discriminate|]. split; [left; reflexivity|].
  split; [vm_compute; discriminate|]. split; [vm_compute; discriminate|].
  split; [vm_compute; discriminate|].
  intros _ k x Hk Hx.
  replace (img_height mono_3x2) with 2 in Hk by (vm_compute; reflexivity).
  replace (img_width mono_3x2) with 3 in Hx by (vm_compute; reflexivity).
  destruct k as [|[|k]]; [| |lia];
    (destruct x as [|[|[|x]]]; [| | |lia]); vm_compute; reflexivity.
Defined.

(** ** Files that decode to the same image *)

Lemma get_byte_byte_at (l : list byte) i : get_byte l i = uint8 (byte_at l i).
Proof. rewrite byte_at_get, uint8_u8. reflexivity. Qed.

Lemma byte_at_app_l (l1 l2 : list byte) off :
  0 <= off < len l1 -> byte_at (l1 ++ l2) off = byte_at l1 off.
Proof.
  intros H. unfold byte_at, len in *. rewrite lookup_app_l by lia.
  reflexivity.
Qed.

Lemma byte_at_lookup (l1 l2 : list byte) off :
  l1 !! Z.to_nat off = l2 !! Z.to_nat off -> byte_at l1 off = byte_at l2 off.
Proof. unfold byte_at. now intros ->. Qed.

Lemma byte_at_src_row stride data (k : nat) j :
  0 <= j < stride ->
  byte_at (src_row stride data k) j
  = byte_at data (Z.of_nat k * stride + j).
Proof.
  intros Hj. unfold src_row. rewrite byte_at_take by lia.
  rewrite byte_at_drop by lia. f_equal. nia.
Qed.

Lemma byte_at_file_row input (k : nat) j :
  0 <= j < file_stride input ->
  byte_at (file_row input k) j
  = byte_at input (hdr_bfOffBits input + Z.of_nat k * file_stride input + j).
Proof.
  intros Hj. unfold file_row, pixel_data.
  rewrite byte_at_src_row by exact Hj.
  destruct (header_fields_range input) as (_ & _ & _ & _ & _ & Roff).
  rewrite byte_at_drop by nia. f_equal. lia.
Qed.

Lemma row_data_bytes_le w bc :
  0 <= w * bc -> row_data_bytes w bc <= row_stride w bc.
Proof.
  intros H. unfold row_data_bytes, row_stride.
  Z.to_euclidean_division_equations. lia.
Qed.

Lemma pixel_index_ext bc w (buf1 buf2 : list byte) x :
  bc = 1 \/ bc = 4 \/ bc = 8 ->
  (forall j, 0 <= j < row_data_bytes w bc ->
     byte_at buf1 j = byte_at buf2 j) ->
  0 <= x < w -> pixel_index bc buf1 x = pixel_index bc buf2 x.
Proof.
  intros Hbc H Hx. unfold pixel_index, pixel_1, pixel_4, pixel_8.
  destruct Hbc as [-> | [-> | ->]]; cbn [Z.eqb Pos.eqb].
  - rewrite (H (x / 8)); [reflexivity|].
    unfold row_data_bytes. Z.to_euclidean_division_equations. lia.
  - rewrite (H (x / 2)); [reflexivity|].
    unfold row_data_bytes. Z.to_euclidean_division_equations. lia.
  - rewrite (H x); [reflexivity|].
    unfold row_data_bytes. Z.to_euclidean_division_equations. lia.
Qed.

Lemma decode_row_pal_ext bc (w : nat) (buf1 buf2 : list byte) :
  bc = 1 \/ bc = 4 \/ bc = 8 ->
  (forall j, 0 <= j < row_data_bytes (Z.of_nat w) bc ->
     byte_at buf1 j = byte_at buf2 j) ->
  decode_row_pal bc w buf1 = decode_row_pal bc w buf2
  /\ forall np, row_valid bc w np buf1 = row_valid bc w np buf2.
Proof.
  intros Hbc H.
  assert (Hx : forall x, In x (seq 0 w) ->
            pixel_index bc buf1 (Z.of_nat x)
            = pixel_index bc buf2 (Z.of_nat x)).
  { intros x Hx. apply in_seq in Hx.
    apply (pixel_index_ext bc (Z.of_nat w)); [exact Hbc | exact H | lia]. }
  split.
  - unfold decode_row_pal. apply map_ext_in. intros x Hin.
    rewrite (Hx x Hin). reflexivity.
  - intros np. unfold row_valid.
    induction (seq 0 w) as [|a l IH]; [reflexivity|].
    cbn [forallb]. rewrite (Hx a) by (left; reflexivity).
    rewrite IH; [reflexivity|]. intros x Hin. apply Hx. right. exact Hin.
Qed.

Lemma decode_row_24_ext (w : nat) (buf1 buf2 : list byte) :
  (forall j, 0 <= j < row_data_bytes (Z.of_nat w) 24 ->
     byte_at buf1 j = byte_at buf2 j) ->
  decode_row_24 w buf1 = decode_row_24 w buf2.
Proof.
  intros H. unfold decode_row_24.
  assert (Hx : forall x, In x (seq 0 w) -> rgba_of buf1 x = rgba_of buf2 x).
  { intros x Hx. apply in_seq in Hx. unfold rgba_of.
    rewrite !get_byte_byte_at.
    rewrite !H by (unfold row_data_bytes;
                   Z.to_euclidean_division_equations; lia).
    reflexivity. }
  induction (seq 0 w) as [|a l IH]; [reflexivity|].
  cbn [flat_map]. rewrite (Hx a) by (left; reflexivity).
  rewrite IH; [reflexivity|]. intros x Hin. apply Hx. right. exact Hin.
Qed.

Lemma rows_fold_ext decode td h cells stride m : forall s pix data1 data2,
  (forall k, (k < m)%nat ->
     decode (src_row stride data1 k) = decode (src_row stride data2 k)) ->
  rows_fold decode td h cells stride m s pix data1
  = rows_fold decode td h cells stride m s pix data2.
Proof.
  induction m as [|m IH]; intros s pix data1 data2 H; [reflexivity|].
  cbn [rows_fold]. rewrite <- !src_row_0.
  rewrite (H 0%nat) by lia. apply IH. intros k Hk.
  rewrite !src_row_drop. apply H. lia.
Qed.

Lemma le32_at_agree (b1 b2 : list byte) off :
  (forall p, off <= p < off + 4 -> byte_at b1 p = byte_at b2 p) ->
  le32_at b1 off = le32_at b2 off.
Proof. intros H. unfold le32_at. rewrite !H by lia. reflexivity. Qed.

Lemma le16_at_agree (b1 b2 : list byte) off :
  (forall p, off <= p < off + 2 -> byte_at b1 p = byte_at b2 p) ->
  le16_at b1 off = le16_at b2 off.
Proof. intros H. unfold le16_at. rewrite !H by lia. reflexivity. Qed.

(** two files whose first 54 bytes agree have the same header fields *)
Lemma header_fields_agree (b1 b2 : list byte) :
  (forall p, 0 <= p < 54 -> byte_at b1 p = byte_at b2 p) ->
  has_signature b1 = has_signature b2 /\ hdr_size b1 = hdr_size b2 /\
  hdr_width b1 = hdr_width b2 /\ hdr_height b1 = hdr_height b2 /\
  hdr_bitCount b1 = hdr_bitCount b2 /\
  hdr_compression b1 = hdr_compression b2 /\
  hdr_clrUsed b1 = hdr_clrUsed b2 /\ hdr_bfOffBits b1 = hdr_bfOffBits b2.
Proof.
  intros H.
  unfold has_signature, hdr_size, hdr_width, hdr_height, hdr_bitCount,
    hdr_compression, hdr_clrUsed, hdr_bfOffBits.
  rewrite (H 0), (H 1) by lia.
  rewrite (le32_at_agree b1 b2 10), (le32_at_agree b1 b2 14),
    (le32_at_agree b1 b2 18), (le32_at_agree b1 b2 22),
    (le16_at_agree b1 b2 28), (le32_at_agree b1 b2 30),
    (le32_at_agree b1 b2 46) by (intros p Hp; apply H; lia).
  repeat split; reflexivity.
Qed.

Section SameImage.
Variables b1 b2 : list byte.
Hypothesis Hhdr : forall p, 0 <= p < 54 -> byte_at b1 p = byte_at b2 p.
Hypothesis Hdec : decodable b1.
Hypothesis Hlen2 :
  hdr_bfOffBits b1 + img_height b1 * file_stride b1 <= len b2.
Hypothesis Hpal :
  hdr_bitCount b1 <> 24 ->
  forall i c, 0 <= i < dest_palette_len b1 -> 0 <= c < 3 ->
    byte_at b1 (54 + i * 4 + c) = byte_at b2 (54 + i * 4 + c).
Hypothesis Hrows :
  forall k j, 0 <= k < img_height b1 ->
    0 <= j < row_data_bytes (img_width b1) (hdr_bitCount b1) ->
    byte_at b1 (hdr_bfOffBits b1 + k * file_stride b1 + j)
    = byte_at b2 (hdr_bfOffBits b1 + k * file_stride b1 + j).

Lemma same_image_fields :
  has_signature b2 = has_signature b1 /\ hdr_size b2 = hdr_size b1 /\
  hdr_width b2 = hdr_width b1 /\ hdr_height b2 = hdr_height b1 /\
  hdr_bitCount b2 = hdr_bitCount b1 /\
  hdr_compression b2 = hdr_compression b1 /\
  hdr_clrUsed b2 = hdr_clrUsed b1 /\ hdr_bfOffBits b2 = hdr_bfOffBits b1.
Proof.
  destruct (header_fields_agree b1 b2 Hhdr)
    as (-> & -> & -> & -> & -> & -> & -> & ->).
  repeat split; reflexivity.
Qed.

Lemma same_image_derived :
  img_width b2 = img_width b1 /\ img_height b2 = img_height b1 /\
  top_down b2 = top_down b1 /\ file_stride b2 = file_stride b1 /\
  src_palette_count b2 = src_palette_count b1 /\
  dest_palette_len b2 = dest_palette_len b1.
Proof.
  destruct same_image_fields as (_ & _ & Fw & Fh & Fb & _ & Fc & _).
  unfold dest_palette_len, src_palette_count, file_stride, img_width,
    img_height, top_down.
  rewrite Fw, Fh, Fb, Fc. repeat split; reflexivity.
Qed.

Lemma same_image_facts :
  1 <= img_width b1 < 2 ^ 31 /\ 1 <= img_height b1 /\
  0 < file_stride b1 /\
  row_data_bytes (img_width b1) (hdr_bitCount b1) <= file_stride b1 /\
  supported_depth (hdr_bitCount b1).
Proof.
  destruct Hdec as (Hh & _ & Hbc & _).
  destruct (header_ok_facts b1 Hh) as (_ & Hw & Hht & _).
  unfold img_width, img_height.
  split; [lia|]. split; [lia|].
  split; [apply file_stride_pos; [lia|exact Hbc]|].
  split; [|exact Hbc].
  apply row_data_bytes_le. unfold supported_depth in Hbc. nia.
Qed.

Lemma same_image_row_bytes (k : nat) j :
  Z.of_nat k < img_height b1 ->
  0 <= j < row_data_bytes (img_width b1) (hdr_bitCount b1) ->
  byte_at (file_row b1 k) j = byte_at (file_row b2 k) j.
Proof.
  intros Hk Hj.
  destruct same_image_derived as (_ & _ & _ & Fs & _).
  destruct same_image_fields as (_ & _ & _ & _ & _ & _ & _ & Fo).
  destruct same_image_facts as (_ & _ & Hs & Hle & _).
  rewrite !byte_at_file_row by (rewrite ?Fs; lia).
  rewrite Fs, Fo. apply Hrows; lia.
Qed.

Lemma same_image_rows (k : nat) :
  Z.of_nat k < img_height b1 ->
  decode_file_row b2 k = decode_file_row b1 k
  /\ (hdr_bitCount b1 <> 24 ->
      forall np,
        row_valid (hdr_bitCount b1) (Z.to_nat (img_width b1)) np
          (file_row b2 k)
        = row_valid (hdr_bitCount b1) (Z.to_nat (img_width b1)) np
            (file_row b1 k)).
Proof.
  intros Hk.
  destruct same_image_derived as (Fw & _).
  destruct same_image_fields as (_ & _ & _ & _ & Fb & _).
  destruct same_image_facts as (Hw & _ & _ & _ & Hbc).
  unfold decode_file_row. rewrite Fb, Fw.
  assert (Hj : forall j,
            0 <= j < row_data_bytes (Z.of_nat (Z.to_nat (img_width b1)))
                       (hdr_bitCount b1) ->
            byte_at (file_row b1 k) j = byte_at (file_row b2 k) j).
  { intros j. rewrite Z2Nat.id by lia. apply same_image_row_bytes, Hk. }
  destruct (is_paletted_depth _ Hbc) as [[Hp Hd]|[Hp Hd]]; rewrite Hp.
  - destruct (decode_row_pal_ext (hdr_bitCount b1)
                (Z.to_nat (img_width b1)) _ _ Hd Hj) as [E1 E2].
    split; [symmetry; exact E1|]. intros _ np. symmetry. apply E2.
  - split; [|intros Hn; contradiction].
    symmetry. apply decode_row_24_ext. rewrite <- Hd. exact Hj.
Qed.

Lemma same_image_palette :
  hdr_bitCount b1 <> 24 -> dest_palette b2 = dest_palette b1.
Proof.
  intros Hn.
  destruct same_image_derived as (_ & _ & _ & _ & Fn & Fd).
  destruct Hdec as (Hh & _ & _ & _).
  destruct (header_ok_facts b1 Hh) as (_ & _ & _ & _ & Hc).
  fold (src_palette_count b1) in Hc.
  unfold dest_palette. rewrite Fn, Fd. unfold build_palette.
  apply map_ext_in. intros i Hi. apply in_seq in Hi.
  assert (Hi' : 0 <= Z.of_nat i < dest_palette_len b1) by lia.
  assert (Hdl : dest_palette_len b1 <= src_palette_count b1)
    by (unfold dest_palette_len; lia).
  unfold palette_entry.
  rewrite !get_byte_take by lia. rewrite !get_byte_byte_at.
  rewrite !byte_at_drop by lia.
  change (Z.of_nat 54) with 54. rewrite !Z.add_assoc.
  rewrite <- (Hpal Hn (Z.of_nat i) 2), <- (Hpal Hn (Z.of_nat i) 1),
    <- (Hpal Hn (Z.of_nat i) 0) by lia.
  reflexivity.
Qed.

Lemma same_image_decodable : decodable b2.
Proof.
  destruct same_image_fields as (Fsig & Fs & Fw & Fh & Fb & Fc & Fclr & Fo).
  destruct same_image_derived as (Dw & Dh & _ & Ds & Dn & Dd).
  destruct same_image_facts as (Hw & Hh & Hs & _ & Hbc).
  apply decodable_iff.
  destruct (proj1 (decodable_iff b1) Hdec)
    as (Hl & Hsig & Hsz & Hw1 & Hh1 & Hc & Hclr & _ & Ho & Hr & Halloc
        & Hidx).
  rewrite Fsig, Fs, Fw, Fh, Fb, Fc, Fclr, Fo, Dw, Dh, Ds, Dn, Dd.
  assert (54 <= len b2).
  { destruct (header_ok_facts b1 (proj1 Hdec)) as (_ & _ & _ & _ & Hn).
    fold (src_palette_count b1) in Hn. nia. }
  repeat split; try assumption.
  intros Hn k x Hk Hx.
  destruct (same_image_rows k Hk) as [_ Hv].
  pose proof (Hv Hn (dest_palette_len b1)) as E.
  assert (Hv1 : row_valid (hdr_bitCount b1) (Z.to_nat (img_width b1))
                  (dest_palette_len b1) (file_row b1 k) = true).
  { apply row_valid_iff. intros y Hy. apply Hidx; [exact Hn|exact Hk|lia]. }
  rewrite Hv1 in E.
  apply (proj1 (row_valid_iff _ _ _ _) E x). lia.
Qed.

Lemma same_image_decoded : decoded_image b2 = decoded_image b1.
Proof.
  destruct same_image_fields as (_ & _ & _ & _ & Fb & _).
  destruct same_image_derived as (Dw & Dh & Dt & Ds & _).
  destruct same_image_facts as (Hw & Hh & Hs & _ & Hbc).
  assert (Hpix : decoded_pix b2 = decoded_pix b1).
  { unfold decoded_pix. rewrite Fb, Dw, Dh, Dt, Ds.
    destruct (is_paletted_depth _ Hbc) as [[Hp Hd]|[Hp Hd]]; rewrite Hp;
      apply rows_fold_ext; intros k Hk;
      destruct (same_image_rows k ltac:(lia)) as [E _];
      unfold decode_file_row, file_row in E;
      rewrite Fb, Dw, Ds, Hp in E; exact E. }
  unfold decoded_image, img_rect. rewrite Fb, Hpix, Dw, Dh.
  destruct (is_paletted_depth _ Hbc) as [[Hp Hd]|[Hp Hd]]; rewrite Hp;
    [|reflexivity].
  rewrite same_image_palette by lia. reflexivity.
Qed.

Lemma same_image_Decode :
  Decode b2
  = (Ok (decoded_image b1),
     drop (Z.to_nat (hdr_bfOffBits b1 + img_height b1 * file_stride b1)) b2).
Proof.
  destruct same_image_fields as (_ & _ & _ & _ & _ & _ & _ & Fo).
  destruct same_image_derived as (_ & Dh & _ & Ds & _).
  apply Decode_succeeds_iff.
  split; [apply decodable_iff, same_image_decodable|].
  split; [symmetry; apply same_image_decoded|].
  rewrite Fo, Dh, Ds. reflexivity.
Qed.
End SameImage.

(** X8.  Bytes after the last row are not read: when [Decode] succeeds on a
    file, it succeeds on the file followed by any further bytes, returns the
    same image and leaves those bytes unread as well. *)
Theorem X8_trailing_bytes_unread (input extra : list byte) img rest :
  Decode input = (Ok img, rest) ->
  Decode (input ++ extra) = (Ok img, rest ++ extra).
Proof.
  intros H. apply Decode_succeeds_iff in H. destruct H as (Hd & -> & ->).
  assert (Hdec : decodable input) by (apply decodable_iff, Hd).
  destruct (same_image_facts input Hdec) as (Hw & Hh & Hs & Hle & Hbc).
  destruct Hd as (Hl & _ & _ & _ & _ & _ & _ & _ & Ho & Hr & _).
  destruct (header_ok_facts input (proj1 Hdec)) as (_ & _ & _ & _ & Hn).
  fold (src_palette_count input) in Hn.
  assert (Hdl : dest_palette_len input <= src_palette_count input)
    by (unfold dest_palette_len; lia).
  rewrite (same_image_Decode input (input ++ extra)).
  - f_equal. apply drop_app_le. unfold len in Hr. nia.
  - intros p Hp. rewrite byte_at_app_l by lia. reflexivity.
  - exact Hdec.
  - rewrite len_app. unfold len in *. lia.
  - intros _ i c Hi Hc. rewrite byte_at_app_l by lia. reflexivity.
  - intros k j Hk Hj. rewrite byte_at_app_l by nia. reflexivity.
Qed.

Lemma X8_trailing_bytes_unread_witness :
  Decode (mono_3x2 ++ bytes_of [1; 2; 3])
  = (Ok (decoded_image mono_3x2), bytes_of [1; 2; 3]).
Proof.
  exact (X8_trailing_bytes_unread mono_3x2 (bytes_of [1; 2; 3])
           (decoded_image mono_3x2) [] ltac:(vm_compute; reflexivity)).
Defined.

Lemma unused_offset_false input p :
  unused_offset input p = false ->
  let off := hdr_bfOffBits input in
  let kept := if is_paletted (hdr_bitCount input)
              then dest_palette_len input else 0 in
  ~ (54 <= p < off /\ (54 + kept * 4 <= p \/ (p - 54) mod 4 = 3))
  /\ ~ (off <= p < off + img_height input * file_stride input
        /\ row_data_bytes (img_width input) (hdr_bitCount input)
           <= (p - off) mod file_stride input).
Proof.
  unfold unused_offset. cbv zeta. intros H.
  apply orb_false_iff in H. destruct H as [H1 H2].
  split; intros [Ha Hb].
  - rewrite (proj2 (Z.leb_le _ _)), (proj2 (Z.ltb_lt _ _)) in H1 by lia.
    cbn [andb] in H1. apply orb_false_iff in H1. destruct H1 as [H3 H4].
    destruct Hb as [Hb|Hb]; lia.
  - rewrite (proj2 (Z.leb_le _ _)), (proj2 (Z.ltb_lt _ _)) in H2 by lia.
    cbn [andb] in H2. lia.
Qed.

(** X9.  The bytes at unused offsets ([unused_offset]: reserved bytes of
    the kept palette entries, palette entries past the 256th or the whole
    palette of a 24-bit file, the gap before the pixel data, row padding)
    never reach the image: a file that differs from a decodable file at
    such offsets only decodes to the same image, with the same bytes left
    unread. *)
Theorem X9_unused_bytes_ignored (b1 b2 : list byte) img rest :
  Decode b1 = (Ok img, rest) ->
  length b2 = length b1 ->
  (forall i : nat,
     unused_offset b1 (Z.of_nat i) = false -> b1 !! i = b2 !! i) ->
  Decode b2 = (Ok img, rest).
Proof.
  intros H Hlen Hsame.
  apply Decode_succeeds_iff in H. destruct H as (Hd & -> & ->).
  assert (Hdec : decodable b1) by (apply decodable_iff, Hd).
  destruct (same_image_facts b1 Hdec) as (Hw & Hh & Hs & Hle & Hbc).
  destruct Hd as (Hl & _ & _ & _ & _ & _ & _ & _ & Ho & Hr & _).
  destruct (header_ok_facts b1 (proj1 Hdec)) as (_ & _ & _ & _ & Hn).
  fold (src_palette_count b1) in Hn.
  assert (Hdl : 0 <= dest_palette_len b1 <= src_palette_count b1)
    by (unfold dest_palette_len; lia).
  assert (Hat : forall p, 0 <= p ->
            unused_offset b1 p = false -> byte_at b1 p = byte_at b2 p).
  { intros p Hp Hu. apply byte_at_lookup, Hsame.
    rewrite Z2Nat.id by lia. exact Hu. }
  assert (Hnot : forall p,
            (p < 54 \/
             hdr_bfOffBits b1 + img_height b1 * file_stride b1 <= p) ->
            unused_offset b1 p = false).
  { intros p Hp. unfold unused_offset. cbv zeta.
    apply orb_false_iff. split.
    - destruct (54 <=? p) eqn:E1; [|reflexivity].
      destruct (p <? hdr_bfOffBits b1) eqn:E2; [|reflexivity]. nia.
    - destruct (hdr_bfOffBits b1 <=? p) eqn:E1; [|reflexivity].
      destruct (p <? hdr_bfOffBits b1 + img_height b1 * file_stride b1)
        eqn:E2; [|reflexivity]. nia. }
  rewrite (same_image_Decode b1 b2).
  - f_equal. symmetry. apply drop_ext; [symmetry; exact Hlen|].
    intros i Hi. apply Hsame, Hnot. right. lia.
  - intros p Hp. apply Hat; [lia|]. apply Hnot. lia.
  - exact Hdec.
  - unfold len in *. rewrite Hlen. exact Hr.
  - intros Hn24 i c Hi Hc. apply Hat; [lia|].
    destruct (is_paletted_depth _ Hbc) as [[Hp Hdp]|[Hp Hdp]]; [|lia].
    unfold unused_offset. cbv zeta. rewrite Hp.
    apply orb_false_iff. split.
    + destruct (54 + dest_palette_len b1 * 4 <=? 54 + i * 4 + c) eqn:E;
        [lia|].
      replace ((54 + i * 4 + c - 54) mod 4) with c
        by (Z.to_euclidean_division_equations; lia).
      destruct (c =? 3) eqn:E3; [lia|].
      rewrite !andb_false_r. reflexivity.
    + destruct (hdr_bfOffBits b1 <=? 54 + i * 4 + c) eqn:E; [lia|].
      reflexivity.
  - intros k j Hk Hj. apply Hat; [nia|].
    unfold unused_offset. cbv zeta. apply orb_false_iff. split.
    + destruct (hdr_bfOffBits b1 + k * file_stride b1 + j
                <? hdr_bfOffBits b1) eqn:E; [nia|].
      rewrite andb_false_r. reflexivity.
    + replace ((hdr_bfOffBits b1 + k * file_stride b1 + j
                - hdr_bfOffBits b1) mod file_stride b1) with j.
      * destruct (row_data_bytes (img_width b1) (hdr_bitCount b1) <=? j)
          eqn:E; [lia|]. rewrite andb_false_r. reflexivity.
      * replace (hdr_bfOffBits b1 + k * file_stride b1 + j
                 - hdr_bfOffBits b1) with (j + k * file_stride b1) by lia.
        rewrite Z.mod_add by lia. symmetry. apply Z.mod_small. lia.
Qed.

Lemma X9_unused_bytes_ignored_witness :
  mono_3x2_noise <> mono_3x2
  /\ Decode mono_3x2_noise = (Ok (decoded_image mono_3x2), []).
Proof.
  split; [vm_compute; discriminate|].
  apply (X9_unused_bytes_ignored mono_3x2 mono_3x2_noise
           (decoded_image mono_3x2) []).
  - vm_compute. reflexivity.
  - reflexivity.
  - intros i Hi.
    do 74 (destruct i as [|i];
           [first [reflexivity | vm_compute in Hi; discriminate Hi]|]).
    reflexivity.
Defined.

(** ** The pixels of the decoded image *)

Lemma flat_map_lookup4 (f : nat -> list byte) :
  (forall i, length (f i) = 4%nat) ->
  forall n s x c, (x < n)%nat -> (c < 4)%nat ->
    flat_map f (seq s n) !! (4 * x + c)%nat = f (s + x)%nat !! c.
Proof.
  intros Hf. induction n as [|n IH]; intros s x c Hx Hc; [lia|].
  cbn [seq flat_map]. destruct x as [|x].
  - rewrite lookup_app_l by (rewrite Hf; lia).
    rewrite Nat.add_0_r. reflexivity.
  - rewrite lookup_app_r by (rewrite Hf; lia). rewrite Hf.
    replace (4 * S x + c - 4)%nat with (4 * x + c)%nat by lia.
    rewrite IH by lia.
    replace (S s + x)%nat with (s + S x)%nat by lia. reflexivity.
Qed.

Lemma decode_row_24_lookup (w : nat) buf (x c : nat) :
  (x < w)%nat -> (c < 4)%nat ->
  decode_row_24 w buf !! (4 * x + c)%nat = rgba_of buf x !! c.
Proof.
  intros Hx Hc. unfold decode_row_24.
  rewrite (flat_map_lookup4 (rgba_of buf)) by (reflexivity || lia).
  reflexivity.
Qed.

Lemma decode_row_pal_lookup bc (w : nat) buf (x : nat) :
  (x < w)%nat ->
  decode_row_pal bc w buf !! x
  = Some (uint8 (pixel_index bc buf (Z.of_nat x))).
Proof.
  intros Hx. unfold decode_row_pal. rewrite list_lookup_fmap.
  rewrite lookup_seq_lt by exact Hx. reflexivity.
Qed.

Section DecodedPixels.
Variable input : list byte.
Hypothesis Hhdr : header_parse false input = inr (header_state input).

Let w := img_width input.
Let h := img_height input.

Lemma decoded_dims : 1 <= w < 2 ^ 31 /\ 1 <= h <= 2 ^ 31.
Proof.
  destruct (header_ok_facts input Hhdr) as (_ & Hw & Hh & _).
  unfold w, h, img_width, img_height. lia.
Qed.

Lemma decoded_pix_pal (k x : nat) :
  is_paletted (hdr_bitCount input) = true ->
  Z.of_nat k < h -> Z.of_nat x < w ->
  decoded_pix input
    !! Z.to_nat (dst_row (top_down input) h (Z.of_nat k) * w + Z.of_nat x)
  = Some (uint8 (pixel_index (hdr_bitCount input) (file_row input k)
                   (Z.of_nat x))).
Proof.
  intros Hp Hk Hx. destruct decoded_dims as [Hw Hh].
  unfold decoded_pix. rewrite Hp. fold w h.
  rewrite (rows_fold_cell (file_stride input) w h (top_down input)
             (decode_row_pal (hdr_bitCount input) (Z.to_nat w)));
    [| lia
     | intros buf; unfold decode_row_pal, len;
       rewrite length_map, length_seq; lia
     | rewrite len_replicate; lia | exact Hk | lia].
  rewrite Nat2Z.id. apply decode_row_pal_lookup. lia.
Qed.

Lemma decoded_pix_rgb (k x c : nat) :
  is_paletted (hdr_bitCount input) = false ->
  Z.of_nat k < h -> Z.of_nat x < w -> (c < 4)%nat ->
  decoded_pix input
    !! Z.to_nat (dst_row (top_down input) h (Z.of_nat k) * (4 * w)
                 + (4 * Z.of_nat x + Z.of_nat c))
  = rgba_of (file_row input k) x !! c.
Proof.
  intros Hp Hk Hx Hc. destruct decoded_dims as [Hw Hh].
  unfold decoded_pix. rewrite Hp. fold w h.
  rewrite (rows_fold_cell (file_stride input) (4 * w) h (top_down input)
             (decode_row_24 (Z.to_nat w)));
    [| lia
     | intros buf; unfold decode_row_24, len;
       rewrite length_flat_map_rgba, length_seq; lia
     | rewrite len_replicate; lia | exact Hk | lia].
  replace (Z.to_nat (4 * Z.of_nat x + Z.of_nat c)) with (4 * x + c)%nat
    by lia.
  apply decode_row_24_lookup; lia.
Qed.

Lemma decoded_pix_len :
  len (decoded_pix input)
  = (if is_paletted (hdr_bitCount input) then 1 else 4) * w * h.
Proof.
  destruct decoded_dims as [Hw Hh]. unfold decoded_pix. fold w h.
  destruct (is_paletted (hdr_bitCount input)).
  - rewrite (rows_fold_final_len (file_stride input) w h (top_down input)
               (decode_row_pal (hdr_bitCount input) (Z.to_nat w)));
      [lia | lia
       | intros buf; unfold decode_row_pal, len;
         rewrite length_map, length_seq; lia
       | lia | rewrite len_replicate; lia].
  - rewrite (rows_fold_final_len (file_stride input) (4 * w) h
               (top_down input) (decode_row_24 (Z.to_nat w)));
      [lia | lia
       | intros buf; unfold decode_row_24, len;
         rewrite length_flat_map_rgba, length_seq; lia
       | lia | rewrite len_replicate; lia].
Qed.
End DecodedPixels.

Lemma dest_palette_length input :
  header_parse false input = inr (header_state input) ->
  len (dest_palette input) = dest_palette_len input.
Proof.
  intros Hhdr.
  destruct (header_ok_facts input Hhdr) as (_ & _ & _ & _ & Hn).
  unfold dest_palette, build_palette, len.
  rewrite length_map, length_seq.
  unfold dest_palette_len, src_palette_count. lia.
Qed.

(** X10.  A successful [Decode] never returns a nil image.  For 24 bits it
    returns an NRGBA image with bounds (0, 0)-(width, height), stride
    4 * width and a pixel buffer of exactly stride * height bytes in which
    every alpha byte is 255; for 1, 4 and 8 bits a paletted image with
    stride width, a buffer of width * height bytes and a palette of
    min(n, 256) entries, between 1 and 256. *)
Theorem X10_decoded_image_shape (input : list byte) img rest :
  Decode input = (Ok img, rest) ->
  (hdr_bitCount input = 24 /\
   exists p, img = ImgNRGBA (Some p) /\
     NRGBA.Rect p = mkRect 0 0 (hdr_width input) (Z.abs (hdr_height input)) /\
     NRGBA.Stride p = 4 * hdr_width input /\
     len (NRGBA.Pix p) = NRGBA.Stride p * Z.abs (hdr_height input) /\
     forall i, 0 <= i < hdr_width input * Z.abs (hdr_height input) ->
       NRGBA.Pix p !! Z.to_nat (4 * i + 3) = Some (uint8 255))
  \/ (hdr_bitCount input <> 24 /\
      exists p, img = ImgPaletted (Some p) /\
        Paletted.Rect p
        = mkRect 0 0 (hdr_width input) (Z.abs (hdr_height input)) /\
        Paletted.Stride p = hdr_width input /\
        len (Paletted.Pix p)
        = Paletted.Stride p * Z.abs (hdr_height input) /\
        len (Paletted.Palette p) = Z.min (src_palette_count input) 256 /\
        1 <= len (Paletted.Palette p) <= 256).
Proof.
  intros H. apply Decode_Ok_iff in H.
  destruct H as ((Hhdr & _ & Hbc & _) & -> & _).
  destruct (decoded_dims input Hhdr) as [Hw Hh].
  destruct (header_fields_range input) as (_ & _ & _ & _ & Rclr & _).
  pose proof (decoded_pix_len input Hhdr) as Hlen.
  unfold decoded_image, img_rect.
  unfold img_width, img_height in *.
  destruct (is_paletted_depth _ Hbc) as [[Hp Hd]|[Hp Hd]];
    rewrite Hp in *; [right | left].
  - split; [lia|]. eexists. split; [reflexivity|].
    cbn [Paletted.Rect Paletted.Stride Paletted.Pix Paletted.Palette].
    split; [reflexivity|]. split; [reflexivity|]. split; [lia|].
    rewrite dest_palette_length by exact Hhdr.
    pose proof (palette_count_paletted (hdr_bitCount input)
                  (hdr_clrUsed input) Hp ltac:(lia)) as Hpos.
    unfold dest_palette_len, src_palette_count. split; lia.
  - split; [exact Hd|]. eexists. split; [reflexivity|].
    cbn [NRGBA.Rect NRGBA.Stride NRGBA.Pix].
    split; [reflexivity|]. split; [reflexivity|]. split; [lia|].
    intros i Hi.
    set (w := hdr_width input) in *. set (h := Z.abs (hdr_height input)) in *.
    set (j := i / w). set (x := i mod w).
    assert (Hjx : i = w * j + x) by (apply Z.div_mod; lia).
    assert (Hx : 0 <= x < w) by (apply Z.mod_pos_bound; lia).
    assert (Hj : 0 <= j < h).
    { split; [apply Z.div_pos; lia|].
      apply Z.div_lt_upper_bound; [lia|]. lia. }
    set (k := Z.to_nat (if top_down input then j else h - 1 - j)).
    assert (Hk : Z.of_nat k < h) by (unfold k; destruct (top_down input); lia).
    assert (Hdst : dst_row (top_down input) h (Z.of_nat k) = j)
      by (unfold dst_row, k; destruct (top_down input); lia).
    pose proof (decoded_pix_rgb input Hhdr k (Z.to_nat x) 3 Hp) as Hc.
    unfold img_height, img_width in Hc. fold w h in Hc.
    rewrite Hdst in Hc.
    replace (4 * i + 3)
      with (j * (4 * w) + (4 * Z.of_nat (Z.to_nat x) + Z.of_nat 3)) by lia.
    rewrite Hc by lia. reflexivity.
Qed.

Lemma X10_decoded_image_shape_witness :
  exists p, decoded_image rgb_2x2 = ImgNRGBA (Some p) /\
    len (NRGBA.Pix p) = 16 /\
    NRGBA.Pix p !! 3%nat = Some (uint8 255) /\
    NRGBA.Pix p !! 15%nat = Some (uint8 255).
Proof.
  destruct (X10_decoded_image_shape rgb_2x2 (decoded_image rgb_2x2)
              (bytes_of [99]) ltac:(vm_compute; reflexivity))
    as [(_ & p & Hp & _ & Hs & Hl & Ha)|(Hn & _)];
    [|exfalso; apply Hn; reflexivity].
  exists p. split; [exact Hp|]. split; [rewrite Hl, Hs; reflexivity|].
  split.
  - apply (Ha 0). vm_compute. split; [discriminate|reflexivity].
  - apply (Ha 3). vm_compute. split; [discriminate|reflexivity].
Defined.

Lemma get_byte_file_row input (k : nat) j :
  0 <= j < file_stride input ->
  get_byte (file_row input k) j = get_byte input (row_offset input k + j).
Proof.
  intros Hj. rewrite !get_byte_byte_at, byte_at_file_row by exact Hj.
  reflexivity.
Qed.

(** X11.  In the image of a successful 24-bit [Decode], the pixel at column
    [x] of output row [out_row k] holds, in the order R, G, B, A, the third,
    second and first byte of the source triple at file offset
    [row_offset k + 3 x] and the value 255. *)
Theorem X11_pixel_24 (input : list byte) p rest (k x : nat) :
  Decode input = (Ok (ImgNRGBA (Some p)), rest) ->
  Z.of_nat k < img_height input -> Z.of_nat x < img_width input ->
  NRGBA.Pix p
    !! Z.to_nat (out_row input k * NRGBA.Stride p + 4 * Z.of_nat x + 0)
  = Some (get_byte input (row_offset input k + 3 * Z.of_nat x + 2))
  /\ NRGBA.Pix p
       !! Z.to_nat (out_row input k * NRGBA.Stride p + 4 * Z.of_nat x + 1)
     = Some (get_byte input (row_offset input k + 3 * Z.of_nat x + 1))
  /\ NRGBA.Pix p
       !! Z.to_nat (out_row input k * NRGBA.Stride p + 4 * Z.of_nat x + 2)
     = Some (get_byte input (row_offset input k + 3 * Z.of_nat x + 0))
  /\ NRGBA.Pix p
       !! Z.to_nat (out_row input k * NRGBA.Stride p + 4 * Z.of_nat x + 3)
     = Some (uint8 255).
Proof.
  intros H Hk Hx. apply Decode_Ok_iff in H.
  destruct H as ((Hhdr & _ & Hbc & _) & Himg & _).
  unfold decoded_image in Himg.
  destruct (is_paletted (hdr_bitCount input)) eqn:Hp; [discriminate|].
  injection Himg as ->. cbn [NRGBA.Pix NRGBA.Stride].
  destruct (is_paletted_depth _ Hbc) as [[Hp' _]|[_ Hd]]; [congruence|].
  destruct (decoded_dims input Hhdr) as [Hw Hh].
  assert (Hs : Z.of_nat x * 3 + 2 < file_stride input)
    by (unfold file_stride; rewrite Hd; apply row_stride_covers_24; lia).
  unfold out_row.
  pose proof (decoded_pix_rgb input Hhdr k x 0 Hp Hk Hx ltac:(lia)) as H0.
  pose proof (decoded_pix_rgb input Hhdr k x 1 Hp Hk Hx ltac:(lia)) as H1.
  pose proof (decoded_pix_rgb input Hhdr k x 2 Hp Hk Hx ltac:(lia)) as H2.
  pose proof (decoded_pix_rgb input Hhdr k x 3 Hp Hk Hx ltac:(lia)) as H3.
  rewrite !Z.add_assoc in H0, H1, H2, H3.
  change (Z.of_nat 0) with 0 in H0. change (Z.of_nat 1) with 1 in H1.
  change (Z.of_nat 2) with 2 in H2. change (Z.of_nat 3) with 3 in H3.
  rewrite H0, H1, H2, H3. unfold rgba_of. cbn [lookup list_lookup].
  rewrite !get_byte_file_row by lia.
  replace (row_offset input k + (Z.of_nat x * 3 + 2))
    with (row_offset input k + 3 * Z.of_nat x + 2) by lia.
  replace (row_offset input k + (Z.of_nat x * 3 + 1))
    with (row_offset input k + 3 * Z.of_nat x + 1) by lia.
  replace (row_offset input k + (Z.of_nat x * 3 + 0))
    with (row_offset input k + 3 * Z.of_nat x + 0) by lia.
  repeat split; reflexivity.
Qed.

Lemma X11_pixel_24_witness :
  exists p, decoded_image rgb_2x2 = ImgNRGBA (Some p) /\
    NRGBA.Pix p !! 12%nat = Some (uint8 6) /\
    NRGBA.Pix p !! 13%nat = Some (uint8 5) /\
    NRGBA.Pix p !! 14%nat = Some (uint8 4) /\
    NRGBA.Pix p !! 15%nat = Some (uint8 255).
Proof.
  eexists. split; [reflexivity|].
  exact (X11_pixel_24 rgb_2x2 _ (bytes_of [99]) 0 1
           ltac:(vm_compute; reflexivity) ltac:(vm_compute; reflexivity)
           ltac:(vm_compute; reflexivity)).
Defined.

Lemma pixel_1_testbit buf i :
  0 <= i ->
  pixel_1 buf i = Z.b2z (Z.testbit (byte_at buf (i / 8)) (7 - i mod 8)).
Proof.
  intros Hi. unfold pixel_1. symmetry. apply Z.testbit_spec'.
  pose proof (Z.mod_pos_bound i 8 ltac:(lia)). lia.
Qed.

(** X12.  In the image of a successful paletted [Decode], the cell at
    column [x] of output row [out_row k] holds a palette index below the
    palette length, taken from source row [k]: for 8 bits the byte at
    [row_offset k + x]; for 4 bits the high nibble (even [x]) or the low
    nibble (odd [x]) of the byte at [row_offset k + x / 2]; for 1 bit the
    bit [7 - x mod 8] of the byte at [row_offset k + x / 8], the most
    significant bit first. *)
Theorem X12_pixel_paletted (input : list byte) p rest (k x : nat) :
  Decode input = (Ok (ImgPaletted (Some p)), rest) ->
  Z.of_nat k < img_height input -> Z.of_nat x < img_width input ->
  exists v,
    Paletted.Pix p
      !! Z.to_nat (out_row input k * Paletted.Stride p + Z.of_nat x)
    = Some v
    /\ u8 v < len (Paletted.Palette p)
    /\ (hdr_bitCount input = 8 ->
        v = get_byte input (row_offset input k + Z.of_nat x))
    /\ (hdr_bitCount input = 4 ->
        u8 v = if Z.even (Z.of_nat x)
               then byte_at input (row_offset input k + Z.of_nat x / 2) / 16
               else byte_at input (row_offset input k + Z.of_nat x / 2)
                    mod 16)
    /\ (hdr_bitCount input = 1 ->
        u8 v = Z.b2z (Z.testbit
                        (byte_at input (row_offset input k + Z.of_nat x / 8))
                        (7 - Z.of_nat x mod 8))).
Proof.
  intros H Hk Hx. apply Decode_Ok_iff in H.
  destruct H as ((Hhdr & _ & Hbc & _ & _ & Hv) & Himg & _).
  unfold decoded_image in Himg.
  destruct (is_paletted (hdr_bitCount input)) eqn:Hp; [|discriminate].
  injection Himg as ->.
  cbn [Paletted.Pix Paletted.Stride Paletted.Palette].
  destruct (decoded_dims input Hhdr) as [Hw Hh].
  exists (uint8 (pixel_index (hdr_bitCount input) (file_row input k)
                   (Z.of_nat x))).
  pose proof (pixel_index_range (hdr_bitCount input) (file_row input k)
                (Z.of_nat x)) as Hr.
  split; [apply (decoded_pix_pal input Hhdr k x Hp Hk Hx)|].
  rewrite u8_uint8 by exact Hr.
  split.
  { rewrite dest_palette_length by exact Hhdr.
    apply (proj1 (row_valid_iff _ _ _ _) (Hv Hp k ltac:(lia)) x). lia. }
  unfold pixel_index. unfold file_stride in *.
  assert (Hcov : forall bc j, hdr_bitCount input = bc ->
            0 <= j < (img_width input * bc + 31) / 32 * 4 ->
            byte_at (file_row input k) j
            = byte_at input (row_offset input k + j)).
  { intros bc j Ebc Hj. apply byte_at_file_row.
    unfold file_stride, row_stride. rewrite Ebc. exact Hj. }
  split; [|split].
  - intros E. rewrite E. cbn [Z.eqb Pos.eqb]. unfold pixel_8.
    rewrite (Hcov 8 _ E)
      by (Z.to_euclidean_division_equations; lia).
    rewrite <- get_byte_byte_at. reflexivity.
  - intros E. rewrite E. cbn [Z.eqb Pos.eqb]. unfold pixel_4.
    rewrite (Hcov 4 _ E)
      by (Z.to_euclidean_division_equations; lia).
    reflexivity.
  - intros E. rewrite E. cbn [Z.eqb Pos.eqb].
    rewrite pixel_1_testbit by lia.
    rewrite (Hcov 1 _ E)
      by (Z.to_euclidean_division_equations; lia).
    reflexivity.
Qed.

Lemma X12_pixel_paletted_witness :
  exists p v, decoded_image mono_3x2 = ImgPaletted (Some p) /\
    Paletted.Pix p !! 2%nat = Some v /\ u8 v = 0 /\ u8 v < 2.
Proof.
  destruct (X12_pixel_paletted mono_3x2 _ [] 1 2
              ltac:(vm_compute; reflexivity) ltac:(vm_compute; reflexivity)
              ltac:(vm_compute; reflexivity))
    as (v & H1 & H2 & _ & _ & H3).
  eexists. exists v. split; [reflexivity|]. split; [exact H1|].
  split; [apply H3; reflexivity | exact H2].
Defined.

(** ** skipBytes *)

Lemma skipBytes_loop_fail fuel : forall n d,
  (Z.to_nat n <= fuel)%nat -> len (r d) < n ->
  fst (skipBytes_loop fuel n d)
  = Fail (if len (r d) mod 1024 =? 0 then EOF else ErrUnexpectedEOF)
  /\ r (snd (skipBytes_loop fuel n d)) = [].
Proof.
  induction fuel as [|fuel IH]; intros n d Hf Hl.
  - unfold len in Hl. lia.
  - cbn [skipBytes_loop]. assert (0 < n) by (unfold len in Hl; lia).
    assert (Hlen0 : 0 <= len (r d)) by (unfold len; lia).
    destruct (n >? 0) eqn:E; [|lia].
    destruct (1024 >? n) eqn:E1.
    + rewrite Z.mod_small by lia. apply bind_ReadFull_short. exact Hl.
    + destruct (Z_lt_ge_dec (len (r d)) 1024) as [Hs|Hs].
      * rewrite Z.mod_small by lia. apply bind_ReadFull_short. exact Hs.
      * rewrite bind_ReadFull_ok by lia.
        destruct (IH (n - 1024)
                    (set_r (drop (Z.to_nat 1024) (r d)) d)) as [H1 H2];
          [lia | cbn [r set_r]; rewrite len_drop_le; lia |].
        cbn [r set_r] in H1. rewrite len_drop_le in H1 by lia.
        replace (Z.of_nat (Z.to_nat 1024)) with 1024 in H1 by lia.
        replace ((len (r d) - 1024) mod 1024) with (len (r d) mod 1024) in H1
          by (replace (len (r d) - 1024) with (len (r d) + (-1) * 1024)
                by lia; rewrite Z.mod_add by lia; reflexivity).
        split; [exact H1 | exact H2].
Qed.

Lemma skipBytes_fail n d :
  len (r d) < n ->
  fst (skipBytes n d)
  = Fail (if len (r d) mod 1024 =? 0 then EOF else ErrUnexpectedEOF)
  /\ r (snd (skipBytes n d)) = [].
Proof. intros. apply skipBytes_loop_fail; [lia|assumption]. Qed.

(** X13.  [skipBytes n] does nothing when [n <= 0]; discards exactly [n]
    bytes, whatever their number, when the reader holds that many; and
    otherwise exhausts the reader and fails: with io.EOF when the reader
    runs dry on a boundary of the 1024-byte reads, with io.ErrUnexpectedEOF
    when it runs dry inside one. *)
Theorem X13_skipBytes (n : Z) (d : decoder) :
  (n <= 0 -> skipBytes n d = (Ok tt, d))
  /\ (0 < n <= len (r d) ->
      skipBytes n d = (Ok tt, set_r (drop (Z.to_nat n) (r d)) d))
  /\ (len (r d) < n ->
      fst (skipBytes n d)
      = Fail (if len (r d) mod 1024 =? 0 then EOF else ErrUnexpectedEOF)
      /\ r (snd (skipBytes n d)) = []).
Proof.
  split; [|split].
  - intros Hn. unfold skipBytes.
    replace (Z.to_nat n) with 0%nat by lia. reflexivity.
  - intros Hn. apply skipBytes_ok; lia.
  - apply skipBytes_fail.
Qed.

Lemma X13_skipBytes_witness :
  skipBytes 4 (header_state mono_3x2)
  = (Ok tt, set_r (drop 4 (r (header_state mono_3x2)))
              (header_state mono_3x2))
  /\ fst (skipBytes 2000 (set_r (replicate 1024 zero_byte) (new_decoder [])))
     = Fail EOF
  /\ fst (skipBytes 2000 (set_r (replicate 1025 zero_byte) (new_decoder [])))
     = Fail ErrUnexpectedEOF.
Proof.
  split; [|split].
  - exact (proj1 (proj2 (X13_skipBytes 4 (header_state mono_3x2)))
             ltac:(vm_compute; split; [reflexivity | discriminate])).
  - exact (proj1 (proj2 (proj2 (X13_skipBytes 2000
             (set_r (replicate 1024 zero_byte) (new_decoder []))))
             ltac:(vm_compute; reflexivity))).
  - exact (proj1 (proj2 (proj2 (X13_skipBytes 2000
             (set_r (replicate 1025 zero_byte) (new_decoder []))))
             ltac:(vm_compute; reflexivity))).
Defined.

(** ** How the row loop fails *)

Section RowLoopFail.
Variables (stride cells h : Z) (td : bool).
Variable f : decodeRowFuncType.
Variable decode : list byte -> list byte.
Variable valid : list byte -> bool.
Variable st : list byte -> list byte -> decoder.
Hypothesis Hstride : 0 < stride.
Hypothesis Hcells : 0 <= cells.
Hypothesis Hst_r : forall pix data, r (st pix data) = data.
Hypothesis Hst_set :
  forall pix data data', set_r data' (st pix data) = st pix data'.
Hypothesis Hst_td : forall pix data, isTopDown (st pix data) = td.
Hypothesis Hst_h : forall pix data, height (st pix data) = h.
Hypothesis Hdec_len : forall buf, len buf = stride -> len (decode buf) = cells.
Hypothesis Hrow_ok : forall pix data buf j,
  0 <= j < h -> len buf = stride -> len pix = h * cells ->
  valid buf = true ->
  f buf j (st pix data)
  = (Ok tt, st (write_row pix (j * cells) (decode buf)) data).
Hypothesis Hrow_bad : forall pix data buf j,
  0 <= j < h -> len buf = stride -> len pix = h * cells ->
  valid buf = false ->
  fst (f buf j (st pix data))
  = Fail (FormatError "palette index out of range").

Lemma row_read_short s pix data :
  len data < stride ->
  fst (readBits_body stride f s (st pix data))
  = Fail (if len data =? 0 then EOF else ErrUnexpectedEOF).
Proof.
  intros Hl. unfold readBits_body. rewrite !bind_gets.
  destruct (bind_ReadFull_short stride
              (fun buf => f buf (if isTopDown (st pix data) then s
                                 else height (st pix data) - s - 1))
              (st pix data)) as [H1 _]; [rewrite Hst_r; exact Hl|].
  rewrite Hst_r in H1. exact H1.
Qed.

Lemma rows_fail m : forall (s : nat) pix data,
  Z.of_nat s + Z.of_nat m <= h ->
  len data < Z.of_nat m * stride ->
  len pix = h * cells ->
  (forall k : nat, (Z.of_nat k + 1) * stride <= len data ->
     valid (src_row stride data k) = true) ->
  fst (iterate m (Z.of_nat s) (readBits_body stride f) (st pix data))
  = Fail (if len data mod stride =? 0 then EOF else ErrUnexpectedEOF).
Proof.
  induction m as [|m IH]; intros s pix data Hs Hl Hpix Hv.
  - unfold len in Hl. lia.
  - cbn [iterate]. assert (Hl0 : 0 <= len data) by (unfold len; lia).
    destruct (Z_lt_ge_dec (len data) stride) as [Hlt|Hge].
    + rewrite Z.mod_small by lia.
      apply bind_Fail_fst, row_read_short, Hlt.
    + rewrite bind_eq.
      rewrite (readBits_body_step stride h td f st Hstride Hst_r Hst_set
                 Hst_td Hst_h) by nia.
      pose proof (dst_row_range h td st Hst_td (Z.of_nat s) ltac:(lia))
        as Hd.
      assert (Hbuf : len (take (Z.to_nat stride) data) = stride)
        by (rewrite len_take; nia).
      pose proof (Hv 0%nat ltac:(lia)) as Hv0. rewrite src_row_0 in Hv0.
      rewrite Hrow_ok; [| exact Hd | exact Hbuf | exact Hpix | exact Hv0].
      replace (Z.of_nat s + 1) with (Z.of_nat (S s)) by lia.
      rewrite IH.
      * rewrite len_drop_le by nia. rewrite Z2Nat.id by lia.
        replace (len data - stride) with (len data + (-1) * stride) by lia.
        rewrite Z.mod_add by lia. reflexivity.
      * lia.
      * rewrite len_drop_le by nia. nia.
      * rewrite len_write_row; [exact Hpix | nia |].
        rewrite Hdec_len by exact Hbuf. nia.
      * intros k Hk. rewrite src_row_drop. apply Hv.
        rewrite len_drop_le in Hk by nia. nia.
Qed.

Lemma rows_no_panic m : forall (s : nat) pix data,
  Z.of_nat s + Z.of_nat m <= h ->
  len pix = h * cells ->
  fst (iterate m (Z.of_nat s) (readBits_body stride f) (st pix data))
  <> Panic.
Proof.
  induction m as [|m IH]; intros s pix data Hs Hpix; [discriminate|].
  cbn [iterate].
  destruct (Z_lt_ge_dec (len data) stride) as [Hlt|Hge].
  - destruct (bind_Fail_fst (readBits_body stride f (Z.of_nat s))
                (fun _ => iterate m (Z.of_nat s + 1)
                            (readBits_body stride f))
                (st pix data) _ (row_read_short (Z.of_nat s) pix data Hlt))
      as [-> _].
    discriminate.
  - rewrite bind_eq.
    rewrite (readBits_body_step stride h td f st Hstride Hst_r Hst_set
               Hst_td Hst_h) by nia.
    pose proof (dst_row_range h td st Hst_td (Z.of_nat s) ltac:(lia)) as Hd.
    assert (Hbuf : len (take (Z.to_nat stride) data) = stride)
      by (rewrite len_take; nia).
    destruct (valid (take (Z.to_nat stride) data)) eqn:Ev.
    + rewrite Hrow_ok; [| exact Hd | exact Hbuf | exact Hpix | exact Ev].
      replace (Z.of_nat s + 1) with (Z.of_nat (S s)) by lia.
      apply IH; [lia|].
      rewrite len_write_row; [exact Hpix | nia |].
      rewrite Hdec_len by exact Hbuf. nia.
    + pose proof (Hrow_bad pix (drop (Z.to_nat stride) data) _ _
                    Hd Hbuf Hpix Ev) as Hb.
      destruct (f _ _ _) as [[a|e|] d']; cbn [fst] in *; congruence.
Qed.
End RowLoopFail.

Lemma readBits_pal_fail d0 rc pal pix data :
  1 <= width d0 < 2 ^ 31 -> 1 <= height d0 ->
  bitCount d0 = 1 \/ bitCount d0 = 4 \/ bitCount d0 = 8 ->
  len pix = height d0 * width d0 ->
  len data < height d0 * row_stride (width d0) (bitCount d0) ->
  (forall k : nat,
     (Z.of_nat k + 1) * row_stride (width d0) (bitCount d0) <= len data ->
     row_valid (bitCount d0) (Z.to_nat (width d0)) (dstPalNumEntries d0)
       (src_row (row_stride (width d0) (bitCount d0)) data k) = true) ->
  fst (readBits (pst_of rc pal d0 pix data))
  = Fail (if len data mod row_stride (width d0) (bitCount d0) =? 0
          then EOF else ErrUnexpectedEOF).
Proof.
  intros Hw Hh Hbc Hp Hl Hv. rewrite (readBits_pst d0 rc pal Hw Hbc).
  apply (rows_fail (row_stride (width d0) (bitCount d0)) (width d0)
           (height d0) (isTopDown d0) (decodeRow_for (bitCount d0))
           (decode_row_pal (bitCount d0) (Z.to_nat (width d0)))
           (row_valid (bitCount d0) (Z.to_nat (width d0))
              (dstPalNumEntries d0))
           (pst_of rc pal d0)
           (stride_pos d0 Hw Hbc) ltac:(lia) ltac:(reflexivity)
           ltac:(reflexivity) ltac:(reflexivity) ltac:(reflexivity)
           (fun buf _ => len_decode_row_pal d0 Hw buf)
           (pst_row_ok d0 rc pal Hw Hbc)
           (Z.to_nat (height d0)) 0%nat pix data); try lia; assumption.
Qed.

Lemma readBits_pal_no_panic d0 rc pal pix data :
  1 <= width d0 < 2 ^ 31 -> 1 <= height d0 ->
  bitCount d0 = 1 \/ bitCount d0 = 4 \/ bitCount d0 = 8 ->
  len pix = height d0 * width d0 ->
  fst (readBits (pst_of rc pal d0 pix data)) <> Panic.
Proof.
  intros Hw Hh Hbc Hp. rewrite (readBits_pst d0 rc pal Hw Hbc).
  apply (rows_no_panic (row_stride (width d0) (bitCount d0)) (width d0)
           (height d0) (isTopDown d0) (decodeRow_for (bitCount d0))
           (decode_row_pal (bitCount d0) (Z.to_nat (width d0)))
           (row_valid (bitCount d0) (Z.to_nat (width d0))
              (dstPalNumEntries d0))
           (pst_of rc pal d0)
           (stride_pos d0 Hw Hbc) ltac:(lia) ltac:(reflexivity)
           ltac:(reflexivity) ltac:(reflexivity) ltac:(reflexivity)
           (fun buf _ => len_decode_row_pal d0 Hw buf)
           (pst_row_ok d0 rc pal Hw Hbc) (pst_row_bad d0 rc pal Hw Hbc)
           (Z.to_nat (height d0)) 0%nat pix data); try lia; assumption.
Qed.

Lemma readBits_rgb_fail d0 rc pix data :
  1 <= width d0 < 2 ^ 31 -> 1 <= height d0 -> bitCount d0 = 24 ->
  len pix = height d0 * (4 * width d0) ->
  len data < height d0 * row_stride (width d0) 24 ->
  fst (readBits (nst_of rc d0 pix data))
  = Fail (if len data mod row_stride (width d0) 24 =? 0
          then EOF else ErrUnexpectedEOF).
Proof.
  intros Hw Hh Hbc Hp Hl. rewrite (readBits_nst d0 rc Hw Hbc).
  apply (rows_fail (row_stride (width d0) 24) (4 * width d0)
           (height d0) (isTopDown d0) (decodeRow_for 24)
           (decode_row_24 (Z.to_nat (width d0))) (fun _ => true)
           (nst_of rc d0)
           (stride24_pos d0 Hw) ltac:(lia) ltac:(reflexivity)
           ltac:(reflexivity) ltac:(reflexivity) ltac:(reflexivity)
           (fun buf _ => len_decode_row_24 d0 Hw buf)
           (nst_row_ok d0 rc Hw)
           (Z.to_nat (height d0)) 0%nat pix data);
    try lia; try assumption; try reflexivity.
Qed.

Lemma readBits_rgb_no_panic d0 rc pix data :
  1 <= width d0 < 2 ^ 31 -> 1 <= height d0 -> bitCount d0 = 24 ->
  len pix = height d0 * (4 * width d0) ->
  fst (readBits (nst_of rc d0 pix data)) <> Panic.
Proof.
  intros Hw Hh Hbc Hp. rewrite (readBits_nst d0 rc Hw Hbc).
  apply (rows_no_panic (row_stride (width d0) 24) (4 * width d0)
           (height d0) (isTopDown d0) (decodeRow_for 24)
           (decode_row_24 (Z.to_nat (width d0))) (fun _ => true)
           (nst_of rc d0)
           (stride24_pos d0 Hw) ltac:(lia) ltac:(reflexivity)
           ltac:(reflexivity) ltac:(reflexivity) ltac:(reflexivity)
           (fun buf _ => len_decode_row_24 d0 Hw buf)
           (nst_row_ok d0 rc Hw)
           (fun _ _ _ _ _ _ _ (H : true = false) =>
              False_ind _ (Bool.diff_true_false H))
           (Z.to_nat (height d0)) 0%nat pix data); try lia; assumption.
Qed.

Lemma Decode_return_no_panic d : fst (Decode_return d) <> Panic.
Proof.
  unfold Decode_return. rewrite bind_gets.
  destruct (dstHasPalette d); rewrite bind_gets; discriminate.
Qed.

Lemma Decode_bits_of_readBits d :
  (forall e, fst (readBits d) = Fail e -> fst (Decode_bits d) = Fail e)
  /\ (fst (readBits d) <> Panic -> fst (Decode_bits d) <> Panic).
Proof.
  unfold Decode_bits. split.
  - intros e H. apply bind_Fail_fst, H.
  - intros H. rewrite bind_eq.
    destruct (readBits d) as [[a|e|] d']; cbn [fst] in *;
      [apply Decode_return_no_panic | discriminate | congruence].
Qed.

(** the outcome of the row stage of [Decode] *)
Lemma Decode_bits_outcome input :
  header_parse false input = inr (header_state input) ->
  supported_depth (hdr_bitCount input) ->
  (len (pixel_data input) < img_height input * file_stride input ->
   (is_paletted (hdr_bitCount input) = true ->
    forall k : nat,
      (Z.of_nat k + 1) * file_stride input <= len (pixel_data input) ->
      row_valid (hdr_bitCount input) (Z.to_nat (img_width input))
        (dest_palette_len input) (file_row input k) = true) ->
   fst (Decode_bits (pixel_state input))
   = Fail (if len (pixel_data input) mod file_stride input =? 0
           then EOF else ErrUnexpectedEOF))
  /\ fst (Decode_bits (pixel_state input)) <> Panic.
Proof.
  intros Hhdr Hbc.
  destruct (header_ok_facts input Hhdr) as (Hl & Hw & Hh & Hc & Hn).
  destruct (header_fields_range input) as (_ & _ & Rbc & Rc & Rclr & Roff).
  destruct (after_palette_header input) as (Fw & Fh & Fbc & Ftd & Fhp).
  set (d1 := after_palette (header_state input)) in *.
  fold (img_width input) in Hw. fold (img_height input) in Hh.
  assert (Hwh : 0 <= img_width input * img_height input) by nia.
  unfold file_row, file_stride.
  destruct (is_paletted_depth _ Hbc) as [[Hp Hbc3]|[Hp Hbc24]].
  - destruct (pixel_state_pal input Hp ltac:(lia)) as [-> Hnp].
    fold d1 in Hnp |- *.
    set (pix0 := replicate _ zero_byte).
    assert (Hpix0 : len pix0 = height d1 * width d1)
      by (unfold pix0; rewrite len_replicate, Fw, Fh; lia).
    assert (Hw1 : 1 <= width d1 < 2 ^ 31) by (rewrite Fw; exact Hw).
    assert (Hh1 : 1 <= height d1) by (rewrite Fh; lia).
    assert (Hb1 : bitCount d1 = 1 \/ bitCount d1 = 4 \/ bitCount d1 = 8)
      by (rewrite Fbc; exact Hbc3).
    pose proof (readBits_pal_fail d1 (img_rect input) (dest_palette input)
                  pix0 (pixel_data input) Hw1 Hh1 Hb1 Hpix0) as Hfail.
    pose proof (readBits_pal_no_panic d1 (img_rect input)
                  (dest_palette input) pix0 (pixel_data input)
                  Hw1 Hh1 Hb1 Hpix0) as Hnp'.
    rewrite Fw, Fh, Fbc, Hnp in Hfail.
    split.
    + intros Hshort Hval.
      apply (proj1 (Decode_bits_of_readBits _)).
      apply Hfail; [exact Hshort | exact (Hval Hp)].
    + apply (proj2 (Decode_bits_of_readBits _)), Hnp'.
  - rewrite (pixel_state_rgb input Hp). fold d1.
    set (pix0 := replicate _ zero_byte).
    assert (Hpix0 : len pix0 = height d1 * (4 * width d1))
      by (unfold pix0; rewrite len_replicate, Fw, Fh; lia).
    assert (Hw1 : 1 <= width d1 < 2 ^ 31) by (rewrite Fw; exact Hw).
    assert (Hh1 : 1 <= height d1) by (rewrite Fh; lia).
    assert (Hb1 : bitCount d1 = 24) by (rewrite Fbc; exact Hbc24).
    pose proof (readBits_rgb_fail d1 (img_rect input) pix0
                  (pixel_data input) Hw1 Hh1 Hb1 Hpix0) as Hfail.
    pose proof (readBits_rgb_no_panic d1 (img_rect input) pix0
                  (pixel_data input) Hw1 Hh1 Hb1 Hpix0) as Hnp'.
    rewrite Fw, Fh in Hfail. rewrite Hbc24.
    split.
    + intros Hshort _.
      apply (proj1 (Decode_bits_of_readBits _)). apply Hfail, Hshort.
    + apply (proj2 (Decode_bits_of_readBits _)), Hnp'.
Qed.

(** ** How [Decode] fails after the headers *)

Lemma readPalette_fail d :
  srcPalSizeInBytes d = srcPalNumEntries d * 4 ->
  0 < srcPalNumEntries d <= 10000 ->
  len (r d) < srcPalNumEntries d * 4 ->
  fst (readPalette d)
  = Fail (if len (r d) =? 0 then EOF else ErrUnexpectedEOF).
Proof.
  intros Hsz Hn Hl. unfold readPalette.
  rewrite bind_gets, Hsz. rewrite make_ok by lia.
  rewrite bind_lift_Ok, len_replicate. rewrite Z2Nat.id by lia.
  apply bind_ReadFull_short. exact Hl.
Qed.

Lemma Decode_alloc_outcome d1 :
  1 <= width d1 -> 1 <= height d1 ->
  headerSize d1 = 40 -> bitFieldsSize d1 = 0 ->
  0 <= srcPalSizeInBytes d1 < 2 ^ 31 -> 0 <= bfOffBits d1 < 2 ^ 32 ->
  (~ fits d1 -> fst (Decode_alloc d1) = Panic)
  /\ (fits d1 -> bfOffBits d1 < 54 + srcPalSizeInBytes d1 ->
      fst (Decode_alloc d1) = Fail (FormatError "bad bfOffBits field"))
  /\ (fits d1 -> len (r d1) < bfOffBits d1 - (54 + srcPalSizeInBytes d1) ->
      fst (Decode_alloc d1)
      = Fail (if len (r d1) mod 1024 =? 0 then EOF else ErrUnexpectedEOF)).
Proof.
  intros Hw Hh Hhs Hbf Hsz Hoff.
  destruct (alloc_state_frame d1)
    as (_ & _ & _ & _ & Ahs & Abf & Asz & Aoff & _ & _ & Ar).
  split; [intros Hf; apply (Decode_alloc_panic d1 Hw Hh Hf)|].
  set (d2 := alloc_state d1) in *.
  assert (Hco : computed_offset d2 = 54 + srcPalSizeInBytes d1)
    by (unfold computed_offset; rewrite Ahs, Abf, Asz, Hhs, Hbf; lia).
  pose proof (readGap_eq d2 ltac:(rewrite Ahs; lia) ltac:(rewrite Abf; lia)
                ltac:(rewrite Asz; lia) ltac:(rewrite Aoff; lia)) as Hg.
  rewrite Hco, Aoff in Hg.
  assert (Hlen0 : 0 <= len (r d1)) by (unfold len; lia).
  split; intros Hf Hgap; rewrite (Decode_alloc_eq d1 Hw Hh Hf);
    unfold Decode_gap; fold d2; apply bind_Fail_fst; rewrite Hg.
  - destruct (54 + srcPalSizeInBytes d1 =? bfOffBits d1) eqn:E1; [lia|].
    destruct (54 + srcPalSizeInBytes d1 >? bfOffBits d1) eqn:E2; [|lia].
    reflexivity.
  - destruct (54 + srcPalSizeInBytes d1 =? bfOffBits d1) eqn:E1; [lia|].
    destruct (54 + srcPalSizeInBytes d1 >? bfOffBits d1) eqn:E2; [lia|].
    rewrite <- Ar. apply skipBytes_fail. rewrite Ar. exact Hgap.
Qed.

Section AfterHeaders.
Variable input : list byte.
Hypothesis Hhdr : header_parse false input = inr (header_state input).
Hypothesis Hcomp : hdr_compression input = 0.
Hypothesis Hbc : supported_depth (hdr_bitCount input).

Let n := src_palette_count input.
Let hs := header_state input.

Lemma after_headers_Decode :
  Decode input = observe (Decode_palette hs).
Proof.
  rewrite Decode_eq, Hhdr.
  rewrite Decode_checks_ok
    by (cbn [biCompression bitCount header_state]; assumption).
  reflexivity.
Qed.

Lemma after_headers_facts :
  54 <= len input /\ 0 <= n <= 10000 /\
  len (drop 54 input) = len input - 54 /\
  0 <= hdr_bfOffBits input < 2 ^ 32.
Proof.
  destruct (header_ok_facts input Hhdr) as (Hl & _ & _ & _ & Hn).
  destruct (header_fields_range input) as (_ & _ & _ & _ & _ & Roff).
  fold (src_palette_count input) in Hn. fold n in Hn.
  repeat split; try lia. rewrite len_drop_le; lia.
Qed.

Lemma after_headers_palette_short :
  len input < 54 + n * 4 ->
  fst (Decode input)
  = Fail (if len input =? 54 then EOF else ErrUnexpectedEOF).
Proof.
  intros Hl. destruct after_headers_facts as (H54 & Hn & Hd & _).
  rewrite after_headers_Decode, fst_observe.
  unfold Decode_palette. rewrite bind_gets.
  change (srcPalNumEntries hs) with n.
  destruct (n >? 0) eqn:En; [|lia].
  apply bind_Fail_fst.
  rewrite readPalette_fail.
  - change (r hs) with (drop 54 input). rewrite Hd.
    destruct (len input - 54 =? 0) eqn:E1;
      destruct (len input =? 54) eqn:E2; try reflexivity; lia.
  - reflexivity.
  - change (srcPalNumEntries hs) with n. lia.
  - change (srcPalNumEntries hs) with n.
    change (r hs) with (drop 54 input). lia.
Qed.

Lemma after_headers_alloc :
  54 + n * 4 <= len input ->
  Decode_palette hs = Decode_alloc (after_palette hs)
  /\ r (after_palette hs) = drop (Z.to_nat (n * 4)) (drop 54 input).
Proof.
  intros Hl. destruct after_headers_facts as (H54 & Hn & Hd & _).
  unfold Decode_palette, after_palette. rewrite bind_gets.
  change (srcPalNumEntries hs) with n. rewrite bind_if.
  destruct (n >? 0) eqn:En.
  - rewrite bind_eq. rewrite readPalette_eq;
      [| reflexivity | reflexivity
       | change (srcPalNumEntries hs) with n; lia
       | change (srcPalNumEntries hs) with n;
         change (r hs) with (drop 54 input); lia].
    split; [reflexivity|].
    destruct (palette_state_frame hs) as (_ & _ & _ & _ & _ & _ & _ & _
                                          & _ & ->).
    reflexivity.
  - rewrite bind_ret. split; [reflexivity|].
    replace n with 0 by lia. reflexivity.
Qed.

Lemma after_headers_frame :
  1 <= width (after_palette hs) /\ 1 <= height (after_palette hs) /\
  headerSize (after_palette hs) = 40 /\
  bitFieldsSize (after_palette hs) = 0 /\
  srcPalSizeInBytes (after_palette hs) = n * 4 /\
  bfOffBits (after_palette hs) = hdr_bfOffBits input /\
  (fits (after_palette hs) <-> fits hs).
Proof.
  destruct (header_ok_facts input Hhdr) as (_ & Hw & Hh & _).
  destruct (after_palette_frame hs)
    as (Pw & Ph & _ & _ & Phs & Pbf & Psz & Poff & Php).
  rewrite Pw, Ph, Phs, Pbf, Psz, Poff. unfold fits. rewrite Pw, Ph, Php.
  unfold hs. cbn [width height headerSize bitFieldsSize srcPalSizeInBytes
                  bfOffBits header_state].
  rewrite Hcomp. repeat split; try reflexivity; try lia; auto.
Qed.

Lemma after_headers_outcome :
  (54 + n * 4 <= len input -> ~ fits hs -> fst (Decode input) = Panic)
  /\ (54 + n * 4 <= len input -> fits hs ->
      hdr_bfOffBits input < 54 + n * 4 ->
      fst (Decode input) = Fail (FormatError "bad bfOffBits field"))
  /\ (54 + n * 4 <= len input -> fits hs ->
      len input < hdr_bfOffBits input ->
      fst (Decode input)
      = Fail (if (len input - (54 + n * 4)) mod 1024 =? 0
              then EOF else ErrUnexpectedEOF)).
Proof.
  destruct after_headers_facts as (H54 & Hn & Hd & Roff).
  destruct after_headers_frame as (Fw & Fh & Fhs & Fbf & Fsz & Foff & Ffits).
  assert (Hlr : 54 + n * 4 <= len input ->
            len (r (after_palette hs)) = len input - (54 + n * 4)).
  { intros Hl. destruct (after_headers_alloc Hl) as [_ ->].
    rewrite len_drop_le by lia. lia. }
  destruct (Decode_alloc_outcome (after_palette hs) Fw Fh Fhs Fbf
              ltac:(lia) ltac:(lia)) as (Ha & Hb & Hc).
  rewrite Fsz, Foff in Hb, Hc.
  split; [|split]; intros Hl; rewrite after_headers_Decode, fst_observe;
    rewrite (proj1 (after_headers_alloc Hl)).
  - intros Hf. apply Ha. tauto.
  - intros Hf Ho. apply Hb; tauto.
  - intros Hf Ho. rewrite <- (Hlr Hl). apply Hc; [tauto|].
    rewrite (Hlr Hl). lia.
Qed.

Lemma after_headers_rows :
  reach_bits input ->
  fst (Decode input) = fst (Decode_bits (pixel_state input)).
Proof.
  intros Hr. rewrite after_headers_Decode, fst_observe.
  destruct (Decode_palette_cases input Hhdr Hcomp) as [H _].
  unfold hs. rewrite (H Hr). reflexivity.
Qed.

Lemma after_headers_panic :
  fst (Decode input) = Panic ->
  54 + n * 4 <= len input /\ ~ fits hs.
Proof.
  intros HP. destruct after_headers_facts as (H54 & Hn & Hd & Roff).
  destruct after_headers_outcome as (_ & Hb & Hc).
  destruct (Z_lt_ge_dec (len input) (54 + n * 4)) as [Hl|Hl].
  { rewrite after_headers_palette_short in HP by exact Hl.
    destruct (len input =? 54); discriminate. }
  split; [lia|]. intros Hf.
  destruct (Z_lt_ge_dec (hdr_bfOffBits input) (54 + n * 4)) as [Ho|Ho].
  { rewrite Hb in HP by (lia || assumption). discriminate. }
  destruct (Z_lt_ge_dec (len input) (hdr_bfOffBits input)) as [Ho2|Ho2].
  { rewrite Hc in HP by (lia || assumption).
    destruct (_ =? 0); discriminate. }
  assert (Hr : reach_bits input)
    by (unfold reach_bits; fold (src_palette_count input); fold n;
        repeat split; [lia | lia | exact Hf]).
  rewrite (after_headers_rows Hr) in HP.
  apply (proj2 (Decode_bits_outcome input Hhdr Hbc)). exact HP.
Qed.
End AfterHeaders.

Lemma header_state_fits (b1 b2 : list byte) :
  hdr_width b1 = hdr_width b2 -> hdr_height b1 = hdr_height b2 ->
  hdr_bitCount b1 = hdr_bitCount b2 ->
  fits (header_state b1) -> fits (header_state b2).
Proof.
  unfold fits. cbn [dstHasPalette width height header_state].
  intros -> -> ->. auto.
Qed.

Lemma byte_at_take_Z (l : list byte) (n : nat) p :
  0 <= p < Z.of_nat n -> byte_at l p = byte_at (take n l) p.
Proof. intros H. symmetry. apply byte_at_take. exact H. Qed.

(** X14.  A truncated file never decodes to a partial image: when [Decode]
    succeeds on a file, it fails with io.EOF or io.ErrUnexpectedEOF on
    every prefix of the file that ends before the last byte of the last
    row. *)
Theorem X14_truncated_file (input : list byte) img rest (n : nat) :
  Decode input = (Ok img, rest) ->
  Z.of_nat n < len input - len rest ->
  fst (Decode (take n input)) = Fail EOF
  \/ fst (Decode (take n input)) = Fail ErrUnexpectedEOF.
Proof.
  intros H Hn.
  assert (Hio : forall c : bool,
            Fail (A := Image) (if c then EOF else ErrUnexpectedEOF)
            = Fail EOF
            \/ Fail (A := Image) (if c then EOF else ErrUnexpectedEOF)
               = Fail ErrUnexpectedEOF)
    by (intros []; auto).
  apply Decode_succeeds_iff in H. destruct H as (Hd & _ & ->).
  assert (Hdec : decodable input) by (apply decodable_iff, Hd).
  destruct (same_image_facts input Hdec) as (Hw & Hh & Hs & Hle & Hbc).
  destruct Hd as (Hl & Hsig & Hsz & Hw1 & Hh1 & Hc & Hclr & _ & Ho & Hr
                  & H24 & Hidx).
  destruct (header_fields_range input) as (_ & _ & _ & _ & _ & Roff).
  assert (Hrest : len (drop (Z.to_nat (hdr_bfOffBits input
                                        + img_height input
                                          * file_stride input)) input)
                  = len input - (hdr_bfOffBits input
                                 + img_height input * file_stride input))
    by (rewrite len_drop_le; nia).
  rewrite Hrest in Hn. clear Hrest.
  set (t := take n input).
  assert (Hlt : len t = Z.of_nat n)
    by (unfold t; rewrite len_take; unfold len in *; nia).
  assert (Hat : forall p, 0 <= p < Z.of_nat n -> byte_at input p = byte_at t p)
    by (intros p Hp; apply byte_at_take_Z, Hp).
  destruct (Z_lt_ge_dec (Z.of_nat n) 54) as [Hn54|Hn54].
  { rewrite Decode_eq. unfold header_parse. rewrite Hlt.
    destruct (Z.of_nat n =? 0) eqn:E0; [auto|].
    destruct (Z.of_nat n <? 18) eqn:E1; [auto|].
    assert (Hs1 : has_signature t = true).
    { rewrite <- Hsig. unfold has_signature.
      rewrite (Hat 0), (Hat 1) by lia. reflexivity. }
    assert (Hs2 : hdr_size t = 40).
    { rewrite <- Hsz. unfold hdr_size. symmetry.
      apply le32_at_agree. intros p Hp. apply Hat. lia. }
    rewrite Hs1, Hs2. change (40 =? 40) with true. cbn [negb].
    destruct (Z.of_nat n =? 18) eqn:E2; [auto|].
    destruct (Z.of_nat n <? 54) eqn:E3; [auto|lia]. }
  destruct (header_fields_agree input t ltac:(intros p Hp; apply Hat; lia))
    as (Fsig & Fsz & Fw & Fh & Fb & Fc & Fclr & Fo).
  assert (Hhdr : header_parse false t = inr (header_state t))
    by (apply header_parse_full_ok;
        rewrite <- ?Fsig, <- ?Fsz, <- ?Fw, <- ?Fh, <- ?Fc, <- ?Fclr;
        assumption || lia).
  assert (Hct : hdr_compression t = 0) by (rewrite <- Fc; exact Hc).
  assert (Hbt : supported_depth (hdr_bitCount t)) by (rewrite <- Fb; exact Hbc).
  assert (Fn : src_palette_count t = src_palette_count input)
    by (unfold src_palette_count; rewrite Fb, Fclr; reflexivity).
  assert (Fst : file_stride t = file_stride input)
    by (unfold file_stride, img_width; rewrite Fw, Fb; reflexivity).
  assert (Fht : img_height t = img_height input)
    by (unfold img_height; rewrite Fh; reflexivity).
  assert (Hfits : fits (header_state t)).
  { apply (header_state_fits input t Fw Fh Fb).
    destruct Hdec as (_ & _ & _ & (_ & _ & Hf) & _). exact Hf. }
  destruct (Z_lt_ge_dec (len t) (54 + src_palette_count t * 4)) as [Hp|Hp].
  { rewrite (after_headers_palette_short t Hhdr Hct Hbt) by exact Hp.
    apply Hio. }
  destruct (after_headers_outcome t Hhdr Hct Hbt) as (_ & _ & Hgap).
  destruct (Z_lt_ge_dec (len t) (hdr_bfOffBits t)) as [Hg|Hg].
  { rewrite Hgap by (assumption || lia). apply Hio. }
  assert (Hreach : reach_bits t).
  { unfold reach_bits. fold (src_palette_count t).
    rewrite Fn, <- Fo. repeat split; [lia | rewrite Fo; lia | exact Hfits]. }
  rewrite (after_headers_rows t Hhdr Hct Hbt Hreach).
  destruct (Decode_bits_outcome t Hhdr Hbt) as [Hrows _].
  assert (Hpd : len (pixel_data t) = Z.of_nat n - hdr_bfOffBits input)
    by (rewrite len_pixel_data; rewrite <- ?Fo; lia).
  rewrite Hrows; [apply Hio | rewrite Hpd, Fht, Fst; lia |].
  intros Hpal k Hk. rewrite Hpd, Fst in Hk.
  assert (Hkh : Z.of_nat k < img_height input) by nia.
  assert (Hn24 : hdr_bitCount input <> 24)
    by (rewrite <- Fb in Hpal; unfold is_paletted in Hpal; lia).
  assert (Hd3 : hdr_bitCount input = 1 \/ hdr_bitCount input = 4
                \/ hdr_bitCount input = 8)
    by (unfold supported_depth in Hbc; lia).
  replace (img_width t) with (img_width input) by exact Fw.
  rewrite <- Fb.
  replace (dest_palette_len t) with (dest_palette_len input)
    by (unfold dest_palette_len; rewrite Fn; reflexivity).
  destruct (decode_row_pal_ext (hdr_bitCount input)
              (Z.to_nat (img_width input)) (file_row input k)
              (file_row t k) Hd3) as [_ Ev].
  { intros j Hj. rewrite Z2Nat.id in Hj by lia.
    rewrite !byte_at_file_row by (rewrite ?Fst; lia).
    rewrite <- Fo, Fst. apply Hat. nia. }
  rewrite <- Ev. apply row_valid_iff. intros x Hx.
  apply Hidx; [exact Hn24 | exact Hkh | lia].
Qed.

Lemma X14_truncated_file_witness :
  fst (Decode (take 73 mono_3x2)) = Fail EOF
  \/ fst (Decode (take 73 mono_3x2)) = Fail ErrUnexpectedEOF.
Proof.
  exact (X14_truncated_file mono_3x2 (decoded_image mono_3x2) [] 73
           ltac:(vm_compute; reflexivity) ltac:(vm_compute; reflexivity)).
Defined.

(** X15.  [Decode] panics in one place only, the allocation of the image:
    no slice index of the decoder is ever out of range and no nil image is
    dereferenced.  It panics exactly on the files that have well-formed
    headers (the signature, header size 40, a width of at least 1, a height
    other than 0, at most 10000 declared colors), compression 0, a bit depth
    of 1, 4, 8 or 24 and all the bytes of their palette, and whose pixel
    buffer exceeds the allocation limit [maxAlloc]: width * |height| bytes
    at the paletted depths, 4 * width * |height| at 24 bits. *)
Theorem X15_Decode_panics_in_allocation_only (input : list byte) :
  fst (Decode input) = Panic
  <-> 54 + src_palette_count input * 4 <= len input /\
      has_signature input = true /\ hdr_size input = 40 /\
      1 <= hdr_width input /\ hdr_height input <> 0 /\
      hdr_compression input = 0 /\ hdr_clrUsed input <= 10000 /\
      supported_depth (hdr_bitCount input) /\
      maxAlloc < (if hdr_bitCount input =? 24 then 4 else 1)
                 * img_width input * img_height input.
Proof.
  destruct (header_fields_range input) as (Rw & Rh & Rbc & Rc & Rclr & Roff).
  split.
  - intros HP.
    destruct (header_parse false input) as [[e rs]|d] eqn:E.
    { rewrite Decode_eq, E in HP. discriminate. }
    destruct (header_parse_inv _ _ _ E)
      as (_ & Hsig & Hsz & Hw & Hh & _ & Hf).
    destruct (Hf eq_refl) as (_ & Hclr & ->).
    destruct (Z.eq_dec (hdr_compression input) 0) as [Hc|Hc].
    2:{ rewrite Decode_eq, E in HP.
        rewrite Decode_checks_compressed in HP by exact Hc. discriminate. }
    assert (Hsd : supported_depth (hdr_bitCount input)
                  \/ ~ supported_depth (hdr_bitCount input))
      by (unfold supported_depth; lia).
    destruct Hsd as [Hbc|Hbc].
    2:{ rewrite Decode_eq, E in HP.
        rewrite Decode_checks_bitcount in HP by assumption. discriminate. }
    destruct (after_headers_panic input E Hc Hbc HP) as [Hl Hnf].
    rewrite (fits_header_state input Hbc) in Hnf.
    repeat split; try assumption; lia.
  - intros (Hl & Hsig & Hsz & Hw & Hh & Hc & Hclr & Hbc & Hbig).
    assert (Hpc : 0 <= src_palette_count input)
      by (apply (palette_count_range (hdr_bitCount input)
                   (hdr_clrUsed input)); lia).
    assert (Hhdr : header_parse false input = inr (header_state input))
      by (apply header_parse_full_ok; assumption || lia).
    destruct (after_headers_outcome input Hhdr Hc Hbc) as (Hpanic & _).
    apply Hpanic; [exact Hl|].
    rewrite (fits_header_state input Hbc). lia.
Qed.

Lemma X15_Decode_panics_in_allocation_only_witness :
  fst (Decode huge_gray) = Panic /\ fst (Decode huge_rgb) = Panic.
Proof.
  split.
  - apply (proj2 (X15_Decode_panics_in_allocation_only huge_gray)).
    split; [vm_compute; discriminate|]. split; [reflexivity|].
    split; [reflexivity|]. split; [vm_compute; discriminate|].
    split; [vm_compute; discriminate|]. split; [reflexivity|].
    split; [vm_compute; discriminate|].
    split; [right; right; left; reflexivity|]. vm_compute. reflexivity.
  - apply (proj2 (X15_Decode_panics_in_allocation_only huge_rgb)).
    split; [vm_compute; discriminate|]. split; [reflexivity|].
    split; [reflexivity|]. split; [vm_compute; discriminate|].
    split; [vm_compute; discriminate|]. split; [reflexivity|].
    split; [vm_compute; discriminate|].
    split; [right; right; right; reflexivity|]. vm_compute. reflexivity.
Defined.

(** X16.  What [Decode] reports for a file with well-formed headers,
    compression 0, a supported bit depth and a pixel buffer within the
    allocation limit [maxAlloc] (four bytes for a pixel at 24 bits, one at
    the paletted depths), in the order of its stages: a file that ends inside the palette fails with an
    end-of-file error (io.EOF when it ends right after the headers); else a
    pixel-data offset before the end of the palette fails with "bad
    bfOffBits field"; else a file that ends before the pixel-data offset
    fails with an end-of-file error (io.EOF on a boundary of the 1024-byte
    reads of the gap); else, when rows are missing and every complete row
    has its indices in range, with an end-of-file error (io.EOF when the
    file ends on a row boundary). *)
Theorem X16_Decode_failure_order (input : list byte) :
  54 <= len input -> has_signature input = true -> hdr_size input = 40 ->
  1 <= hdr_width input -> hdr_height input <> 0 ->
  hdr_compression input = 0 -> hdr_clrUsed input <= 10000 ->
  supported_depth (hdr_bitCount input) ->
  (if hdr_bitCount input =? 24 then 4 else 1)
  * img_width input * img_height input <= maxAlloc ->
  (len input < 54 + src_palette_count input * 4 ->
   fst (Decode input)
   = Fail (if len input =? 54 then EOF else ErrUnexpectedEOF))
  /\ (54 + src_palette_count input * 4 <= len input ->
      hdr_bfOffBits input < 54 + src_palette_count input * 4 ->
      fst (Decode input) = Fail (FormatError "bad bfOffBits field"))
  /\ (54 + src_palette_count input * 4 <= len input ->
      len input < hdr_bfOffBits input ->
      fst (Decode input)
      = Fail (if (len input - (54 + src_palette_count input * 4)) mod 1024
                 =? 0
              then EOF else ErrUnexpectedEOF))
  /\ (54 + src_palette_count input * 4 <= hdr_bfOffBits input ->
      hdr_bfOffBits input <= len input ->
      len input
      < hdr_bfOffBits input + img_height input * file_stride input ->
      (hdr_bitCount input <> 24 ->
       forall k x : nat,
         hdr_bfOffBits input + (Z.of_nat k + 1) * file_stride input
         <= len input ->
         Z.of_nat x < img_width input ->
         pixel_index (hdr_bitCount input) (file_row input k) (Z.of_nat x)
         < dest_palette_len input) ->
      fst (Decode input)
      = Fail (if (len input - hdr_bfOffBits input) mod file_stride input
                 =? 0
              then EOF else ErrUnexpectedEOF)).
Proof.
  intros Hl Hsig Hsz Hw Hh Hc Hclr Hbc H24.
  destruct (header_fields_range input) as (Rw & Rh & _ & _ & _ & Roff).
  assert (Hhdr : header_parse false input = inr (header_state input))
    by (apply header_parse_full_ok; assumption || lia).
  assert (Hfits : fits (header_state input))
    by (apply (fits_header_state input Hbc); exact H24).
  destruct (after_headers_outcome input Hhdr Hc Hbc) as (_ & Hb & Hg).
  split; [apply (after_headers_palette_short input Hhdr Hc Hbc)|].
  split; [intros H1 H2; apply Hb; assumption|].
  split; [intros H1 H2; apply Hg; assumption|].
  intros Ho Hol Hshort Hidx.
  assert (Hr : reach_bits input)
    by (unfold reach_bits; fold (src_palette_count input);
        repeat split; assumption).
  rewrite (after_headers_rows input Hhdr Hc Hbc Hr).
  destruct (Decode_bits_outcome input Hhdr Hbc) as [Hrows _].
  rewrite <- (len_pixel_data input) by lia.
  apply Hrows; [rewrite len_pixel_data by lia; lia|].
  intros Hp k Hk. rewrite len_pixel_data in Hk by lia.
  apply row_valid_iff. intros x Hx.
  apply Hidx; [unfold is_paletted in Hp; lia | lia |].
  unfold img_width in *. lia.
Qed.

Lemma X16_Decode_failure_order_witness :
  fst (Decode mono_3x2_one_row) = Fail EOF
  /\ fst (Decode mono_3x2_early) = Fail (FormatError "bad bfOffBits field").
Proof.
  split.
  - refine (proj2 (proj2 (proj2 (X16_Decode_failure_order mono_3x2_one_row
              ltac:(vm_compute; discriminate) ltac:(vm_compute; reflexivity)
              ltac:(vm_compute; reflexivity) ltac:(vm_compute; discriminate)
              ltac:(vm_compute; discriminate) ltac:(vm_compute; reflexivity)
              ltac:(vm_compute; discriminate) ltac:(left; reflexivity)
              ltac:(vm_compute; discriminate))))
              ltac:(vm_compute; discriminate) ltac:(vm_compute; discriminate)
              ltac:(vm_compute; reflexivity) _).
    intros _ k x Hk Hx.
    replace (hdr_bfOffBits mono_3x2_one_row) with 66 in Hk
      by (vm_compute; reflexivity).
    replace (file_stride mono_3x2_one_row) with 4 in Hk
      by (vm_compute; reflexivity).
    replace (len mono_3x2_one_row) with 70 in Hk by (vm_compute; reflexivity).
    replace (img_width mono_3x2_one_row) with 3 in Hx
      by (vm_compute; reflexivity).
    destruct k as [|k]; [|lia].
    destruct x as [|[|[|x]]]; [| | |lia]; vm_compute; reflexivity.
  - exact (proj1 (proj2 (X16_Decode_failure_order mono_3x2_early
              ltac:(vm_compute; discriminate) ltac:(vm_compute; reflexivity)
              ltac:(vm_compute; reflexivity) ltac:(vm_compute; discriminate)
              ltac:(vm_compute; discriminate) ltac:(vm_compute; reflexivity)
              ltac:(vm_compute; discriminate) ltac:(left; reflexivity)
              ltac:(vm_compute; discriminate)))
              ltac:(vm_compute; discriminate) ltac:(vm_compute; reflexivity)).
Defined.

(** ** Header fields that are not used *)

Lemma lookup_byte_at (b1 b2 : list byte) (P : nat -> Prop) :
  (forall i : nat, P i -> b1 !! i = b2 !! i) ->
  forall p, 0 <= p -> P (Z.to_nat p) -> byte_at b1 p = byte_at b2 p.
Proof. intros H p Hp HP. apply byte_at_lookup, H, HP. Qed.

Section SameUsedHeader.
Variables b1 b2 : list byte.
Hypothesis Hlen : length b1 = length b2.
Hypothesis Hsame :
  forall i : nat,
    (i < 2 \/ 10 <= i < 26 \/ 28 <= i < 34 \/ 46 <= i < 50 \/ 54 <= i)%nat ->
    b1 !! i = b2 !! i.

Lemma used_byte_at p :
  0 <= p < 2 \/ 10 <= p < 26 \/ 28 <= p < 34 \/ 46 <= p < 50 \/ 54 <= p ->
  byte_at b1 p = byte_at b2 p.
Proof. intros H. apply byte_at_lookup, Hsame. lia. Qed.

Lemma used_fields :
  has_signature b1 = has_signature b2 /\ hdr_size b1 = hdr_size b2 /\
  hdr_width b1 = hdr_width b2 /\ hdr_height b1 = hdr_height b2 /\
  hdr_bitCount b1 = hdr_bitCount b2 /\
  hdr_compression b1 = hdr_compression b2 /\
  hdr_clrUsed b1 = hdr_clrUsed b2 /\ hdr_bfOffBits b1 = hdr_bfOffBits b2 /\
  drop 54 b1 = drop 54 b2.
Proof.
  unfold has_signature, hdr_size, hdr_width, hdr_height, hdr_bitCount,
    hdr_compression, hdr_clrUsed, hdr_bfOffBits.
  rewrite (used_byte_at 0), (used_byte_at 1) by lia.
  rewrite (le32_at_agree b1 b2 10), (le32_at_agree b1 b2 14),
    (le32_at_agree b1 b2 18), (le32_at_agree b1 b2 22),
    (le16_at_agree b1 b2 28), (le32_at_agree b1 b2 30),
    (le32_at_agree b1 b2 46) by (intros p Hp; apply used_byte_at; lia).
  repeat split; try reflexivity.
  apply drop_ext; [exact Hlen|]. intros i Hi. apply Hsame. lia.
Qed.

Lemma used_header_parse :
  match header_parse false b1, header_parse false b2 with
  | inl (e1, _), inl (e2, _) => e1 = e2
  | inr d1, inr d2 => d1 = d2
  | _, _ => False
  end.
Proof.
  destruct used_fields as (Fsig & Fsz & Fw & Fh & Fb & Fc & Fclr & Fo & Fd).
  unfold header_parse, header_state, len.
  rewrite Hlen, Fsig, Fsz, Fw, Fh, Fb, Fc, Fclr, Fo, Fd.
  repeat match goal with
         | |- context [if ?c then _ else _] => destruct c
         end; reflexivity.
Qed.

Lemma used_Decode : fst (Decode b1) = fst (Decode b2).
Proof.
  rewrite !Decode_eq. pose proof used_header_parse as H.
  destruct (header_parse false b1) as [[e1 r1]|d1];
    destruct (header_parse false b2) as [[e2 r2]|d2]; try contradiction.
  - subst e2. reflexivity.
  - subst d2. reflexivity.
Qed.
End SameUsedHeader.

(** X17.  Of the 54 header bytes, [Decode] uses the signature, the
    pixel-data offset, the header size, the width, the height, the bit
    depth, the compression and the colors-used count only: two files of the
    same length that differ only in the other header bytes (offsets 2 to 9,
    26 to 27, 34 to 45 and 50 to 53: file size, reserved, planes, image
    size, resolution, important colors) give the same image or the same
    error. *)
Theorem X17_unused_header_fields (b1 b2 : list byte) :
  length b1 = length b2 ->
  (forall i : nat,
     (i < 2 \/ 10 <= i < 26 \/ 28 <= i < 34 \/ 46 <= i < 50 \/ 54 <= i)%nat ->
     b1 !! i = b2 !! i) ->
  fst (Decode b1) = fst (Decode b2).
Proof. apply used_Decode. Qed.

Lemma X17_unused_header_fields_witness :
  mono_3x2_other_header <> mono_3x2
  /\ fst (Decode mono_3x2_other_header) = fst (Decode mono_3x2).
Proof.
  split; [vm_compute; discriminate|].
  apply (X17_unused_header_fields mono_3x2_other_header mono_3x2).
  - reflexivity.
  - intros i Hi.
    do 74 (destruct i as [|i]; [first [reflexivity | exfalso; lia]|]).
    reflexivity.
Defined.

(** X18.  The result of [DecodeConfig] on a file of at least 54 bytes
    depends on the signature, the header size, the width, the height and the
    bit depth only (offsets 0 to 1, 14 to 25 and 28 to 29): two such files
    that agree at these offsets give the same configuration or the same
    error, whatever their other bytes and their lengths. *)
Theorem X18_DecodeConfig_depends_on (b1 b2 : list byte) :
  54 <= len b1 -> 54 <= len b2 ->
  (forall i : nat,
     (i < 2 \/ 14 <= i < 26 \/ 28 <= i < 30)%nat -> b1 !! i = b2 !! i) ->
  fst (DecodeConfig b1) = fst (DecodeConfig b2).
Proof.
  intros H1 H2 Hsame.
  assert (Hat : forall p, 0 <= p < 2 \/ 14 <= p < 26 \/ 28 <= p < 30 ->
            byte_at b1 p = byte_at b2 p)
    by (intros p Hp; apply byte_at_lookup, Hsame; lia).
  assert (Fsig : has_signature b1 = has_signature b2)
    by (unfold has_signature; rewrite (Hat 0), (Hat 1) by lia; reflexivity).
  assert (Fsz : hdr_size b1 = hdr_size b2)
    by (apply le32_at_agree; intros p Hp; apply Hat; lia).
  assert (Fw : hdr_width b1 = hdr_width b2)
    by (unfold hdr_width; f_equal; apply le32_at_agree; intros p Hp;
        apply Hat; lia).
  assert (Fh : hdr_height b1 = hdr_height b2)
    by (unfold hdr_height; f_equal; apply le32_at_agree; intros p Hp;
        apply Hat; lia).
  assert (Fb : hdr_bitCount b1 = hdr_bitCount b2)
    by (apply le16_at_agree; intros p Hp; apply Hat; lia).
  rewrite !DecodeConfig_eq. unfold header_parse.
  rewrite Fsig, Fsz, Fw, Fh.
  destruct (len b1 =? 0) eqn:A1; [lia|].
  destruct (len b2 =? 0) eqn:A2; [lia|].
  destruct (len b1 <? 18) eqn:B1; [lia|].
  destruct (len b2 <? 18) eqn:B2; [lia|].
  destruct (negb (has_signature b2)); [reflexivity|].
  destruct (negb (hdr_size b2 =? 40)); [reflexivity|].
  destruct (len b1 =? 18) eqn:C1; [lia|].
  destruct (len b2 =? 18) eqn:C2; [lia|].
  destruct (len b1 <? 54) eqn:D1; [lia|].
  destruct (len b2 <? 54) eqn:D2; [lia|].
  destruct (hdr_width b2 <? 1); [reflexivity|].
  destruct (hdr_height b2 =? 0); [reflexivity|].
  rewrite !Config_return_eq. unfold observe. cbn [fst].
  cbn [dstHasPalette width height config_state].
  rewrite Fb, Fw, Fh. reflexivity.
Qed.

Lemma X18_DecodeConfig_depends_on_witness :
  fst (DecodeConfig rle_8bit) = fst (DecodeConfig rle_8bit_other).
Proof.
  apply X18_DecodeConfig_depends_on.
  - vm_compute. discriminate.
  - vm_compute. discriminate.
  - intros i Hi.
    do 30 (destruct i as [|i]; [first [reflexivity | exfalso; lia]|]).
    exfalso. lia.
Defined.

(** ** The registered magic *)

(** X19.  The magic string that [init] registers matches exactly the inputs
    of at least 10 bytes that start with "BM" and hold zero in the four
    reserved bytes at offsets 6 to 9; the file size at offsets 2 to 5 is
    free.  [Decode] itself never looks at the reserved bytes: a file that
    it decodes is recognized by the image package exactly when these four
    bytes are zero. *)
Theorem X19_registered_magic :
  (forall input : list byte,
     sniff bmp_magic input = true
     <-> 10 <= len input /\ has_signature input = true /\
         byte_at input 6 = 0 /\ byte_at input 7 = 0 /\
         byte_at input 8 = 0 /\ byte_at input 9 = 0)
  /\ (forall input img rest,
        Decode input = (Ok img, rest) ->
        (sniff bmp_magic input = true
         <-> byte_at input 6 = 0 /\ byte_at input 7 = 0 /\
             byte_at input 8 = 0 /\ byte_at input 9 = 0)).
Proof.
  assert (Hiff : forall input : list byte,
            sniff bmp_magic input = true
            <-> 10 <= len input /\ has_signature input = true /\
                byte_at input 6 = 0 /\ byte_at input 7 = 0 /\
                byte_at input 8 = 0 /\ byte_at input 9 = 0).
  { intros input. unfold sniff, has_signature, len.
    change (length bmp_magic) with 10%nat.
    destruct input
      as [|c0 [|c1 [|c2 [|c3 [|c4 [|c5 [|c6 [|c7 [|c8 [|c9 tl]]]]]]]]]];
      try (cbn [length]; split; [intros H; discriminate H | intros [H _]; lia]).
    unfold byte_at. cbn [length take bmp_magic bytes_of map match_magic].
    change (Z.to_nat 0) with 0%nat. change (Z.to_nat 1) with 1%nat.
    change (Z.to_nat 6) with 6%nat. change (Z.to_nat 7) with 7%nat.
    change (Z.to_nat 8) with 8%nat. change (Z.to_nat 9) with 9%nat.
    cbn [lookup list_lookup].
    replace (10 <=? S (S (S (S (S (S (S (S (S (S (length tl)))))))))))%nat
      with true by (symmetry; apply Nat.leb_le; lia).
    change (u8 (uint8 66)) with 66. change (u8 (uint8 77)) with 77.
    change (u8 (uint8 63)) with 63. change (u8 (uint8 0)) with 0.
    change (63 =? 63) with true.
    cbn [negb andb].
    rewrite !andb_false_r. cbn [negb andb].
    rewrite (Z.eqb_sym 66), (Z.eqb_sym 77), !(Z.eqb_sym 0).
    destruct (u8 c0 =? 66) eqn:E0; destruct (u8 c1 =? 77) eqn:E1;
      destruct (u8 c6 =? 0) eqn:E6; destruct (u8 c7 =? 0) eqn:E7;
      destruct (u8 c8 =? 0) eqn:E8; destruct (u8 c9 =? 0) eqn:E9;
      cbn [negb andb];
      (split; [intros H; try discriminate H; repeat split; lia
              | intros (_ & H & H6 & H7 & H8 & H9);
                try discriminate H; try reflexivity; lia]). }
  split; [exact Hiff|].
  intros input img rest H. apply Decode_Ok_iff in H.
  destruct H as ((Hhdr & _) & _).
  destruct (header_parse_inv _ _ _ Hhdr) as (Hl & Hsig & _).
  rewrite Hiff. split; [tauto|]. intros H. repeat split; try tauto. lia.
Qed.

Lemma X19_registered_magic_witness :
  sniff bmp_magic rgb_1x1 = true
  /\ fst (Decode rgb_1x1_sized) = fst (Decode rgb_1x1)
  /\ sniff bmp_magic rgb_1x1_sized = false.
Proof.
  split; [|split].
  - apply (proj2 (proj2 X19_registered_magic rgb_1x1
                    (decoded_image rgb_1x1) []
                    ltac:(vm_compute; reflexivity))).
    vm_compute. repeat split; reflexivity.
  - vm_compute. reflexivity.
  - destruct (sniff bmp_magic rgb_1x1_sized) eqn:E; [|reflexivity].
    apply (proj1 (proj2 X19_registered_magic rgb_1x1_sized
                    (decoded_image rgb_1x1_sized) []
                    ltac:(vm_compute; reflexivity))) in E.
    destruct E as (E & _). vm_compute in E. discriminate E.
Defined.
